(** * Ethics toolkit: the audit pipeline and its bias and privacy engines

    A shallow embedding of [src/src/pipeline.py], [src/src/privacy_analyzer.py]
    and [src/src/bias_detector.py], with the properties the specification
    states about them.

    Conventions of the embedding.
    - Python [str] is [string]; the text is taken to be ASCII, which is what
      [str.lower], [\d], [\s], [\b] and [re.IGNORECASE] are modelled on.
    - The floats of the bias engine are binary64 numbers, held as the
      rationals they are, every operation rounded to the nearest ([F64]).
      The ratios of counts of the privacy engine are held as the exact
      rationals.  The compliance score, a float that only ever holds whole
      numbers, is a [Z].
    - A [dict] is an association list in insertion order.
    - A call that may raise returns [exn].
    - Of the console output only that of the basic bias analysis is kept,
      as a log of events: it is all that analysis produces. *)

From Stdlib Require Import String Ascii List ZArith QArith Qround Qabs.
From Stdlib Require Import Lia Lqa.
From Stdlib Require Import Permutation Bool Arith DecimalString.
Import ListNotations.

Open Scope string_scope.
Open Scope Z_scope.

(* ================================================================== *)
(** ** Python values shared by the three source files *)

Module Py.

(** Exceptions caught by [except Exception], known by class and [str(e)]. *)
Record exception := { exc_class : string; exc_message : string }.

Inductive exn (A : Type) : Type :=
| Ok (a : A)
| Raise (e : exception).
Arguments Ok {A} a.
Arguments Raise {A} e.

Definition bind {A B : Type} (m : exn A) (f : A -> exn B) : exn B :=
  match m with
  | Ok a => f a
  | Raise e => Raise e
  end.

Definition ZeroDivisionError : exception :=
  {| exc_class := "ZeroDivisionError"; exc_message := "division by zero" |}.

(** The characters [repr] treats apart: the two quotes and the backslash. *)
Definition squote : ascii := ascii_of_nat 39.
Definition dquote : ascii := ascii_of_nat 34.
Definition backslash : ascii := ascii_of_nat 92.

Fixpoint has_char (c : ascii) (s : string) : bool :=
  match s with
  | EmptyString => false
  | String c' s' => (Ascii.eqb c c' || has_char c s')%bool
  end.

Definition hex_digit (n : nat) : ascii :=
  nth n (list_ascii_of_string "0123456789abcdef") "0"%char.

(** One character of [repr(s)] between the quotes [quote]: the quote and
    the backslash get a backslash, tab, line feed and carriage return their
    letter, the other control characters [\xhh]. *)
Definition escape (quote c : ascii) : string :=
  let n := nat_of_ascii c in
  if (Ascii.eqb c backslash || Ascii.eqb c quote)%bool then
    String backslash (String c EmptyString)
  else if (n =? 9)%nat then String backslash "t"
  else if (n =? 10)%nat then String backslash "n"
  else if (n =? 13)%nat then String backslash "r"
  else if ((n <? 32) || (n =? 127))%nat%bool then
    String backslash
      (String "x" (String (hex_digit (n / 16))
                     (String (hex_digit (n mod 16)) EmptyString)))
  else String c EmptyString.

Fixpoint escaped (quote : ascii) (s : string) : string :=
  match s with
  | EmptyString => EmptyString
  | String c s' => escape quote c ++ escaped quote s'
  end.

(** [repr(s)] for a [str] of ASCII characters: in single quotes, in double
    quotes when [s] has a single quote and no double one. *)
Definition repr (s : string) : string :=
  let quote :=
    if (has_char squote s && negb (has_char dquote s))%bool
    then dquote else squote in
  String quote (escaped quote s ++ String quote EmptyString).

(** [s.isascii()]. *)
Fixpoint isascii (s : string) : bool :=
  match s with
  | EmptyString => true
  | String c s' => ((nat_of_ascii c <? 128)%nat && isascii s')%bool
  end.

(** [str(e)] of a [KeyError] is [repr] of the key. *)
Definition KeyError (key : string) : exception :=
  {| exc_class := "KeyError"; exc_message := repr key |}.

(** [a / b] on two ints. *)
Definition truediv (a b : nat) : exn Q :=
  match b with
  | O => Raise ZeroDivisionError
  | S _ => Ok (Z.of_nat a # Pos.of_nat b)
  end.

(** [c.lower()] on one ASCII character. *)
Definition lower_ascii (c : ascii) : ascii :=
  if (Ascii.leb "A" c && Ascii.leb c "Z")%bool
  then ascii_of_nat (nat_of_ascii c + 32)
  else c.

(** [s.lower()]. *)
Fixpoint lower (s : string) : string :=
  match s with
  | EmptyString => EmptyString
  | String c s' => String (lower_ascii c) (lower s')
  end.

(** [sub in s] on strings. *)
Fixpoint contains (sub s : string) : bool :=
  (prefix sub s ||
   match s with
   | EmptyString => false
   | String _ s' => contains sub s'
   end)%bool.

(** [sep.join(xs)]. *)
Definition join (sep : string) (xs : list string) : string :=
  String.concat sep xs.

(** [str(n)] for a non-negative int. *)
Definition str_of_nat (n : nat) : string :=
  NilEmpty.string_of_uint (Nat.to_uint n).

(** [d.get(k)] on a dict held as an association list. *)
Fixpoint get {V : Type} (k : string) (d : list (string * V)) : option V :=
  match d with
  | [] => None
  | (k', v) :: d' => if String.eqb k k' then Some v else get k d'
  end.

(** [k in d]. *)
Definition has_key {V : Type} (k : string) (d : list (string * V)) : bool :=
  match get k d with Some _ => true | None => false end.

(** [d[k] = v]: an existing key keeps its place, a new one goes last. *)
Fixpoint set {V : Type} (k : string) (v : V) (d : list (string * V))
  : list (string * V) :=
  match d with
  | [] => [(k, v)]
  | (k', v') :: d' =>
      if String.eqb k k' then (k, v) :: d' else (k', v') :: set k v d'
  end.

End Py.

(* ================================================================== *)
(** ** Tables: what the engines use of [pandas.DataFrame] *)

Module Frame.

Inductive dtype := object | int64 | float64 | bool_.

Definition dtype_eqb (a b : dtype) : bool :=
  match a, b with
  | object, object | int64, int64 | float64, float64 | bool_, bool_ => true
  | _, _ => false
  end.

(** The values of one column.  An [object] column holds [str] values and
    the missing marker NaN, a [float64] column numbers and NaN; NaN is
    [None] here. *)
Inductive data :=
| Object (xs : list (option string))
| Int64 (xs : list Z)
| Float64 (xs : list (option Q))
| Bool (xs : list bool).

Record column := { col_name : string; col_data : data }.

(** [len(df)] is [nrows]; in a well-formed table every column has that many
    values.  The tables meant are those whose column names differ from
    each other, as [pd.read_csv] makes them: [df[name]] is then one column.
    For a repeated name pandas gives a table for [df[name]], whose [dtype]
    the engines ask for in vain; the properties that depend on a look-up
    by name state that the names differ. *)
Record DataFrame := { nrows : nat; columns : list column }.

Definition dtype_of (d : data) : dtype :=
  match d with
  | Object _ => object
  | Int64 _ => int64
  | Float64 _ => float64
  | Bool _ => bool_
  end.

(** One value of a column, whatever the column's kind. *)
Inductive cell :=
| CStr (s : string)
| CInt (n : Z)
| CFloat (x : Q)
| CBool (b : bool)
| CNaN.

Definition cells (d : data) : list cell :=
  match d with
  | Object xs =>
      map (fun x => match x with Some s => CStr s | None => CNaN end) xs
  | Int64 xs => map CInt xs
  | Float64 xs =>
      map (fun x => match x with Some q => CFloat q | None => CNaN end) xs
  | Bool xs => map CBool xs
  end.

Definition size (d : data) : nat := List.length (cells d).

Definition well_formed (df : DataFrame) : Prop :=
  Forall (fun c => size (col_data c) = nrows df) (columns df).

(** Equality of two values as pandas hashes them: numbers by value, NaN
    equal to NaN. *)
Definition cell_eqb (a b : cell) : bool :=
  match a, b with
  | CStr s, CStr t => String.eqb s t
  | CInt n, CInt m => Z.eqb n m
  | CFloat x, CFloat y => Qeq_bool x y
  | CBool x, CBool y => Bool.eqb x y
  | CNaN, CNaN => true
  | _, _ => false
  end.

Definition isna (c : cell) : bool :=
  match c with CNaN => true | _ => false end.

Fixpoint row_eqb (r1 r2 : list cell) : bool :=
  match r1, r2 with
  | [], [] => true
  | a :: r1', b :: r2' => (cell_eqb a b && row_eqb r1' r2')%bool
  | _, _ => false
  end.

(** Keep the first of every run of equal elements, in order of first
    appearance: [Series.unique] and [DataFrame.drop_duplicates]. *)
Fixpoint distinct {A : Type} (eqb : A -> A -> bool) (seen xs : list A)
  : list A :=
  match xs with
  | [] => []
  | x :: xs' =>
      if existsb (eqb x) seen then distinct eqb seen xs'
      else x :: distinct eqb (x :: seen) xs'
  end.

(** [s.unique()]. *)
Definition unique (xs : list cell) : list cell := distinct cell_eqb [] xs.

(** [s.nunique()]: missing values are not counted. *)
Definition nunique (d : data) : nat :=
  List.length (unique (filter (fun c => negb (isna c)) (cells d))).

(** [s.astype(str).values] on an [object] column. *)
Definition astype_str (xs : list (option string)) : list string :=
  map (fun x => match x with Some s => s | None => "nan" end) xs.

(** Row [i] of the table restricted to [cols]. *)
Definition row (cols : list column) (i : nat) : list cell :=
  map (fun c => nth i (cells (col_data c)) CNaN) cols.

(** The rows of [df[cols]]. *)
Definition rows (df : DataFrame) (cols : list column) : list (list cell) :=
  map (row cols) (seq 0 (nrows df)).

(** [df.drop_duplicates()] on rows. *)
Definition drop_duplicates (rs : list (list cell)) : list (list cell) :=
  distinct row_eqb [] rs.

(** [df[name]]: the column of that name, [KeyError] when there is none. *)
Fixpoint getitem (cols : list column) (name : string) : Py.exn column :=
  match cols with
  | [] => Py.Raise (Py.KeyError name)
  | c :: cols' =>
      if String.eqb (col_name c) name then Py.Ok c else getitem cols' name
  end.

End Frame.

(* ================================================================== *)
(** ** Regular expressions: what the PII patterns use of [re] *)

Module Regex.

Definition in_range (lo hi c : ascii) : bool :=
  (Ascii.leb lo c && Ascii.leb c hi)%bool.

Definition is_digit (c : ascii) : bool := in_range "0" "9" c.

Definition is_alpha (c : ascii) : bool :=
  (in_range "a" "z" c || in_range "A" "Z" c)%bool.

(** [\w] on ASCII text. *)
Definition is_word (c : ascii) : bool :=
  (is_alpha c || is_digit c || Ascii.eqb c "_")%bool.

(** [\s], also what [str.split()] cuts at: codes 9 to 13, 28 to 31 and the
    blank. *)
Definition is_space (c : ascii) : bool :=
  let n := nat_of_ascii c in
  ((9 <=? n) && (n <=? 13) || (28 <=? n) && (n <=? 32))%nat%bool.

Definition one_of (cs : string) (c : ascii) : bool :=
  existsb (Ascii.eqb c) (list_ascii_of_string cs).

(** The fragment of the pattern language the five patterns are written
    in.  A class is the set of characters it accepts, letters in both
    cases as under [re.IGNORECASE]. *)
Inductive re :=
| Chr (f : ascii -> bool)               (* one character of a class *)
| WordB                                 (* \b *)
| Cat (r1 r2 : re)                      (* r1 r2 *)
| Opt (r : re)                          (* r?  *)
| Times (n : nat) (f : ascii -> bool)   (* f{n} *)
| AtLeast (n : nat) (f : ascii -> bool) (* f{n,}; f+ is f{1,} *).

Fixpoint cat (rs : list re) : re :=
  match rs with
  | [] => Times 0 (fun _ => false)
  | [r] => r
  | r :: rs' => Cat r (cat rs')
  end.

(** A continuation gets the character before the current position and the
    text from it on, and answers with what the whole match leaves. *)
Definition cont := option ascii -> string -> option string.

Definition word_before (prev : option ascii) : bool :=
  match prev with Some c => is_word c | None => false end.

Definition word_here (s : string) : bool :=
  match s with String c _ => is_word c | EmptyString => false end.

(** [f*], longest first. *)
Fixpoint star (f : ascii -> bool) (prev : option ascii) (s : string)
  (k : cont) : option string :=
  match s with
  | String c s' =>
      if f c then
        match star f (Some c) s' k with
        | Some rest => Some rest
        | None => k prev s
        end
      else k prev s
  | EmptyString => k prev s
  end.

Fixpoint times (n : nat) (f : ascii -> bool) (prev : option ascii)
  (s : string) (k : cont) : option string :=
  match n with
  | O => k prev s
  | S n' =>
      match s with
      | String c s' => if f c then times n' f (Some c) s' k else None
      | EmptyString => None
      end
  end.

(** The backtracking matcher: the first success in the order in which [re]
    tries the alternatives. *)
Fixpoint run (r : re) (prev : option ascii) (s : string) (k : cont)
  : option string :=
  match r with
  | Chr f =>
      match s with
      | String c s' => if f c then k (Some c) s' else None
      | EmptyString => None
      end
  | WordB => if xorb (word_before prev) (word_here s) then k prev s else None
  | Cat r1 r2 => run r1 prev s (fun p t => run r2 p t k)
  | Opt r' =>
      match run r' prev s k with
      | Some rest => Some rest
      | None => k prev s
      end
  | Times n f => times n f prev s k
  | AtLeast n f => times n f prev s (fun p t => star f p t k)
  end.

(** [pattern.match] at the current position: what is left after the
    match. *)
Definition match_here (r : re) (prev : option ascii) (s : string)
  : option string :=
  run r prev s (fun _ rest => Some rest).

(** The scan of [re.findall]: matches from left to right, none inside
    another; [skip] characters are still covered by the last match.  The
    list holds the matched texts ([findall] hands out a group's text when
    the pattern has a group; the length is the same). *)
Fixpoint scan (r : re) (prev : option ascii) (s : string) (skip : nat)
  : list string :=
  match s with
  | EmptyString =>
      match skip, match_here r prev s with
      | O, Some _ => [EmptyString]
      | _, _ => []
      end
  | String c s' =>
      match skip with
      | S n => scan r (Some c) s' n
      | O =>
          match match_here r prev s with
          | Some rest =>
              let len := (String.length s - String.length rest)%nat in
              substring 0 len s :: scan r (Some c) s' (len - 1)
          | None => scan r (Some c) s' 0
          end
      end
  end.

Definition findall (r : re) (s : string) : list string := scan r None s 0.

End Regex.

(* ================================================================== *)
(** ** The privacy engine: [privacy_analyzer.py] *)

Module Privacy.
Import Py Frame Regex.

Definition digit : ascii -> bool := is_digit.
Definition alnum (c : ascii) : bool := (is_alpha c || is_digit c)%bool.

(** [\b[A-Za-z0-9._%+-]+@[A-Za-z0-9.-]+\.[A-Z|a-z]{2,}\b] *)
Definition email_re : re :=
  cat [ WordB;
        AtLeast 1 (fun c => alnum c || one_of "._%+-" c)%bool;
        Chr (one_of "@");
        AtLeast 1 (fun c => alnum c || one_of ".-" c)%bool;
        Chr (one_of ".");
        AtLeast 2 (fun c => is_alpha c || one_of "|" c)%bool;
        WordB ].

(** [\b\d{3}[-.]?\d{3}[-.]?\d{4}\b] *)
Definition phone_re : re :=
  cat [ WordB; Times 3 digit; Opt (Chr (one_of "-.")); Times 3 digit;
        Opt (Chr (one_of "-.")); Times 4 digit; WordB ].

(** [\b\d{3}-\d{2}-\d{4}\b] *)
Definition ssn_re : re :=
  cat [ WordB; Times 3 digit; Chr (one_of "-"); Times 2 digit;
        Chr (one_of "-"); Times 4 digit; WordB ].

Definition dash_or_space (c : ascii) : bool :=
  (one_of "-" c || is_space c)%bool.

(** [\b\d{4}[-\s]?\d{4}[-\s]?\d{4}[-\s]?\d{4}\b] *)
Definition credit_card_re : re :=
  cat [ WordB; Times 4 digit; Opt (Chr dash_or_space); Times 4 digit;
        Opt (Chr dash_or_space); Times 4 digit; Opt (Chr dash_or_space);
        Times 4 digit; WordB ].

(** [\b\d{5}(-\d{4})?\b] *)
Definition zipcode_re : re :=
  cat [ WordB; Times 5 digit; Opt (Cat (Chr (one_of "-")) (Times 4 digit));
        WordB ].

(** [self.pii_patterns], in the order of the dict. *)
Definition pii_patterns : list (string * re) :=
  [ ("email", email_re); ("phone", phone_re); ("ssn", ssn_re);
    ("credit_card", credit_card_re); ("zipcode", zipcode_re) ].

Definition first_names : list string :=
  [ "john"; "mary"; "james"; "patricia"; "robert"; "jennifer";
    "michael"; "linda"; "william"; "elizabeth"; "david"; "barbara" ].

Definition last_names : list string :=
  [ "smith"; "johnson"; "williams"; "brown"; "jones"; "garcia";
    "miller"; "davis"; "rodriguez"; "martinez"; "hernandez" ].

(** [sum(1 for name in names if name in text_lower)] *)
Definition name_count (names : list string) (text_lower : string) : nat :=
  List.length (filter (fun name => contains name text_lower) names).

Definition _detect_names (text : string) : list string :=
  let text_lower := lower text in
  let first_name_count := name_count first_names text_lower in
  let last_name_count := name_count last_names text_lower in
  (if (0 <? first_name_count)%nat
   then ["potential_first_names: " ++ str_of_nat first_name_count]
   else []) ++
  (if (0 <? last_name_count)%nat
   then ["potential_last_names: " ++ str_of_nat last_name_count]
   else []).

(** The findings of the five patterns on one text:
    ["<kind>: <n> instances"] for every pattern with a match. *)
Definition pattern_findings (text_data : string) : list string :=
  flat_map
    (fun '(pii_type, pattern) =>
       match findall pattern text_data with
       | [] => []
       | matches =>
           [pii_type ++ ": " ++ str_of_nat (List.length matches)
              ++ " instances"]
       end)
    pii_patterns.

(** The text of a column: [' '.join(df[column].astype(str).values)]. *)
Definition text_of (xs : list (option string)) : string :=
  join " " (astype_str xs).

(** The body of the loop of [_detect_pii] for one column. *)
Definition column_pii (c : column) : list string :=
  match col_data c with
  | Object xs =>
      let text_data := text_of xs in
      pattern_findings text_data ++ _detect_names text_data
  | _ => []
  end.

Definition _detect_pii (df : DataFrame) : list (string * list string) :=
  fold_left
    (fun pii_found c =>
       match column_pii c with
       | [] => pii_found
       | found => set (col_name c) found pii_found
       end)
    (columns df) [].

(** [potential_qi], in the order of the dict. *)
Definition potential_qi : list (string * list string) :=
  [ ("age", ["age"; "birth_year"; "dob"]);
    ("location", ["zip"; "zipcode"; "city"; "state"; "address"; "location"]);
    ("demographic", ["gender"; "race"; "ethnicity"; "marital_status"]);
    ("professional", ["job_title"; "employer"; "salary"; "income"]);
    ("temporal", ["date"; "timestamp"; "time"]) ].

(** [any(keyword in col.lower() for keyword in keywords)] *)
Definition any_keyword (keywords : list string) (col : string) : bool :=
  existsb (fun keyword => contains keyword (lower col)) keywords.

(** [list(set(quasi_identifiers))].  Python leaves the order of the result
    open; here it is the order of first appearance. *)
Definition list_set (xs : list string) : list string :=
  distinct String.eqb [] xs.

Definition _detect_quasi_identifiers (df : DataFrame) : list string :=
  let quasi_identifiers :=
    flat_map
      (fun '(_, keywords) =>
         filter (any_keyword keywords) (map col_name (columns df)))
      potential_qi in
  list_set quasi_identifiers.

(** [df[col].dtype in ['object', 'int64', 'float64']] *)
Definition eligible (c : column) : bool :=
  match dtype_of (col_data c) with
  | object | int64 | float64 => true
  | bool_ => false
  end.

(** The first loop of [_analyze_uniqueness]. *)
Fixpoint column_ratios (n : nat) (cols : list column)
  (uniqueness_risk : list (string * Q)) : exn (list (string * Q)) :=
  match cols with
  | [] => Ok uniqueness_risk
  | col :: cols' =>
      if eligible col then
        bind (truediv (nunique (col_data col)) n) (fun unique_ratio =>
        column_ratios n cols' (set (col_name col) unique_ratio uniqueness_risk))
      else column_ratios n cols' uniqueness_risk
  end.

Definition important_cols (df : DataFrame) : list column :=
  firstn 3 (filter eligible (columns df)).

Definition combo_key : string := "combination_2-3_cols".

Definition _analyze_uniqueness (df : DataFrame) : exn (list (string * Q)) :=
  bind (column_ratios (nrows df) (columns df) []) (fun uniqueness_risk =>
  if (0 <? nrows df)%nat then
    if (2 <=? List.length (important_cols df))%nat then
      let combo_df := drop_duplicates (rows df (important_cols df)) in
      bind (truediv (List.length combo_df) (nrows df)) (fun combo_uniqueness =>
      Ok (set combo_key combo_uniqueness uniqueness_risk))
    else Ok uniqueness_risk
  else Ok uniqueness_risk).

Record results := {
  pii_detected : list (string * list string);
  quasi_identifiers : list string;
  uniqueness_risk : list (string * Q);
  recommendations : list string
}.

(** The padlock sign that opens every recommendation is held as the bytes
    of its encoding. *)
Definition _generate_recommendations (analysis_results : results)
  : list string :=
  (match pii_detected analysis_results with
   | [] => []
   | _ => [ "🔒 Remove or encrypt detected PII before model training";
            "🔒 Consider data anonymization techniques" ]
   end) ++
  (match quasi_identifiers analysis_results with
   | [] => []
   | _ => [ "🔒 Apply k-anonymity or l-diversity to quasi-identifiers";
            "🔒 Consider generalization/suppression of sensitive attributes" ]
   end) ++
  (match filter (fun '(_, ratio) => negb (Qle_bool ratio (9 # 10)))
           (uniqueness_risk analysis_results) with
   | [] => []
   | _ => [ "🔒 Reduce granularity of highly unique columns";
            "🔒 Consider data aggregation or binning" ]
   end) ++
  [ "🔒 Implement differential privacy for model training";
    "🔒 Use secure multi-party computation for sensitive data";
    "🔒 Regular privacy audits and monitoring" ].

Definition analyze_dataset (df : DataFrame) : exn results :=
  let pii := _detect_pii df in
  let qi := _detect_quasi_identifiers df in
  bind (_analyze_uniqueness df) (fun uniq =>
  let res := {| pii_detected := pii; quasi_identifiers := qi;
                uniqueness_risk := uniq; recommendations := [] |} in
  Ok {| pii_detected := pii; quasi_identifiers := qi;
        uniqueness_risk := uniq;
        recommendations := _generate_recommendations res |}).

(** *** The hash seed

    [list(set(...))] lists the distinct names in an order that follows the
    hash seed of the process, so that two runs may list the same
    quasi-identifiers differently.  [order] is the order of a run: what it
    makes of the distinct names taken in order of first appearance.  The
    definitions above are those of a run that leaves them in that order. *)
Section HashSeed.

Variable order : list string -> list string.

Definition list_set_in (xs : list string) : list string :=
  order (list_set xs).

Definition _detect_quasi_identifiers_in (df : DataFrame) : list string :=
  let quasi_identifiers :=
    flat_map
      (fun '(_, keywords) =>
         filter (any_keyword keywords) (map col_name (columns df)))
      potential_qi in
  list_set_in quasi_identifiers.

Definition analyze_dataset_in (df : DataFrame) : exn results :=
  let pii := _detect_pii df in
  let qi := _detect_quasi_identifiers_in df in
  bind (_analyze_uniqueness df) (fun uniq =>
  let res := {| pii_detected := pii; quasi_identifiers := qi;
                uniqueness_risk := uniq; recommendations := [] |} in
  Ok {| pii_detected := pii; quasi_identifiers := qi;
        uniqueness_risk := uniq;
        recommendations := _generate_recommendations res |}).

End HashSeed.

End Privacy.

(* ------------------------------------------------------------------ *)
(** *** Analysis of model outputs *)

Module PrivacyOutputs.
Import Py Frame Regex Privacy.

(** [output.split()]: the runs of characters between white space;
    [word] is the run being read. *)
Fixpoint split_from (s word : string) : list string :=
  match s with
  | EmptyString =>
      match word with EmptyString => [] | _ => [word] end
  | String c s' =>
      if is_space c then
        match word with
        | EmptyString => split_from s' EmptyString
        | _ => word :: split_from s' EmptyString
        end
      else split_from s' (word ++ String c EmptyString)
  end.

Definition split (s : string) : list string := split_from s EmptyString.

(** The values of the [object] columns, as text. *)
Definition training_text (training_data : DataFrame) : list string :=
  flat_map
    (fun col =>
       match col_data col with
       | Object xs => astype_str xs
       | _ => []
       end)
    (columns training_data).

Definition _check_data_leakage (outputs : list string)
  (training_data : DataFrame) : exn Q :=
  let training_text_set := training_text training_data in
  let tokens := flat_map split outputs in
  let total_tokens := List.length tokens in
  let matches :=
    List.length
      (filter (fun token => existsb (String.eqb token) training_text_set)
         tokens) in
  if (0 <? total_tokens)%nat then truediv matches total_tokens else Ok 0%Q.

Record output_results := {
  pii_in_outputs : list (string * nat);
  data_leakage_risk : Q;
  output_recommendations : list string
}.

Definition analyze_model_outputs (outputs : list string)
  (training_data : option DataFrame) : exn output_results :=
  let combined_output := join " " outputs in
  let pii :=
    fold_left
      (fun found '(pii_type, pattern) =>
         match findall pattern combined_output with
         | [] => found
         | matches => set pii_type (List.length matches) found
         end)
      pii_patterns [] in
  bind (match training_data with
        | Some td => _check_data_leakage outputs td
        | None => Ok 0%Q
        end) (fun leakage_score =>
  Ok {| pii_in_outputs := pii; data_leakage_risk := leakage_score;
        output_recommendations := [] |}).

End PrivacyOutputs.

(* ================================================================== *)
(** ** Floats: binary64 arithmetic as the bias engine uses it

    A float is held as the rational it is.  [round] gives the binary64
    number nearest a rational, a tie going to the even mantissa; the range
    of the exponent ends below at 2^-1074, and no upper end is modelled
    (no infinities).  Each operation is the exact one, rounded. *)

Module F64.

(** [np.rint]: the nearest whole number, a tie going to the even one. *)
Definition rint (x : Q) : Z :=
  let f := Qfloor x in
  match Qcompare (x - inject_Z f) (1 # 2) with
  | Lt => f
  | Gt => f + 1
  | Eq => if Z.even f then f else f + 1
  end.

Definition pow2 (e : Z) : Q :=
  match e with
  | Z0 => 1%Q
  | Zpos p => inject_Z (2 ^ Zpos p)
  | Zneg p => (1 # (2 ^ p))%Q
  end.

(** The whole part of the binary logarithm of [x > 0]. *)
Definition ilog2 (x : Q) : Z :=
  if Qle_bool 1 x then Z.log2 (Qfloor x)
  else - Z.log2_up (Qceiling (/ x)).

(** The exponent of the last place of the float nearest [x]: 52 places
    under its leading bit, and not under 2^-1074. *)
Definition ulp_exp (x : Q) : Z := Z.max (ilog2 (Qabs x) - 52) (-1074).

Definition round (x : Q) : Q :=
  let x := Qred x in
  if Qeq_bool x 0 then 0%Q
  else
    let e := ulp_exp x in
    Qred (inject_Z (rint (x / pow2 e)) * pow2 e).

Definition add (a b : Q) : Q := round (a + b).
Definition sub (a b : Q) : Q := round (a - b).
Definition mul (a b : Q) : Q := round (a * b).
Definition div (a b : Q) : Q := round (a / b).

(** One step of the sum of a group as pandas adds it up, with a
    compensation term for what the last addition lost. *)
Definition kahan (acc : Q * Q) (val : Q) : Q * Q :=
  let '(sumx, compensation) := acc in
  let y := sub val compensation in
  let t := add sumx y in
  (t, sub (sub t sumx) y).

Definition sum (xs : list Q) : Q := fst (fold_left kahan xs (0%Q, 0%Q)).

End F64.

(* ================================================================== *)
(** ** The bias engine: [bias_detector.py] *)

Module Bias.
Import Py Frame.

(** A value held in the report: a table or a number of the fairness
    library, known by what [str()] gives for it. *)
Record object := { str : string }.

Record BiasDetector := {
  dataset : DataFrame;
  label_column : string;
  protected_attributes : list string;
  X_processed : option DataFrame;
  y_processed : option data;
  results : list (string * object)
}.

(** One row of [group_stats]. *)
Record group_row := {
  group : cell;
  total_cases : nat;
  approvals : Q;
  approval_rate : option Q       (* NaN for a group without labels *)
}.

(** What [basic_bias_analysis] prints. *)
Inductive event :=
| Heading (text : string)
| LabelSkipped (label : string)
| Converted (attr : string)
| GroupStats (table : list group_row)
| Ratio (disparate_impact_ratio : Q)
| BiasWarning
| NoBias.

(** [x.round(4)] as numpy does it: the float [x * 10000] is taken to the
    nearest whole number, and that is divided by 10000. *)
Definition round4 (x : Q) : Q :=
  F64.div (inject_Z (F64.rint (F64.mul x 10000))) 10000.

(** The label as numbers: a text label with two values is mapped to 0 and
    1 in the order of [unique()], one with another number of values gives
    [None]; a numeric label is taken as it is. *)
Definition label_values (d : data) : option (list (option Q)) :=
  match d with
  | Object _ =>
      match unique (cells d) with
      | [u0; u1] =>
          Some (map (fun c =>
                       if cell_eqb c u0 then Some 0%Q
                       else if cell_eqb c u1 then Some 1%Q
                       else None)
                    (cells d))
      | _ => None
      end
  | Int64 xs => Some (map (fun n => Some (inject_Z n)) xs)
  | Float64 xs => Some xs
  | Bool xs => Some (map (fun b : bool => Some (if b then 1%Q else 0%Q)) xs)
  end.

Definition cell_leb (a b : cell) : bool :=
  match a, b with
  | CStr s, CStr t => String.leb s t
  | CInt n, CInt m => Z.leb n m
  | CFloat x, CFloat y => Qle_bool x y
  | CBool x, CBool y => implb x y
  | _, _ => true
  end.

Fixpoint insert_key (k : cell) (ks : list cell) : list cell :=
  match ks with
  | [] => [k]
  | k' :: ks' => if cell_leb k k' then k :: ks else k' :: insert_key k ks'
  end.

(** The keys of [groupby]: the values present, in increasing order. *)
Definition group_keys (keys : list cell) : list cell :=
  fold_right insert_key [] (unique (filter (fun c => negb (isna c)) keys)).

(** The labels that are numbers. *)
Fixpoint present (xs : list (option Q)) : list Q :=
  match xs with
  | [] => []
  | Some x :: xs' => x :: present xs'
  | None :: xs' => present xs'
  end.

(** [.agg(['count', 'sum', 'mean']).round(4)] for the group of [key]: the
    sum and the mean are floats, the mean the sum over the count.  (A sum
    of int64 labels is an int64 in pandas, the same number as long as it
    is under 2^53.) *)
Definition agg (rows : list (cell * option Q)) (key : cell) : group_row :=
  let labels :=
    present (map snd (filter (fun r => cell_eqb (fst r) key) rows)) in
  let count := List.length labels in
  let total := F64.sum labels in
  {| group := key;
     total_cases := count;
     approvals := round4 total;
     approval_rate :=
       match count with
       | O => None
       | S _ => Some (round4 (F64.div total (inject_Z (Z.of_nat count))))
       end |}.

(** [temp_dataset.groupby(attr)[label].agg(...)] on the rows given as
    pairs of the attribute's value and the label. *)
Definition group_stats_of (rows : list (cell * option Q)) : list group_row :=
  map (agg rows) (group_keys (map fst rows)).

Definition rates (table : list group_row) : list Q :=
  present (map approval_rate table).

(** [s.max()] and [s.min()], NaN left out; NaN when nothing is left. *)
Definition max_of (xs : list Q) : option Q :=
  match xs with
  | [] => None
  | x :: xs' =>
      Some (fold_left (fun a b => if Qle_bool a b then b else a) xs' x)
  end.

Definition min_of (xs : list Q) : option Q :=
  match xs with
  | [] => None
  | x :: xs' =>
      Some (fold_left (fun a b => if Qle_bool b a then b else a) xs' x)
  end.

Definition Qlt_bool (a b : Q) : bool := negb (Qle_bool b a).

(** Lines 72 to 83: the ratio, a float division, and the flag when it is
    under the float [0.8]. *)
Definition disparate_impact (table : list group_row) : list event :=
  match max_of (rates table), min_of (rates table) with
  | Some max_rate, Some min_rate =>
      if Qlt_bool 0 max_rate then
        let disparate_impact_ratio := F64.div min_rate max_rate in
        [ Ratio disparate_impact_ratio;
          if Qlt_bool disparate_impact_ratio (F64.round (8 # 10))
          then BiasWarning else NoBias ]
      else []
  | _, _ => []
  end.

Definition numeric_like (attr : string) : bool :=
  existsb (String.eqb (lower attr)) ["age"; "income"].

(** [s.map(mapping)] as a column: whole numbers when every value has one,
    floats with NaN otherwise. *)
Definition mapped (labels : list (option Q)) : data :=
  if forallb (fun x => match x with Some _ => true | None => false end)
       labels
  then Int64 (map (fun x => match x with
                            | Some q => Qfloor q
                            | None => 0%Z
                            end) labels)
  else Float64 labels.

(** [temp_dataset[attr]] after line 48: the column of the dataset, but
    for the label column when it was text, which now holds the numbers. *)
Definition temp_column (self : BiasDetector) (label : column)
  (labels : list (option Q)) (attr : string) (col : column) : data :=
  match col_data label with
  | Object _ =>
      if String.eqb attr (label_column self) then mapped labels
      else col_data col
  | _ => col_data col
  end.

Section Engine.

(** [pd.to_numeric(..., errors='coerce')] on one text: the number it
    reads, [None] (NaN) when it reads none. *)
Variable to_numeric : string -> option Q.

(** The attribute's values as used for grouping, and whether they were
    converted. *)
Definition attr_keys (attr : string) (d : data) : list cell * bool :=
  match d with
  | Object xs =>
      if numeric_like attr then
        (map (fun x =>
                match x with
                | Some s =>
                    match to_numeric s with
                    | Some q => CFloat q
                    | None => CNaN
                    end
                | None => CNaN
                end) xs, true)
      else (cells d, false)
  | _ => (cells d, false)
  end.

(** [group_stats] for one attribute, from the attribute's column and the
    label as numbers, and whether the attribute was converted: lines 54
    to 69. *)
Definition stats_for (attr : string) (d : data) (labels : list (option Q))
  : list group_row * bool :=
  let '(keys, converted) := attr_keys attr d in
  let rows :=
    filter (fun r => negb (converted && isna (fst r)))
      (combine keys labels) in
  (group_stats_of rows, converted).

(** The body of the loop of [basic_bias_analysis] for one attribute: what
    it prints, and the exception that ends it if there is one. *)
Definition analyse_attr (self : BiasDetector) (attr : string)
  : list event * exn unit :=
  let head := [Heading ("Analysis for " ++ attr)] in
  match getitem (columns (dataset self)) (label_column self) with
  | Raise e => (head, Raise e)
  | Ok label =>
      match label_values (col_data label) with
      | None => ((head ++ [LabelSkipped (label_column self)])%list, Ok tt)
      | Some labels =>
          match getitem (columns (dataset self)) attr with
          | Raise e => (head, Raise e)
          | Ok col =>
              let '(group_stats, converted) :=
                stats_for attr (temp_column self label labels attr col)
                  labels in
              ((head ++ (if converted then [Converted attr] else [])
                  ++ [GroupStats group_stats]
                  ++ disparate_impact group_stats)%list,
               Ok tt)
          end
      end
  end.

Fixpoint analyse_all (self : BiasDetector) (attrs : list string)
  : list event * exn unit :=
  match attrs with
  | [] => ([], Ok tt)
  | attr :: attrs' =>
      match analyse_attr self attr with
      | (out, Raise e) => (out, Raise e)
      | (out, Ok _) =>
          let '(out', r) := analyse_all self attrs' in
          ((out ++ out')%list, r)
      end
  end.

(** [basic_bias_analysis]: nothing is stored in [self.results]. *)
Definition basic_bias_analysis (self : BiasDetector)
  : list event * exn unit :=
  let '(out, r) := analyse_all self (protected_attributes self) in
  (Heading "BASIC BIAS ANALYSIS" :: out, r).

(** The fairness library and the model it trains are collaborators:
    [predict] is lines 93 to 117, [metrics] the [MetricFrame] table and the
    demographic parity difference of one attribute. *)
Variable FAIRLEARN_AVAILABLE : bool.
Variable predictions : Type.
Variable predict : BiasDetector -> exn predictions.
Variable metrics :
  BiasDetector -> predictions -> string -> exn (object * object).

Fixpoint fairlearn_loop (self : BiasDetector) (y_pred : predictions)
  (attrs : list string) (res : list (string * object))
  : exn (list (string * object)) :=
  match attrs with
  | [] => Ok res
  | attr :: attrs' =>
      bind (metrics self y_pred attr) (fun '(by_group, dem_parity_diff) =>
      fairlearn_loop self y_pred attrs'
        (set (attr ++ "_demographic_parity_diff") dem_parity_diff
           (set (attr ++ "_fairlearn_metrics") by_group res)))
  end.

(** [fairlearn_analysis]: the new [self.results]. *)
Definition fairlearn_analysis (self : BiasDetector)
  : exn (list (string * object)) :=
  if FAIRLEARN_AVAILABLE then
    bind (predict self) (fun y_pred =>
    fairlearn_loop self y_pred (protected_attributes self) (results self))
  else Ok (results self).

(** [generate_report]: what is printed by the basic analysis, and
    [self.results] as returned. *)
Definition generate_report (self : BiasDetector)
  : list event * exn (list (string * object)) :=
  match basic_bias_analysis self with
  | (out, Raise e) => (out, Raise e)
  | (out, Ok _) => (out, fairlearn_analysis self)
  end.

(** [BiasDetector(dataset, label_column, protected_attributes,
    X_processed, y_processed)] *)
Definition new (dataset : DataFrame) (label_column : string)
  (protected_attributes : list string) (X_processed : option DataFrame)
  (y_processed : option data) : BiasDetector :=
  {| dataset := dataset; label_column := label_column;
     protected_attributes := protected_attributes;
     X_processed := X_processed; y_processed := y_processed;
     results := [] |}.

End Engine.

End Bias.

(* ================================================================== *)
(** ** The orchestrator: [pipeline.py] *)

Module Pipeline.
Import Py Frame.

(** What a stage leaves in the audit result when its payload has a fixed
    shape: the payload, or a dict with the one key ['error'] or
    ['skipped']. *)
Inductive stage (P : Type) : Type :=
| Payload (p : P)
| Marker (key message : string).
Arguments Payload {P} p.
Arguments Marker {P} key message.

Record dataset_info := {
  shape : nat * nat;
  info_columns : list string;
  info_label_column : string;
  info_protected_attributes : list string
}.

(** The payload of the explanation adapter. *)
Record explanation := {
  global : Bias.object;
  local_example : Bias.object;
  feature_columns : list string
}.

(** The payload of the factuality checker: its ['summary'] dict if it has
    one, and in it the ['hallucination_rate'] if there is one. *)
Record hallucination_results := {
  hallucination_summary : option (option Q);
  individual_analyses : list Bias.object
}.

Record summary := {
  timestamp : string;
  overall_status : string;
  issues_found : list string;
  summary_recommendations : list string;
  risk_level : string
}.

Record audit_results (S : Type) := {
  info : dataset_info;
  bias_analysis : list (string * Bias.object);
  explainability_analysis : stage explanation;
  privacy_analysis : stage Privacy.results;
  hallucination_analysis : stage hallucination_results;
  audit_summary : S
}.
Arguments info {S} _.
Arguments bias_analysis {S} _.
Arguments explainability_analysis {S} _.
Arguments privacy_analysis {S} _.
Arguments hallucination_analysis {S} _.
Arguments audit_summary {S} _.

(** [try: ... except Exception as e: {'error': str(e)}] for a payload of
    fixed shape. *)
Definition caught {P : Type} (r : exn P) : stage P :=
  match r with
  | Ok p => Payload p
  | Raise e => Marker "error" (exc_message e)
  end.

(** The same for the bias payload, a dict itself. *)
Definition caught_bias (r : exn (list (string * Bias.object)))
  : list (string * Bias.object) :=
  match r with
  | Ok res => res
  | Raise e => [("error", {| Bias.str := exc_message e |})]
  end.

(** [privacy_results.get('pii_detected')], as a truth value. *)
Definition reports_pii (privacy_results : stage Privacy.results) : bool :=
  match privacy_results with
  | Payload r =>
      match Privacy.pii_detected r with [] => false | _ => true end
  | Marker _ _ => false
  end.

(** [hallucination_results.get('summary', {}).get('hallucination_rate', 0)] *)
Definition reported_rate (h : stage hallucination_results) : Q :=
  match h with
  | Payload r =>
      match hallucination_summary r with
      | Some (Some rate) => rate
      | _ => 0
      end
  | Marker _ _ => 0
  end.

(** [any('WARNING' in str(v) for v in bias_results.values())] *)
Definition signals_warning (bias_results : list (string * Bias.object))
  : bool :=
  existsb (fun v => contains "WARNING" (Bias.str v)) (map snd bias_results).

Definition issue_recommendations : list string :=
  [ "Review and address identified bias patterns";
    "Implement data anonymization for PII";
    "Add fact-checking mechanisms for model outputs";
    "Consider retraining models with bias mitigation techniques" ].

Definition clean_recommendations : list string :=
  [ "Continue monitoring for emerging ethical issues";
    "Regular re-auditing recommended";
    "Consider implementing continuous monitoring" ].

(** [_generate_summary]; [now] is what [pd.Timestamp.now().isoformat()]
    gives when it is called.  Each step is one [if] of the source, and
    updates the summary built so far. *)
Definition check_bias (bias_results : list (string * Bias.object))
  (s : summary) : summary :=
  if negb (has_key "error" bias_results) then
    if signals_warning bias_results then
      {| timestamp := timestamp s;
         overall_status := "FAILED";
         issues_found := issues_found s ++ ["Potential bias detected"];
         summary_recommendations := summary_recommendations s;
         risk_level := "HIGH" |}
    else s
  else s.

Definition check_privacy (privacy_results : stage Privacy.results)
  (s : summary) : summary :=
  if reports_pii privacy_results then
    {| timestamp := timestamp s;
       overall_status := overall_status s;
       issues_found := issues_found s ++ ["PII detected in dataset"];
       summary_recommendations := summary_recommendations s;
       risk_level := "MEDIUM" |}
  else s.

Definition check_hallucination (h : stage hallucination_results)
  (s : summary) : summary :=
  if Bias.Qlt_bool (2 # 10) (reported_rate h) then
    {| timestamp := timestamp s;
       overall_status := "FAILED";
       issues_found :=
         issues_found s ++ ["High hallucination rate detected"];
       summary_recommendations := summary_recommendations s;
       risk_level := risk_level s |}
  else s.

Definition recommend (s : summary) : summary :=
  {| timestamp := timestamp s;
     overall_status := overall_status s;
     issues_found := issues_found s;
     summary_recommendations :=
       match issues_found s with
       | [] => clean_recommendations
       | _ => issue_recommendations
       end;
     risk_level := risk_level s |}.

Definition _generate_summary {S : Type} (now : string)
  (audit : audit_results S) : summary :=
  let s0 :=
    {| timestamp := now; overall_status := "PASSED"; issues_found := [];
       summary_recommendations := []; risk_level := "LOW" |} in
  recommend
    (check_hallucination (hallucination_analysis audit)
       (check_privacy (privacy_analysis audit)
          (check_bias (bias_analysis audit) s0))).

(** The deduction of one issue, lines 210 to 215. *)
Definition deduct (score : Z) (issue : string) : Z :=
  if contains "bias" (lower issue) then score - 40
  else if contains "pii" (lower issue) then score - 20
  else if contains "hallucination" (lower issue) then score - 30
  else score.

(** [generate_compliance_score]; [self.results] is [None] while it is
    the empty dict of [__init__]. *)
Definition generate_compliance_score
  (self_results : option (audit_results summary)) : Z :=
  match self_results with
  | None => 0
  | Some results =>
      Z.max 0 (fold_left deduct (issues_found (audit_summary results)) 100)
  end.

Section Orchestrator.

(** The collaborators of the bias stage (see [Bias]). *)
Variable to_numeric : string -> option Q.
Variable FAIRLEARN_AVAILABLE : bool.
Variable predictions : Type.
Variable predict : Bias.BiasDetector -> exn predictions.
Variable metrics :
  Bias.BiasDetector -> predictions -> string -> exn (Bias.object * Bias.object).

(** The explanation adapter, lines 94 to 109, and the factuality checker's
    [comprehensive_analysis]. *)
Variable model : Type.
Variable explain : model -> DataFrame -> exn explanation.
Variable comprehensive_analysis :
  list string -> option (list (string * string)) -> exn hallucination_results.

(** [if test_prompts:] *)
Definition truthy (test_prompts : option (list string)) : bool :=
  match test_prompts with
  | Some (_ :: _) => true
  | _ => false
  end.

(** [run_full_audit]: the audit result, which is also the new
    [self.results]. *)
Definition run_full_audit (now : string) (dataset X_processed : DataFrame)
  (y_processed : data) (label_column : string)
  (protected_attributes : list string) (m : model)
  (test_prompts : option (list string))
  (reference_facts : option (list (string * string)))
  : audit_results summary :=
  let audit0 :=
    {| info :=
         {| shape := (nrows dataset, List.length (columns dataset));
            info_columns := map col_name (columns dataset);
            info_label_column := label_column;
            info_protected_attributes := protected_attributes |};
       bias_analysis :=
         caught_bias
           (snd (Bias.generate_report to_numeric FAIRLEARN_AVAILABLE
                   predictions predict metrics
                   (Bias.new dataset label_column protected_attributes
                      (Some X_processed) (Some y_processed))));
       explainability_analysis := caught (explain m X_processed);
       privacy_analysis := caught (Privacy.analyze_dataset dataset);
       hallucination_analysis :=
         if truthy test_prompts then
           caught (comprehensive_analysis
                     (match test_prompts with Some ps => ps | None => [] end)
                     reference_facts)
         else Marker "skipped" "No test prompts provided";
       audit_summary := tt |} in
  {| info := info audit0;
     bias_analysis := bias_analysis audit0;
     explainability_analysis := explainability_analysis audit0;
     privacy_analysis := privacy_analysis audit0;
     hallucination_analysis := hallucination_analysis audit0;
     audit_summary := _generate_summary now audit0 |}.

(** [run_full_audit] in a process whose hash seed gives [order] (see
    [Privacy.analyze_dataset_in]). *)
Definition run_full_audit_in (order : list string -> list string)
  (now : string) (dataset X_processed : DataFrame)
  (y_processed : data) (label_column : string)
  (protected_attributes : list string) (m : model)
  (test_prompts : option (list string))
  (reference_facts : option (list (string * string)))
  : audit_results summary :=
  let audit0 :=
    {| info :=
         {| shape := (nrows dataset, List.length (columns dataset));
            info_columns := map col_name (columns dataset);
            info_label_column := label_column;
            info_protected_attributes := protected_attributes |};
       bias_analysis :=
         caught_bias
           (snd (Bias.generate_report to_numeric FAIRLEARN_AVAILABLE
                   predictions predict metrics
                   (Bias.new dataset label_column protected_attributes
                      (Some X_processed) (Some y_processed))));
       explainability_analysis := caught (explain m X_processed);
       privacy_analysis :=
         caught (Privacy.analyze_dataset_in order dataset);
       hallucination_analysis :=
         if truthy test_prompts then
           caught (comprehensive_analysis
                     (match test_prompts with Some ps => ps | None => [] end)
                     reference_facts)
         else Marker "skipped" "No test prompts provided";
       audit_summary := tt |} in
  {| info := info audit0;
     bias_analysis := bias_analysis audit0;
     explainability_analysis := explainability_analysis audit0;
     privacy_analysis := privacy_analysis audit0;
     hallucination_analysis := hallucination_analysis audit0;
     audit_summary := _generate_summary now audit0 |}.

End Orchestrator.

End Pipeline.

(* ================================================================== *)
(** ** The privacy report: [generate_privacy_report] *)

Module PrivacyReport.
Import Py Frame Privacy PrivacyOutputs.

(** The line feed. *)
Definition nl : string := String (Ascii.ascii_of_nat 10) EmptyString.

(** [for x in xs: report += line(x)] *)
Definition add_lines {A : Type} (line : A -> string) (xs : list A)
  (report : string) : string :=
  fold_left (fun report x => report ++ line x) xs report.

(** [f"- **{col}**: {', '.join(pii_types)}\n"] *)
Definition pii_line (item : string * list string) : string :=
  "- **" ++ fst item ++ "**: " ++ join ", " (snd item) ++ nl.

(** [f"- {qi}\n"] and [f"- {rec}\n"] *)
Definition bullet (text : string) : string := "- " ++ text ++ nl.

(** [f"- {pii_type}: {count} instances\n"] *)
Definition count_line (item : string * nat) : string :=
  "- " ++ fst item ++ ": " ++ str_of_nat (snd item) ++ " instances" ++ nl.

Definition title : string := "# Privacy Risk Assessment Report" ++ nl ++ nl.

(** Lines 291 to 307: the part of the report on the dataset. *)
Definition dataset_part (dataset_results : results) (report : string)
  : string :=
  let report := report ++ "## Dataset Privacy Analysis" ++ nl ++ nl in
  let report :=
    match pii_detected dataset_results with
    | [] => report ++ "### ✅ No PII Detected" ++ nl
    | items =>
        add_lines pii_line items (report ++ "### ⚠️ PII Detected:" ++ nl)
    end in
  let report :=
    match quasi_identifiers dataset_results with
    | [] => report
    | qis =>
        add_lines bullet qis
          (report ++ nl ++ "### ⚠️ Quasi-Identifiers Found:" ++ nl)
    end in
  add_lines bullet (recommendations dataset_results)
    (report ++ nl ++ "### Recommendations:" ++ nl).

(** Lines 312 to 319: the part on the model outputs. *)
Definition outputs_part (output_results : output_results) (report : string)
  : string :=
  let report := report ++ nl ++ "## Model Output Privacy Analysis" ++ nl ++ nl in
  match pii_in_outputs output_results with
  | [] => report ++ "### ✅ No PII Detected in Outputs" ++ nl
  | items =>
      add_lines count_line items
        (report ++ "### ⚠️ PII in Model Outputs:" ++ nl)
  end.

(** [generate_privacy_report]; [model_outputs] is [None] when the caller
    gives none. *)
Definition generate_privacy_report (df : DataFrame)
  (model_outputs : option (list string)) : exn string :=
  bind (analyze_dataset df) (fun dataset_results =>
  let report := dataset_part dataset_results title in
  match model_outputs with
  | Some (output :: outputs) =>
      bind (analyze_model_outputs (output :: outputs) (Some df))
        (fun output_results => Ok (outputs_part output_results report))
  | _ => Ok report
  end).

End PrivacyReport.

(* ================================================================== *)
(** ** The caller: [ui/main_app.py], lines 85 to 102 *)

Module App.
Import Py Frame.

(** How the preparation of an audit ends: with [st.error] and [st.stop],
    or with the feature columns and the label as numbers, from which the
    model is trained and the audit run. *)
Inductive outcome :=
| Stopped (message : string)
| Ready (feature_cols : list string) (y : list (option Q)).

(** The choices the side bar offers for the protected attributes:
    [[c for c in data.columns if c != label_col]]. *)
Definition selectable (data : DataFrame) (label_col : string) : list string :=
  filter (fun c => negb (String.eqb c label_col))
    (map col_name (columns data)).

(** [[c for c in data.columns if c not in [label_col] + protected_cols]] *)
Definition feature_cols (data : DataFrame) (label_col : string)
  (protected_cols : list string) : list string :=
  filter (fun c => negb (existsb (String.eqb c) (label_col :: protected_cols)))
    (map col_name (columns data)).

Definition prepare (data : DataFrame) (label_col : string)
  (protected_cols : list string) : exn outcome :=
  match feature_cols data label_col protected_cols with
  | [] => Ok (Stopped "❌ No feature columns available")
  | cols =>
      bind (getitem (columns data) label_col) (fun y =>
      match Bias.label_values (col_data y) with
      | Some labels => Ok (Ready cols labels)
      | None =>
          Ok (Stopped
                "❌ Label column has more than two unique string values. Cannot perform binary classification.")
      end)
  end.

End App.

(* ================================================================== *)
(** * Notions used in the statements

    What the properties below are stated with: the wording of the
    specification where it differs from the code, small predicates, and
    the tables and collaborators of the worked examples. *)

Module Notions.

Section ScoreNotions.
Import Py Frame Pipeline.

(** The weight of an issue as the specification words it: 40 for bias, 20
    for PII, 30 for hallucination, by the first keyword found. *)
Definition weight (issue : string) : Z :=
  if contains "bias" (lower issue) then 40
  else if contains "pii" (lower issue) then 20
  else if contains "hallucination" (lower issue) then 30
  else 0.

Definition total_weight (issues : list string) : Z :=
  fold_right Z.add 0 (map weight issues).

(** An audit result whose summary lists [issues]. *)
Definition with_issues (issues : list string) (r : audit_results summary)
  : audit_results summary :=
  {| info := info r;
     bias_analysis := bias_analysis r;
     explainability_analysis := explainability_analysis r;
     privacy_analysis := privacy_analysis r;
     hallucination_analysis := hallucination_analysis r;
     audit_summary :=
       {| timestamp := timestamp (audit_summary r);
          overall_status := overall_status (audit_summary r);
          issues_found := issues;
          summary_recommendations :=
            summary_recommendations (audit_summary r);
          risk_level := risk_level (audit_summary r) |} |}.

End ScoreNotions.

Section SummaryNotions.
Import Py Frame Pipeline.

(** An audit result before its summary is made, from the three payloads
    the summary reads. *)
Definition audit_of (bias : list (string * Bias.object))
  (privacy : stage Privacy.results)
  (hallucination : stage hallucination_results) : audit_results unit :=
  {| info := {| shape := (0%nat, 0%nat); info_columns := [];
                info_label_column := ""; info_protected_attributes := [] |};
     bias_analysis := bias;
     explainability_analysis := Marker "error" "";
     privacy_analysis := privacy;
     hallucination_analysis := hallucination;
     audit_summary := tt |}.

(** A bias payload with a warning in one of its values, and a privacy
    payload with one PII finding. *)
Definition warning_payload : list (string * Bias.object) :=
  [ ("gender_fairlearn_metrics",
     {| Bias.str := "WARNING: Potential bias detected! (Ratio < 0.8)" |}) ].

Definition pii_payload : stage Privacy.results :=
  Payload {| Privacy.pii_detected := [("contact", ["email: 1 instances"])];
             Privacy.quasi_identifiers := [];
             Privacy.uniqueness_risk := [];
             Privacy.recommendations := [] |}.

(** The fields of a summary other than its time stamp. *)
Definition verdict (s : summary)
  : string * list string * list string * string :=
  (overall_status s, issues_found s, summary_recommendations s, risk_level s).

End SummaryNotions.

Section AuditNotions.
Import Py Frame Pipeline.

(** What the orchestrator keeps of a stage: its payload, or the message
    of the exception it raised under the key ['error']. *)
Definition recorded {P : Type} (outcome : exn P) (entry : stage P) : Prop :=
  match outcome with
  | Ok p => entry = Payload p
  | Raise e => entry = Marker "error" (exc_message e)
  end.

Definition recorded_bias (outcome : exn (list (string * Bias.object)))
  (entry : list (string * Bias.object)) : Prop :=
  match outcome with
  | Ok p => entry = p
  | Raise e => entry = [("error", {| Bias.str := exc_message e |})]
  end.

(** Collaborators for the runs shown below: no fairness library, an
    explanation adapter and a factuality checker that fail. *)
Definition no_numeric (_ : string) : option Q := None.

Definition no_predict (_ : Bias.BiasDetector) : exn unit :=
  Raise {| exc_class := "ImportError"; exc_message := "fairlearn" |}.

Definition no_metrics (_ : Bias.BiasDetector) (_ : unit) (_ : string)
  : exn (Bias.object * Bias.object) :=
  Raise {| exc_class := "ImportError"; exc_message := "fairlearn" |}.

Definition no_explain (_ : unit) (_ : DataFrame) : exn explanation :=
  Raise {| exc_class := "ValueError"; exc_message := "no explainer" |}.

Definition no_analysis (_ : list string) (_ : option (list (string * string)))
  : exn hallucination_results :=
  Raise {| exc_class := "RuntimeError"; exc_message := "no model" |}.

Definition applicants : DataFrame :=
  {| nrows := 4;
     columns :=
       [ {| col_name := "gender";
            col_data := Object [Some "f"; Some "m"; Some "f"; Some "m"] |};
         {| col_name := "score"; col_data := Int64 [610; 720; 680; 700] |};
         {| col_name := "approved"; col_data := Int64 [0; 1; 1; 1] |} ] |}.

Definition features : DataFrame :=
  {| nrows := 4;
     columns :=
       [ {| col_name := "score"; col_data := Int64 [610; 720; 680; 700] |} ] |}.

End AuditNotions.

Section DistinctNotions.
Import Frame.

Variable A : Type.
Variable eqb : A -> A -> bool.

(** [reps] has one element for every class of [xs], and no two for one
    class: its length is the number of different values in [xs]. *)
Definition representatives (xs reps : list A) : Prop :=
  incl reps xs
  /\ (forall x, In x xs -> exists y, In y reps /\ eqb x y = true)
  /\ ForallOrdPairs (fun a b => eqb a b = false) reps.

End DistinctNotions.

Section QuasiNotions.
Import Py Frame Privacy.

(** Every keyword of the taxonomy. *)
Definition taxonomy : list string := flat_map snd potential_qi.

(** The table with the column names of [df] and nothing in them. *)
Definition names_only (df : DataFrame) : DataFrame :=
  {| nrows := 0;
     columns :=
       map (fun c => {| col_name := col_name c; col_data := Bool [] |})
         (columns df) |}.

Definition matches_keyword (name : string) : bool :=
  existsb (fun keyword => contains keyword (lower name)) taxonomy.

End QuasiNotions.

Section UniquenessNotions.
Import Py Frame Privacy.

(** The fraction of the rows whose combination of values no other row
    has, as the specification words the combined value. *)
Definition fraction_of_unique_rows (rs : list (list cell)) : Q :=
  Z.of_nat
    (List.length
       (filter (fun r => (List.length (filter (row_eqb r) rs) =? 1)%nat) rs))
  # Pos.of_nat (List.length rs).

(** Two columns in which the first two rows agree. *)
Definition pairs : DataFrame :=
  {| nrows := 3;
     columns :=
       [ {| col_name := "city";
            col_data := Object [Some "Oslo"; Some "Oslo"; Some "Rome"] |};
         {| col_name := "visits"; col_data := Int64 [1; 1; 2] |} ] |}.

End UniquenessNotions.

Section TotalityNotions.
Import Py Frame Privacy PrivacyOutputs.

Definition no_such_column (c : column) : Prop := eligible c = false.

(** A table of flags: no column of kind object, int64 or float64. *)
Definition flags : DataFrame :=
  {| nrows := 2;
     columns :=
       [ {| col_name := "has_address"; col_data := Bool [true; false] |};
         {| col_name := "verified"; col_data := Bool [false; false] |} ] |}.

(** A table with a text column and no row. *)
Definition no_rows : DataFrame :=
  {| nrows := 0;
     columns := [ {| col_name := "email"; col_data := Object [] |} ] |}.

End TotalityNotions.

Section LocalityNotions.
Import Py Frame Regex.

(** No class of the pattern accepts the blank. *)
Fixpoint rejects_blank (r : re) : Prop :=
  match r with
  | Chr f | Times _ f | AtLeast _ f => f " "%char = false
  | WordB => True
  | Cat r1 r2 => rejects_blank r1 /\ rejects_blank r2
  | Opt r' => rejects_blank r'
  end.

(** The text [v] followed by a blank and [t]. *)
Definition before (t v : string) : string := v ++ String " " t.

(** [k] on a text followed by a blank and [t] does what [k'] does on the
    text alone. *)
Definition agree (t : string) (k k' : cont) : Prop :=
  forall p u, k p (before t u) = option_map (before t) (k' p u).

End LocalityNotions.

Section OrderNotions.
Import Py Frame Regex Privacy.

(** [len(re.findall(pattern, text))] *)
Definition count (r : re) (text : string) : nat :=
  List.length (findall r text).

Fixpoint blank_free (s : string) : bool :=
  match s with
  | EmptyString => true
  | String c s' => (negb (Ascii.eqb c " ") && blank_free s')%bool
  end.

(** A name that can be looked for cell by cell. *)
Definition plain (name : string) : bool :=
  (blank_free name && negb (String.eqb name EmptyString))%bool.

(** A column of account numbers and a remark, in two orders. *)
Definition accounts : list (option string) :=
  [Some "40001234"; Some "50005678"; Some "closed"].

Definition accounts_reordered : list (option string) :=
  [Some "40001234"; Some "closed"; Some "50005678"].

End OrderNotions.

Section RatesNotions.
Import Py Frame Bias.
Open Scope Q_scope.






End RatesNotions.

Section VerdictNotions.
Import Py Frame Bias.
Open Scope Q_scope.

(** The events of lines 72 to 83. *)
Definition is_verdict (e : event) : bool :=
  match e with
  | Ratio _ | BiasWarning | NoBias => true
  | _ => false
  end.

(** A table of applicants with a text label. *)
Definition loans : DataFrame :=
  {| nrows := 5;
     columns :=
       [ {| col_name := "gender";
            col_data :=
              Object [Some "m"; Some "f"; Some "m"; Some "f"; Some "m"] |};
         {| col_name := "approved";
            col_data :=
              Object [Some "no"; Some "yes"; Some "no"; Some "no";
                      Some "yes"] |} ] |}.

Definition loans_detector : BiasDetector :=
  Bias.new loans "approved" ["gender"] None None.

(** Its table for "gender": one approval in two and one in three, the
    rates the floats 0.5 and 0.3333. *)
Definition loans_table : list group_row :=
  [ {| group := CStr "f"; total_cases := 2; approvals := 1;
       approval_rate := Some (F64.round (5000 # 10000)) |};
    {| group := CStr "m"; total_cases := 3; approvals := 1;
       approval_rate := Some (F64.round (3333 # 10000)) |} ].

(** A table of nine applicants: three approvals in five for one group,
    three in four for the other. *)
Definition nine : DataFrame :=
  {| nrows := 9;
     columns :=
       [ {| col_name := "gender";
            col_data :=
              Object [Some "f"; Some "f"; Some "f"; Some "f"; Some "f";
                      Some "m"; Some "m"; Some "m"; Some "m"] |};
         {| col_name := "approved";
            col_data := Int64 [1; 1; 1; 0; 0; 1; 1; 1; 0]%Z |} ] |}.

End VerdictNotions.

Section ReportNotions.
Import Py Frame Bias.

Variable predictions : Type.
Variable metrics :
  BiasDetector -> predictions -> string -> exn (object * object).

(** An entry that the fairness library made for one of the attributes. *)
Definition from_metrics (self : BiasDetector) (attrs : list string)
  (k : string) (v : object) : Prop :=
  exists attr y_pred by_group dem_parity_diff,
    In attr attrs
    /\ metrics self y_pred attr = Ok (by_group, dem_parity_diff)
    /\ ((k = attr ++ "_fairlearn_metrics" /\ v = by_group)
        \/ (k = attr ++ "_demographic_parity_diff" /\ v = dem_parity_diff)).

(** One audit of [loans] without the fairness library, the clock reading
    [now]; the features are the encoded attribute. *)
Definition loans_audit (now : string)
  : Pipeline.audit_results Pipeline.summary :=
  Pipeline.run_full_audit no_numeric false unit no_predict no_metrics unit
    no_explain no_analysis now loans
    {| nrows := 5;
       columns :=
         [ {| col_name := "gender_m";
              col_data := Int64 [1; 0; 1; 0; 1]%Z |} ] |}
    (Int64 [0; 1; 0; 0; 1]%Z) "approved" ["gender"] tt None None.

End ReportNotions.

End Notions.

(* ================================================================== *)
(** * Further notions used in the statements

    What the properties of the second part are stated with. *)

Module Terms.

Section SummaryTerms.
Import Py Frame Pipeline.

(** The bias payload counts as a finding: no ['error'] key, and a value
    whose text has "WARNING" in it. *)
Definition bias_flagged {S : Type} (audit : audit_results S) : bool :=
  (negb (has_key "error" (bias_analysis audit))
   && signals_warning (bias_analysis audit))%bool.

Definition pii_found {S : Type} (audit : audit_results S) : bool :=
  reports_pii (privacy_analysis audit).

(** The reported hallucination rate is above 0.2. *)
Definition rate_high {S : Type} (audit : audit_results S) : bool :=
  Bias.Qlt_bool (2 # 10) (reported_rate (hallucination_analysis audit)).

Definition when (b : bool) (issue : string) : list string :=
  if b then [issue] else [].

Definition penalty (b : bool) (points : Z) : Z := if b then points else 0.

End SummaryTerms.

Section StageTerms.
Import Py Frame Pipeline.

Definition names (df : DataFrame) : list string :=
  map col_name (columns df).

(** The bias issue is among the issues. *)
Definition lists_bias (issues : list string) : bool :=
  existsb (String.eqb "Potential bias detected") issues.

End StageTerms.

Section BiasTerms.
Import Py Frame Bias.

Definition is_table (e : event) : bool :=
  match e with GroupStats _ => true | _ => false end.

Definition is_skip (e : event) : bool :=
  match e with LabelSkipped _ => true | _ => false end.

(** What is printed for one skipped attribute. *)
Definition skip_notice (label attr : string) : list event :=
  [Heading ("Analysis for " ++ attr); LabelSkipped label].

(** A table with a text label of three values. *)
Definition graded : DataFrame :=
  {| nrows := 3;
     columns :=
       [ {| col_name := "region";
            col_data := Object [Some "north"; Some "south"; Some "north"] |};
         {| col_name := "grade";
            col_data := Object [Some "a"; Some "b"; Some "c"] |} ] |}.

End BiasTerms.

Section GroupTerms.
Import Py Frame Bias.

(** The rows of a group: those whose attribute value is [key]. *)
Definition members (rows : list (cell * option Q)) (key : cell) : nat :=
  List.length (filter (fun r => cell_eqb (fst r) key) rows).

Definition total (table : list group_row) : nat :=
  list_sum (map total_cases table).

End GroupTerms.

Section LabelTerms.
Import Py Frame Bias.


End LabelTerms.

Section PiiTerms.
Import Py Frame Regex Privacy.

(** The step of the loop of [_detect_pii]. *)
Definition keep (pii_found : list (string * list string)) (c : column)
  : list (string * list string) :=
  match column_pii c with
  | [] => pii_found
  | found => set (col_name c) found pii_found
  end.

Definition is_text (c : column) : Prop :=
  exists xs, col_data c = Object xs.

(** A column of contacts, one of them an address. *)
Definition contacts : DataFrame :=
  {| nrows := 3;
     columns :=
       [ {| col_name := "id"; col_data := Int64 [1; 2; 3] |};
         {| col_name := "contact";
            col_data :=
              Object [Some "call 555-123-4567"; Some "john.doe@example.com";
                      None] |} ] |}.

End PiiTerms.

Section RatioTerms.
Import Py Frame Privacy.

Definition unit_ratio (v : Q) : Prop := (0 <= v <= 1)%Q.

(** No two values of the column are equal, and none is missing. *)
Definition all_different (d : data) : Prop :=
  ForallOrdPairs (fun a b => cell_eqb a b = false) (cells d)
  /\ Forall (fun c => isna c = false) (cells d).

(** Every value of the column is [v]. *)
Definition constant (v : cell) (d : data) : Prop :=
  Forall (fun c => cell_eqb c v = true) (cells d).

(** A column of ids and a column that says the same in every row. *)
Definition club : DataFrame :=
  {| nrows := 4;
     columns :=
       [ {| col_name := "member_id"; col_data := Int64 [11; 12; 13; 14] |};
         {| col_name := "country";
            col_data :=
              Object [Some "NO"; Some "NO"; Some "NO"; Some "NO"] |} ] |}.

End RatioTerms.

Section OutputTerms.
Import Py Frame Regex Privacy PrivacyOutputs.

(** The step of the loop over the patterns in [analyze_model_outputs]. *)
Definition note (text : string) (found : list (string * nat))
  (p : string * re) : list (string * nat) :=
  let '(pii_type, pattern) := p in
  match findall pattern text with
  | [] => found
  | matches => set pii_type (List.length matches) found
  end.

End OutputTerms.

Section ReportTerms.
Import Py Frame Privacy PrivacyOutputs PrivacyReport.

(** The texts one after the other. *)
Definition glue (texts : list string) : string :=
  fold_right append EmptyString texts.

(** A property of the report so far that more text at its end cannot undo. *)
Definition lasting (P : string -> Prop) : Prop :=
  forall report more, P report -> P (report ++ more).

End ReportTerms.

Section FairnessTerms.
Import Py Frame Bias.

(** The last character of a text. *)
Fixpoint last_char (s : string) : option ascii :=
  match s with
  | EmptyString => None
  | String c s' =>
      match s' with
      | EmptyString => Some c
      | _ => last_char s'
      end
  end.

(** Stand-ins for the fairness library in the worked examples: a model
    that predicts, and metrics that raise for the attribute [bad] and are
    there for every other one. *)
Definition unit_predict (_ : BiasDetector) : exn unit := Ok tt.

Definition metrics_but (bad : string) (_ : BiasDetector) (_ : unit)
  (attr : string) : exn (object * object) :=
  if String.eqb attr bad then
    Raise {| exc_class := "ValueError"; exc_message := "Input contains NaN" |}
  else Ok ({| str := "selection_rate by " ++ attr |}, {| str := "0.25" |}).

End FairnessTerms.

Section AdviceTerms.

Definition pii_advice : string :=
  "🔒 Remove or encrypt detected PII before model training".

Definition qi_advice : string :=
  "🔒 Apply k-anonymity or l-diversity to quasi-identifiers".

Definition unique_advice : string :=
  "🔒 Reduce granularity of highly unique columns".

Definition general_advice : list string :=
  [ "🔒 Implement differential privacy for model training";
    "🔒 Use secure multi-party computation for sensitive data";
    "🔒 Regular privacy audits and monitoring" ].

(** The columns whose share of distinct values is above 0.9. *)
Definition high_unique_cols (risk : list (string * Q)) : list (string * Q) :=
  filter (fun '(_, ratio) => negb (Qle_bool ratio (9 # 10))) risk.

End AdviceTerms.

End Terms.

(* ================================================================== *)
(** * Properties *)

(** ** The compliance score and the summary *)

Module PipelineFacts.
Import Py Frame Pipeline.
Import Notions.

Lemma deduct_weight : forall score issue,
  deduct score issue = score - weight issue.
Proof.
  intros score issue. unfold deduct, weight.
  destruct (contains "bias" (lower issue)); [reflexivity|].
  destruct (contains "pii" (lower issue)); [reflexivity|].
  destruct (contains "hallucination" (lower issue)); lia.
Qed.

Lemma weight_nonneg : forall issue, 0 <= weight issue.
Proof.
  intros issue. unfold weight.
  repeat match goal with |- context [if ?b then _ else _] => destruct b end;
    lia.
Qed.

Lemma total_weight_nonneg : forall issues, 0 <= total_weight issues.
Proof.
  induction issues as [|i issues IH]; unfold total_weight in *; simpl.
  - lia.
  - pose proof (weight_nonneg i). lia.
Qed.

Lemma fold_deduct : forall issues score,
  fold_left deduct issues score = score - total_weight issues.
Proof.
  induction issues as [|i issues IH]; intros score; simpl.
  - unfold total_weight. simpl. lia.
  - rewrite IH, deduct_weight. unfold total_weight. simpl. lia.
Qed.

End PipelineFacts.

(** C6.  The compliance score of an audit result is 100 less the weights
    of the issues of its summary (40 for an issue naming bias, 20 for PII,
    30 for hallucination), and 0 when that is negative; it lies between 0
    and 100; it is 100 when there is no issue and 40 for the issues
    "Potential bias detected" and "PII detected in dataset". *)
Theorem compliance_score_spec :
  forall r : Pipeline.audit_results Pipeline.summary,
    Pipeline.generate_compliance_score (Some r)
    = Z.max 0 (100 - Notions.total_weight
                       (Pipeline.issues_found (Pipeline.audit_summary r)))
    /\ 0 <= Pipeline.generate_compliance_score (Some r) <= 100
    /\ Pipeline.generate_compliance_score
         (Some (Notions.with_issues [] r)) = 100
    /\ Pipeline.generate_compliance_score
         (Some (Notions.with_issues
                  ["Potential bias detected"; "PII detected in dataset"] r))
       = 40.
Proof.
  intros r. unfold Pipeline.generate_compliance_score.
  rewrite PipelineFacts.fold_deduct.
  pose proof (PipelineFacts.total_weight_nonneg
                (Pipeline.issues_found (Pipeline.audit_summary r))).
  repeat split; try lia; reflexivity.
Qed.

Module SummaryFacts.
Import Py Frame Pipeline.
Import Notions.

(** The privacy check overwrites the tier whatever it was. *)
Lemma check_privacy_sets_medium : forall privacy s,
  reports_pii privacy = true ->
  risk_level (check_privacy privacy s) = "MEDIUM".
Proof.
  intros privacy s H. unfold check_privacy. rewrite H. reflexivity.
Qed.

Lemma check_hallucination_keeps_risk : forall h s,
  risk_level (check_hallucination h s) = risk_level s.
Proof.
  intros h s. unfold check_hallucination.
  destruct (Bias.Qlt_bool _ _); reflexivity.
Qed.

(** Whenever the privacy payload has PII findings the tier of the summary
    is MEDIUM, also after a bias warning has set it to HIGH. *)
Lemma pii_gives_medium : forall (S : Type) now (audit : audit_results S),
  reports_pii (privacy_analysis audit) = true ->
  risk_level (_generate_summary now audit) = "MEDIUM".
Proof.
  intros S now audit H. unfold _generate_summary, recommend. simpl.
  rewrite check_hallucination_keeps_risk.
  now apply check_privacy_sets_medium.
Qed.

Lemma check_bias_verdict : forall b s s',
  verdict s = verdict s' -> verdict (check_bias b s) = verdict (check_bias b s').
Proof.
  intros b s s' H. unfold verdict in *. inversion H. unfold check_bias.
  destruct (negb (has_key "error" b)); [|simpl; congruence].
  destruct (signals_warning b); simpl; congruence.
Qed.

Lemma check_privacy_verdict : forall p s s',
  verdict s = verdict s' ->
  verdict (check_privacy p s) = verdict (check_privacy p s').
Proof.
  intros p s s' H. unfold verdict in *. inversion H. unfold check_privacy.
  destruct (reports_pii p); simpl; congruence.
Qed.

Lemma check_hallucination_verdict : forall h s s',
  verdict s = verdict s' ->
  verdict (check_hallucination h s) = verdict (check_hallucination h s').
Proof.
  intros h s s' H. unfold verdict in *. inversion H.
  unfold check_hallucination.
  destruct (Bias.Qlt_bool _ _); simpl; congruence.
Qed.

Lemma recommend_verdict : forall s s',
  verdict s = verdict s' -> verdict (recommend s) = verdict (recommend s').
Proof.
  intros [t st iss recs risk] [t' st' iss' recs' risk'] H.
  unfold verdict in *. simpl in *. inversion H. reflexivity.
Qed.

(** The clock reaches the time stamp only. *)
Lemma summary_verdict_clock : forall (S : Type) t1 t2 (audit : audit_results S),
  verdict (_generate_summary t1 audit) = verdict (_generate_summary t2 audit).
Proof.
  intros S t1 t2 audit. unfold _generate_summary.
  apply recommend_verdict, check_hallucination_verdict,
    check_privacy_verdict, check_bias_verdict.
  reflexivity.
Qed.

(** Of the audit the summary reads the bias entry, whether the privacy
    entry has PII findings, and the hallucination entry. *)
Lemma summary_verdict_reads : forall (S : Type) t1 t2 (a1 a2 : audit_results S),
  bias_analysis a1 = bias_analysis a2 ->
  reports_pii (privacy_analysis a1) = reports_pii (privacy_analysis a2) ->
  hallucination_analysis a1 = hallucination_analysis a2 ->
  verdict (_generate_summary t1 a1) = verdict (_generate_summary t2 a2).
Proof.
  intros S t1 t2 a1 a2 Hb Hp Hh. unfold _generate_summary.
  rewrite Hb, Hh. apply recommend_verdict, check_hallucination_verdict.
  unfold check_privacy. rewrite Hp.
  destruct (reports_pii (privacy_analysis a2)).
  - unfold verdict. cbn [overall_status issues_found summary_recommendations
                         risk_level].
    pose proof (check_bias_verdict (bias_analysis a2)
                  {| timestamp := t1; overall_status := "PASSED";
                     issues_found := []; summary_recommendations := [];
                     risk_level := "LOW" |}
                  {| timestamp := t2; overall_status := "PASSED";
                     issues_found := []; summary_recommendations := [];
                     risk_level := "LOW" |} eq_refl) as E.
    unfold verdict in E. congruence.
  - now apply check_bias_verdict.
Qed.

(** The hash seed reaches the order of the quasi-identifiers only: whether
    the analysis raises, and whether it has PII findings, are the same in
    every run. *)
Lemma reports_pii_seed : forall order1 order2 df,
  reports_pii (caught (Privacy.analyze_dataset_in order1 df))
  = reports_pii (caught (Privacy.analyze_dataset_in order2 df)).
Proof.
  intros order1 order2 df. unfold Privacy.analyze_dataset_in.
  destruct (Privacy._analyze_uniqueness df); reflexivity.
Qed.

Lemma analyze_dataset_unseeded : forall df,
  Privacy.analyze_dataset_in (fun names => names) df
  = Privacy.analyze_dataset df.
Proof. reflexivity. Qed.

Lemma summary_timestamp : forall (S : Type) now (audit : audit_results S),
  timestamp (_generate_summary now audit) = now.
Proof.
  intros S now audit. unfold _generate_summary, recommend. simpl.
  unfold check_hallucination, check_privacy, check_bias.
  repeat match goal with |- context [if ?b then _ else _] => destruct b end;
    reflexivity.
Qed.

End SummaryFacts.

(** C1 (the code departs from it).  For a bias payload that signals a
    warning and a privacy payload with a PII finding, [_generate_summary]
    lists both issues and fails the audit, yet its risk tier is MEDIUM:
    line 171 assigns the tier without looking at the HIGH of line 165. *)
Theorem summary_downgrades_high :
  let audit :=
    Notions.audit_of Notions.warning_payload
      Notions.pii_payload (Pipeline.Marker "skipped" "") in
  let s := Pipeline._generate_summary "2026-01-01T00:00:00" audit in
  Pipeline.signals_warning (Pipeline.bias_analysis audit) = true
  /\ Pipeline.reports_pii (Pipeline.privacy_analysis audit) = true
  /\ Pipeline.risk_level
       (Pipeline.check_bias (Pipeline.bias_analysis audit)
          {| Pipeline.timestamp := ""; Pipeline.overall_status := "PASSED";
             Pipeline.issues_found := [];
             Pipeline.summary_recommendations := [];
             Pipeline.risk_level := "LOW" |}) = "HIGH"
  /\ Pipeline.issues_found s
     = ["Potential bias detected"; "PII detected in dataset"]
  /\ Pipeline.overall_status s = "FAILED"
  /\ Pipeline.risk_level s = "MEDIUM".
Proof. cbv zeta. repeat split; vm_compute; reflexivity. Qed.

(** ** The orchestrator *)

Module AuditFacts.
Import Py Frame Pipeline.
Import Notions.

Lemma caught_recorded : forall (P : Type) (outcome : exn P),
  recorded outcome (caught outcome).
Proof. intros P [p|e]; reflexivity. Qed.

Lemma caught_bias_recorded : forall outcome,
  recorded_bias outcome (caught_bias outcome).
Proof. intros [p|e]; reflexivity. Qed.

(** A run on a table without rows: the privacy stage raises on its
    division, the other stages are held as they ended, and the summary is
    made. *)
Lemma privacy_failure_is_recorded :
  let r :=
    run_full_audit no_numeric false unit no_predict no_metrics unit
      no_explain no_analysis "2026-01-01T09:00:00" no_rows no_rows
      (Int64 []) "email" [] tt (Some ["Who wrote Hamlet?"]) None in
  privacy_analysis r = Marker "error" "division by zero"
  /\ bias_analysis r = []
  /\ explainability_analysis r = Marker "error" "no explainer"
  /\ hallucination_analysis r = Marker "error" "no model"
  /\ overall_status (audit_summary r) = "PASSED".
Proof. cbv zeta. repeat split. Qed.

End AuditFacts.

Section OrchestratorFacts.
Import Py Frame Pipeline.

Variable to_numeric : string -> option Q.
Variable FAIRLEARN_AVAILABLE : bool.
Variable predictions : Type.
Variable predict : Bias.BiasDetector -> exn predictions.
Variable metrics :
  Bias.BiasDetector -> predictions -> string -> exn (Bias.object * Bias.object).
Variable model : Type.
Variable explain : model -> DataFrame -> exn explanation.
Variable comprehensive_analysis :
  list string -> option (list (string * string)) -> exn hallucination_results.

Let audit :=
  run_full_audit to_numeric FAIRLEARN_AVAILABLE predictions predict metrics
    model explain comprehensive_analysis.

(** C8.  Whatever each stage does, the audit result holds for every one of
    the four stages either its payload or, when it raised, the message of
    the exception under ['error']; what one stage did has no part in what
    is held for another, and the summary is the one derived from the four
    entries as they are held. *)
Theorem stage_failures_are_local :
  forall now dataset X_processed y_processed label_column
         protected_attributes m test_prompts reference_facts,
    let r :=
      audit now dataset X_processed y_processed label_column
        protected_attributes m test_prompts reference_facts in
    Notions.recorded_bias
      (snd (Bias.generate_report to_numeric FAIRLEARN_AVAILABLE predictions
              predict metrics
              (Bias.new dataset label_column protected_attributes
                 (Some X_processed) (Some y_processed))))
      (bias_analysis r)
    /\ Notions.recorded (explain m X_processed)
         (explainability_analysis r)
    /\ Notions.recorded (Privacy.analyze_dataset dataset)
         (privacy_analysis r)
    /\ match test_prompts with
       | Some (p :: ps) =>
           Notions.recorded
             (comprehensive_analysis (p :: ps) reference_facts)
             (hallucination_analysis r)
       | _ =>
           hallucination_analysis r
           = Marker "skipped" "No test prompts provided"
       end
    /\ audit_summary r = _generate_summary now r.
Proof.
  intros now dataset X_processed y_processed label_column
    protected_attributes m test_prompts reference_facts r.
  subst r. unfold audit, run_full_audit. cbn [bias_analysis
    explainability_analysis privacy_analysis hallucination_analysis
    audit_summary].
  split; [apply AuditFacts.caught_bias_recorded|].
  split; [apply AuditFacts.caught_recorded|].
  split; [apply AuditFacts.caught_recorded|].
  split.
  - destruct test_prompts as [[|p ps]|]; cbn [truthy];
      [reflexivity|apply AuditFacts.caught_recorded|reflexivity].
  - reflexivity.
Qed.

Lemma run_full_audit_unseeded :
  forall now dataset X_processed y_processed label_column
         protected_attributes m test_prompts reference_facts,
    run_full_audit_in to_numeric FAIRLEARN_AVAILABLE predictions predict
      metrics model explain comprehensive_analysis (fun names => names) now
      dataset X_processed y_processed label_column protected_attributes m
      test_prompts reference_facts
    = audit now dataset X_processed y_processed label_column
        protected_attributes m test_prompts reference_facts.
Proof. reflexivity. Qed.

(** C2.  Two runs of the audit on the same inputs with the same
    collaborators, each with its own clock reading and its own hash seed,
    give the same Summary (status, issues, recommendations and risk tier)
    and the same compliance score. *)
Theorem rerun_gives_same_summary :
  forall order1 order2 t1 t2 dataset X_processed y_processed label_column
         protected_attributes m test_prompts reference_facts,
    let r1 :=
      run_full_audit_in to_numeric FAIRLEARN_AVAILABLE predictions predict
        metrics model explain comprehensive_analysis order1 t1 dataset
        X_processed y_processed label_column protected_attributes m
        test_prompts reference_facts in
    let r2 :=
      run_full_audit_in to_numeric FAIRLEARN_AVAILABLE predictions predict
        metrics model explain comprehensive_analysis order2 t2 dataset
        X_processed y_processed label_column protected_attributes m
        test_prompts reference_facts in
    Notions.verdict (audit_summary r1)
    = Notions.verdict (audit_summary r2)
    /\ generate_compliance_score (Some r1)
       = generate_compliance_score (Some r2).
Proof.
  intros order1 order2 t1 t2 dataset X_processed y_processed label_column
    protected_attributes m test_prompts reference_facts r1 r2.
  assert (V : Notions.verdict (audit_summary r1)
              = Notions.verdict (audit_summary r2)).
  { subst r1 r2. unfold run_full_audit_in. cbn [audit_summary].
    apply SummaryFacts.summary_verdict_reads;
      cbn [bias_analysis privacy_analysis hallucination_analysis];
      [reflexivity|apply SummaryFacts.reports_pii_seed|reflexivity]. }
  split; [exact V|].
  unfold generate_compliance_score. f_equal. f_equal.
  unfold Notions.verdict in V. congruence.
Qed.

End OrchestratorFacts.

(** ** Lists without repetition *)

Module DistinctFacts.
Import Frame.
Import Notions.

Section Distinct.

Variable A : Type.
Variable eqb : A -> A -> bool.
Hypothesis eqb_refl : forall x, eqb x x = true.
Hypothesis eqb_sym : forall x y, eqb x y = eqb y x.

Lemma distinct_incl : forall xs seen x,
  In x (distinct eqb seen xs) -> In x xs.
Proof.
  induction xs as [|a xs IH]; intros seen x H; simpl in *.
  - exact H.
  - destruct (existsb (eqb a) seen).
    + right. eapply IH, H.
    + destruct H as [H|H]; [now left|right; eapply IH, H].
Qed.

Lemma distinct_fresh : forall xs seen x,
  In x (distinct eqb seen xs) -> existsb (eqb x) seen = false.
Proof.
  induction xs as [|a xs IH]; intros seen x H; simpl in *.
  - contradiction.
  - destruct (existsb (eqb a) seen) eqn:E.
    + eapply IH, H.
    + destruct H as [H|H]; [now subst|].
      apply IH in H. simpl in H. apply orb_false_iff in H. tauto.
Qed.

Lemma distinct_cover : forall xs seen x,
  In x xs ->
  existsb (eqb x) seen = true
  \/ exists y, In y (distinct eqb seen xs) /\ eqb x y = true.
Proof.
  induction xs as [|a xs IH]; intros seen x H; simpl in *.
  - contradiction.
  - destruct H as [H|H].
    + subst a. destruct (existsb (eqb x) seen) eqn:E; [now left|].
      right. exists x. split; [now left|apply eqb_refl].
    + destruct (existsb (eqb a) seen) eqn:E.
      * apply IH, H.
      * destruct (IH (a :: seen) x H) as [Hs|[y [Hy Hxy]]].
        -- simpl in Hs. apply orb_true_iff in Hs as [Hs|Hs].
           ++ right. exists a. split; [now left|exact Hs].
           ++ now left.
        -- right. exists y. split; [now right|exact Hxy].
Qed.

Lemma distinct_pairwise : forall xs seen,
  ForallOrdPairs (fun a b => eqb a b = false) (distinct eqb seen xs).
Proof.
  induction xs as [|a xs IH]; intros seen; simpl.
  - constructor.
  - destruct (existsb (eqb a) seen) eqn:E; [apply IH|].
    constructor; [|apply IH].
    apply Forall_forall. intros y Hy.
    apply distinct_fresh in Hy. simpl in Hy.
    apply orb_false_iff in Hy as [Hy _]. now rewrite eqb_sym.
Qed.

Lemma distinct_representatives : forall xs,
  representatives A eqb xs (distinct eqb [] xs).
Proof.
  intros xs. repeat split.
  - intros x Hx. eapply distinct_incl, Hx.
  - intros x Hx. destruct (distinct_cover xs [] x Hx) as [H|H];
      [discriminate|exact H].
  - apply distinct_pairwise.
Qed.

End Distinct.

Lemma pairwise_nodup : forall l : list string,
  ForallOrdPairs (fun a b => String.eqb a b = false) l -> NoDup l.
Proof.
  intros l Hp. induction Hp as [|a l Ha Hp IH]; constructor.
  - intros Hin. rewrite Forall_forall in Ha. specialize (Ha a Hin).
    now rewrite String.eqb_refl in Ha.
  - exact IH.
Qed.

(** [list(set(xs))] has the elements of [xs], each once. *)
Lemma list_set_spec : forall xs,
  NoDup (Privacy.list_set xs)
  /\ forall x, In x (Privacy.list_set xs) <-> In x xs.
Proof.
  intros xs.
  destruct (distinct_representatives string String.eqb String.eqb_refl
              String.eqb_sym xs) as [Hi [Hc Hp]].
  fold (Privacy.list_set xs) in *. split.
  - now apply pairwise_nodup.
  - intros x. split; [apply Hi|].
    intros Hx. destruct (Hc x Hx) as [y [Hy Hxy]].
    apply String.eqb_eq in Hxy. now subst.
Qed.

End DistinctFacts.

(** ** Quasi-identifiers *)

Module QuasiFacts.
Import Py Frame Privacy.
Import Notions.

Lemma in_found_columns : forall (qi : list (string * list string)) names name,
  In name
    (flat_map (fun '(_, keywords) => filter (any_keyword keywords) names) qi)
  <-> In name names
      /\ existsb (fun keyword => contains keyword (lower name))
           (flat_map snd qi) = true.
Proof.
  induction qi as [|[t keywords] qi IH]; intros names name; simpl.
  - split; [contradiction|intros [_ H]; discriminate].
  - rewrite in_app_iff, existsb_app, orb_true_iff, filter_In, IH.
    unfold any_keyword. tauto.
Qed.

Lemma names_only_names : forall df,
  map col_name (columns (names_only df)) = map col_name (columns df).
Proof.
  intros df. unfold names_only. simpl. rewrite map_map. reflexivity.
Qed.

End QuasiFacts.

(** C10.  A column is reported as a quasi-identifier exactly when some
    keyword of the taxonomy is a substring of its lower-cased name; the
    report is the same for the table with the same column names and no
    content; a column named "message" is reported, whatever it holds and
    whatever the other columns are; and no name is reported twice. *)
Theorem quasi_identifiers_by_name :
  forall df : Frame.DataFrame,
    (forall name,
       In name (Privacy._detect_quasi_identifiers df)
       <-> In name (map Frame.col_name (Frame.columns df))
           /\ exists keyword,
                In keyword Notions.taxonomy
                /\ Py.contains keyword (Py.lower name) = true)
    /\ Privacy._detect_quasi_identifiers df
       = Privacy._detect_quasi_identifiers (Notions.names_only df)
    /\ (forall rows content,
          In "message"
            (Privacy._detect_quasi_identifiers
               {| Frame.nrows := rows;
                  Frame.columns :=
                    {| Frame.col_name := "message";
                       Frame.col_data := content |} :: Frame.columns df |}))
    /\ NoDup (Privacy._detect_quasi_identifiers df).
Proof.
  intros df.
  assert (In_iff : forall d name,
            In name (Privacy._detect_quasi_identifiers d)
            <-> In name (map Frame.col_name (Frame.columns d))
                /\ Notions.matches_keyword name = true).
  { intros d name. unfold Privacy._detect_quasi_identifiers.
    rewrite (proj2 (DistinctFacts.list_set_spec _)).
    apply QuasiFacts.in_found_columns. }
  split; [|split; [|split]].
  - intros name. rewrite In_iff. unfold Notions.matches_keyword.
    rewrite existsb_exists. reflexivity.
  - unfold Privacy._detect_quasi_identifiers.
    rewrite QuasiFacts.names_only_names. reflexivity.
  - intros rows content. apply In_iff. split; [now left|reflexivity].
  - apply DistinctFacts.list_set_spec.
Qed.

(** ** Uniqueness *)

Module UniquenessFacts.
Import Py Frame Privacy.
Import Notions.

Lemma cell_eqb_refl : forall c, cell_eqb c c = true.
Proof.
  intros [s|n|x|b|]; simpl.
  - apply String.eqb_refl.
  - apply Z.eqb_refl.
  - apply Qeq_bool_iff. reflexivity.
  - now destruct b.
  - reflexivity.
Qed.

Lemma Qeq_bool_sym : forall x y, Qeq_bool x y = Qeq_bool y x.
Proof.
  intros x y. destruct (Qeq_bool x y) eqn:E, (Qeq_bool y x) eqn:F;
    try reflexivity.
  - apply Qeq_bool_iff in E. symmetry in E. apply Qeq_bool_iff in E.
    congruence.
  - apply Qeq_bool_iff in F. symmetry in F. apply Qeq_bool_iff in F.
    congruence.
Qed.

Lemma cell_eqb_sym : forall a b, cell_eqb a b = cell_eqb b a.
Proof.
  intros [s|n|x|b|] [s'|n'|x'|b'|]; simpl; try reflexivity.
  - apply String.eqb_sym.
  - apply Z.eqb_sym.
  - apply Qeq_bool_sym.
  - now destruct b, b'.
Qed.

Lemma row_eqb_refl : forall r, row_eqb r r = true.
Proof.
  induction r as [|c r IH]; simpl; [reflexivity|].
  now rewrite cell_eqb_refl, IH.
Qed.

Lemma row_eqb_sym : forall r1 r2, row_eqb r1 r2 = row_eqb r2 r1.
Proof.
  induction r1 as [|a r1 IH]; intros [|b r2]; simpl; try reflexivity.
  now rewrite cell_eqb_sym, IH.
Qed.

Lemma truediv_pos : forall a n,
  (0 < n)%nat -> truediv a n = Ok (Z.of_nat a # Pos.of_nat n).
Proof. intros a [|n] H; [lia|reflexivity]. Qed.

(** With a row in the table no ratio of the first loop divides by zero. *)
Lemma column_ratios_ok : forall n cols acc,
  (0 < n)%nat -> exists risk, column_ratios n cols acc = Ok risk.
Proof.
  intros n cols. induction cols as [|c cols IH]; intros acc Hn; simpl.
  - now exists acc.
  - destruct (eligible c); [|now apply IH].
    rewrite (truediv_pos _ _ Hn). simpl. now apply IH.
Qed.

(** Without a column of the three kinds the first loop stores nothing. *)
Lemma column_ratios_none : forall n cols acc,
  Forall (fun c => eligible c = false) cols ->
  column_ratios n cols acc = Ok acc.
Proof.
  intros n cols acc H. revert acc.
  induction H as [|c cols Hc H IH]; intros acc; simpl.
  - reflexivity.
  - rewrite Hc. apply IH.
Qed.

Lemma get_set_same : forall (V : Type) k (v : V) d,
  get k (set k v d) = Some v.
Proof.
  intros V k v d. induction d as [|[k' v'] d IH]; simpl.
  - now rewrite String.eqb_refl.
  - destruct (String.eqb k k') eqn:E; simpl.
    + now rewrite String.eqb_refl.
    + now rewrite E.
Qed.

Lemma no_important_cols : forall df,
  Forall (fun c => eligible c = false) (columns df) ->
  important_cols df = [].
Proof.
  intros df H. unfold important_cols.
  replace (filter eligible (columns df)) with (@nil column); [reflexivity|].
  induction H as [|c cols Hc H IH]; simpl; [reflexivity|].
  now rewrite Hc.
Qed.

Lemma uniqueness_ok : forall df,
  (0 < nrows df)%nat -> exists risk, _analyze_uniqueness df = Ok risk.
Proof.
  intros df Hn. unfold _analyze_uniqueness.
  destruct (column_ratios_ok (nrows df) (columns df) [] Hn) as [risk ->].
  cbn [bind]. destruct (0 <? nrows df)%nat; [|eexists; reflexivity].
  destruct (2 <=? List.length (important_cols df))%nat;
    [|eexists; reflexivity].
  rewrite (truediv_pos _ _ Hn). cbn [bind]. eexists; reflexivity.
Qed.

Lemma uniqueness_none : forall df,
  Forall (fun c => eligible c = false) (columns df) ->
  _analyze_uniqueness df = Ok [].
Proof.
  intros df H. unfold _analyze_uniqueness.
  rewrite (column_ratios_none _ _ _ H). cbn [bind].
  rewrite (no_important_cols _ H).
  destruct (0 <? nrows df)%nat; reflexivity.
Qed.

End UniquenessFacts.

(** C7, as the code has it.  In a table with a row, column names that
    differ from each other and at least two columns of kind object, int64
    or float64, the combined value is taken over the first three such
    columns in column order, and is the number of different combinations
    of values in them, one representative for each, divided by the number
    of rows. *)
Theorem combined_uniqueness_counts_distinct_rows :
  forall df : Frame.DataFrame,
    NoDup (map Frame.col_name (Frame.columns df)) ->
    (0 < Frame.nrows df)%nat ->
    (2 <= List.length (Privacy.important_cols df))%nat ->
    exists risk reps,
      Privacy._analyze_uniqueness df = Py.Ok risk
      /\ Notions.representatives (list Frame.cell) Frame.row_eqb
           (Frame.rows df
              (firstn 3 (filter Privacy.eligible (Frame.columns df))))
           reps
      /\ Py.get Privacy.combo_key risk
         = Some (Z.of_nat (List.length reps) # Pos.of_nat (Frame.nrows df)).
Proof.
  intros df _ Hn Hc. unfold Privacy._analyze_uniqueness.
  destruct (UniquenessFacts.column_ratios_ok (Frame.nrows df)
              (Frame.columns df) [] Hn) as [risk0 ->].
  cbn [Py.bind].
  apply Nat.ltb_lt in Hn as Hn'. rewrite Hn'.
  apply Nat.leb_le in Hc as Hc'. rewrite Hc'.
  rewrite (UniquenessFacts.truediv_pos _ _ Hn). cbn [Py.bind].
  eexists. eexists. split; [reflexivity|]. split.
  - apply DistinctFacts.distinct_representatives.
    + apply UniquenessFacts.row_eqb_refl.
    + apply UniquenessFacts.row_eqb_sym.
  - apply UniquenessFacts.get_set_same.
Qed.

Lemma combined_uniqueness_counts_distinct_rows_witness :
  exists risk reps,
    Privacy._analyze_uniqueness Notions.pairs = Py.Ok risk
    /\ Notions.representatives (list Frame.cell) Frame.row_eqb
         (Frame.rows Notions.pairs
            (firstn 3
               (filter Privacy.eligible
                  (Frame.columns Notions.pairs))))
         reps
    /\ Py.get Privacy.combo_key risk
       = Some (Z.of_nat (List.length reps)
               # Pos.of_nat (Frame.nrows Notions.pairs)).
Proof.
  apply (combined_uniqueness_counts_distinct_rows Notions.pairs).
  - repeat constructor; simpl; intuition discriminate.
  - simpl. lia.
  - simpl. lia.
Defined.

(** C7, as stated, fails: in a table of three rows of which the first two
    agree, the combined value is 2/3, the share of different combinations,
    while one row in three has a combination of its own. *)
Lemma combined_uniqueness_is_not_unique_fraction :
  Privacy._analyze_uniqueness Notions.pairs
  = Py.Ok [ ("city", 2 # 3); ("visits", 2 # 3);
            (Privacy.combo_key, 2 # 3) ]
  /\ Notions.fraction_of_unique_rows
       (Frame.rows Notions.pairs
          (Privacy.important_cols Notions.pairs))
     = 1 # 3
  /\ ~ (2 # 3 == 1 # 3)%Q.
Proof.
  split; [vm_compute; reflexivity|].
  split; [vm_compute; reflexivity|].
  intros H. vm_compute in H. discriminate.
Qed.

(** ** The privacy engine returns *)

Module TotalityFacts.
Import Py Frame Privacy PrivacyOutputs.
Import Notions.

Lemma column_pii_none : forall c, eligible c = false -> column_pii c = [].
Proof.
  intros [name d] H. unfold eligible, column_pii in *. simpl in *.
  destruct d; simpl in *; try discriminate; reflexivity.
Qed.

Lemma detect_pii_none : forall df,
  Forall no_such_column (columns df) -> _detect_pii df = [].
Proof.
  intros df H. unfold _detect_pii. generalize (@nil (string * list string)).
  induction H as [|c cols Hc H IH]; intros acc; simpl; [reflexivity|].
  rewrite (column_pii_none c Hc). apply IH.
Qed.

Lemma check_data_leakage_ok : forall outputs training_data,
  exists score, _check_data_leakage outputs training_data = Ok score.
Proof.
  intros outputs training_data. unfold _check_data_leakage.
  destruct (0 <? List.length (flat_map split outputs))%nat eqn:E.
  - apply Nat.ltb_lt in E. rewrite (UniquenessFacts.truediv_pos _ _ E).
    eexists; reflexivity.
  - eexists; reflexivity.
Qed.

Lemma analyze_model_outputs_ok : forall outputs training_data,
  exists o, analyze_model_outputs outputs training_data = Ok o.
Proof.
  intros outputs [td|]; unfold analyze_model_outputs.
  - destruct (check_data_leakage_ok outputs td) as [score ->].
    eexists; reflexivity.
  - eexists; reflexivity.
Qed.

(** The division of line 159 on a table without rows. *)
Example no_rows_raise : analyze_dataset no_rows = Raise ZeroDivisionError.
Proof. reflexivity. Qed.

End TotalityFacts.

(** C3, as the code has it.  On a table whose column names differ from
    each other, with a row or with no column of kind object, int64 or
    float64, the analysis of the dataset returns, and its quasi-identifiers
    are those of the column names alone; when no column is of the three
    kinds it returns with no PII finding and no uniqueness value; the
    analysis of model outputs returns for every list of outputs, without
    training data or with training data whose column names differ from
    each other. *)
Theorem privacy_analysis_returns :
  forall (df : Frame.DataFrame) (outputs : list string)
         (training_data : option Frame.DataFrame),
    NoDup (map Frame.col_name (Frame.columns df)) ->
    (forall td, training_data = Some td ->
                NoDup (map Frame.col_name (Frame.columns td))) ->
    (0 < Frame.nrows df)%nat
    \/ Forall Notions.no_such_column (Frame.columns df) ->
    (exists r,
       Privacy.analyze_dataset df = Py.Ok r
       /\ Privacy.quasi_identifiers r
          = Privacy._detect_quasi_identifiers (Notions.names_only df)
       /\ (Forall Notions.no_such_column (Frame.columns df) ->
           Privacy.pii_detected r = [] /\ Privacy.uniqueness_risk r = []))
    /\ exists o,
         PrivacyOutputs.analyze_model_outputs outputs training_data = Py.Ok o.
Proof.
  intros df outputs training_data _ _ H.
  split; [|apply TotalityFacts.analyze_model_outputs_ok].
  assert (Hq : Privacy._detect_quasi_identifiers df
               = Privacy._detect_quasi_identifiers (Notions.names_only df)).
  { unfold Privacy._detect_quasi_identifiers.
    rewrite QuasiFacts.names_only_names. reflexivity. }
  unfold Privacy.analyze_dataset.
  destruct H as [Hn|Hc].
  - destruct (UniquenessFacts.uniqueness_ok df Hn) as [risk E].
    rewrite E. cbn [Py.bind]. eexists. split; [reflexivity|].
    cbn [Privacy.quasi_identifiers Privacy.pii_detected
         Privacy.uniqueness_risk].
    split; [exact Hq|]. intros Hc.
    rewrite (UniquenessFacts.uniqueness_none df Hc) in E.
    inversion E. split; [apply TotalityFacts.detect_pii_none, Hc|reflexivity].
  - rewrite (UniquenessFacts.uniqueness_none df Hc). cbn [Py.bind].
    eexists. split; [reflexivity|].
    cbn [Privacy.quasi_identifiers Privacy.pii_detected
         Privacy.uniqueness_risk].
    split; [exact Hq|]. intros _.
    split; [apply TotalityFacts.detect_pii_none, Hc|reflexivity].
Qed.

Lemma privacy_analysis_returns_witness :
  (exists r,
     Privacy.analyze_dataset Notions.pairs = Py.Ok r
     /\ Privacy.quasi_identifiers r
        = Privacy._detect_quasi_identifiers
            (Notions.names_only Notions.pairs)
     /\ (Forall Notions.no_such_column
           (Frame.columns Notions.pairs) ->
         Privacy.pii_detected r = [] /\ Privacy.uniqueness_risk r = []))
  /\ exists o,
       PrivacyOutputs.analyze_model_outputs ["call 555-123-4567"]
         (Some Notions.pairs) = Py.Ok o.
Proof.
  apply (privacy_analysis_returns Notions.pairs
           ["call 555-123-4567"] (Some Notions.pairs)).
  - repeat constructor; simpl; intuition discriminate.
  - intros td H. injection H as <-.
    repeat constructor; simpl; intuition discriminate.
  - left. simpl. lia.
Defined.

(** C3, as stated, fails: a table of flags has no column of kind object,
    int64 or float64, yet its column "has_address" is a quasi-identifier
    finding, by the keyword "address". *)
Lemma flags_have_quasi_identifier :
  forallb (fun c => negb (Privacy.eligible c))
    (Frame.columns Notions.flags) = true
  /\ exists r,
       Privacy.analyze_dataset Notions.flags = Py.Ok r
       /\ Privacy.pii_detected r = []
       /\ Privacy.uniqueness_risk r = []
       /\ Privacy.quasi_identifiers r = ["has_address"].
Proof.
  split; [reflexivity|]. eexists. split; [reflexivity|].
  repeat split.
Qed.

(** ** Matches stay inside a cell *)

Module RegexFacts.
Import Py Frame Regex.
Import Notions.

Lemma star_local : forall f t k k',
  f " "%char = false -> agree t k k' ->
  forall s p, star f p (before t s) k = option_map (before t) (star f p s k').
Proof.
  intros f t k k' Hf Hk. induction s as [|c s IH]; intros p.
  - simpl. rewrite Hf. apply (Hk p EmptyString).
  - simpl. destruct (f c).
    + fold (before t s). rewrite IH.
      destruct (star f (Some c) s k'); [reflexivity|].
      apply (Hk p (String c s)).
    + apply (Hk p (String c s)).
Qed.

Lemma times_local : forall f t k k',
  f " "%char = false -> agree t k k' ->
  forall n s p,
    times n f p (before t s) k = option_map (before t) (times n f p s k').
Proof.
  intros f t k k' Hf Hk. induction n as [|n IH]; intros s p.
  - apply Hk.
  - destruct s as [|c s]; simpl.
    + now rewrite Hf.
    + destruct (f c); [apply IH|reflexivity].
Qed.

Lemma word_here_before : forall t s, word_here (before t s) = word_here s.
Proof. intros t [|c s]; reflexivity. Qed.

(** A match that starts in a text never reaches over the blank after it. *)
Lemma run_local : forall r,
  rejects_blank r ->
  forall t k k', agree t k k' ->
  forall s p, run r p (before t s) k = option_map (before t) (run r p s k').
Proof.
  induction r as [f| |r1 IH1 r2 IH2|r IH|n f|n f]; intros Hr t k k' Hk s p;
    simpl in Hr.
  - destruct s as [|c s]; simpl.
    + now rewrite Hr.
    + destruct (f c); [apply (Hk (Some c) s)|reflexivity].
  - simpl. rewrite word_here_before.
    destruct (xorb _ _); [apply Hk|reflexivity].
  - destruct Hr as [H1 H2]. simpl. apply IH1; [exact H1|].
    intros q u. now apply IH2.
  - simpl. rewrite (IH Hr t k k' Hk).
    destruct (run r p s k'); [reflexivity|apply Hk].
  - simpl. now apply times_local.
  - simpl. apply times_local; [exact Hr|].
    intros q u. now apply star_local.
Qed.

Lemma match_here_local : forall r t s p,
  rejects_blank r ->
  match_here r p (before t s) = option_map (before t) (match_here r p s).
Proof.
  intros r t s p Hr. unfold match_here. apply run_local; [exact Hr|].
  intros q u. reflexivity.
Qed.

Lemma star_prev : forall f k k',
  (forall q q' u, word_before q = word_before q' -> k q u = k' q' u) ->
  forall s p p', word_before p = word_before p' ->
  star f p s k = star f p' s k'.
Proof.
  intros f k k' Hk. induction s as [|c s IH]; intros p p' Hp; simpl.
  - now apply Hk.
  - destruct (f c); [|now apply Hk].
    rewrite (IH (Some c) (Some c) eq_refl).
    destruct (star f (Some c) s k'); [reflexivity|now apply Hk].
Qed.

Lemma times_prev : forall f k k',
  (forall q q' u, word_before q = word_before q' -> k q u = k' q' u) ->
  forall n s p p', word_before p = word_before p' ->
  times n f p s k = times n f p' s k'.
Proof.
  intros f k k' Hk. induction n as [|n IH]; intros s p p' Hp; simpl.
  - now apply Hk.
  - destruct s as [|c s]; [reflexivity|].
    destruct (f c); [now apply IH|reflexivity].
Qed.

(** Of the character before it a match sees only whether it is a word
    character. *)
Lemma run_prev : forall r k k',
  (forall q q' u, word_before q = word_before q' -> k q u = k' q' u) ->
  forall s p p', word_before p = word_before p' ->
  run r p s k = run r p' s k'.
Proof.
  induction r as [f| |r1 IH1 r2 IH2|r IH|n f|n f]; intros k k' Hk s p p' Hp;
    simpl.
  - destruct s as [|c s]; [reflexivity|].
    destruct (f c); [now apply Hk|reflexivity].
  - rewrite Hp. destruct (xorb _ _); [now apply Hk|reflexivity].
  - apply IH1; [|exact Hp]. intros q q' u Hq. now apply IH2.
  - rewrite (IH k k' Hk s p p' Hp).
    destruct (run r p' s k'); [reflexivity|now apply Hk].
  - now apply times_prev.
  - apply times_prev; [|exact Hp]. intros q q' u Hq. now apply star_prev.
Qed.

Lemma match_here_prev : forall r s p p',
  word_before p = word_before p' -> match_here r p s = match_here r p' s.
Proof.
  intros r s p p' Hp. unfold match_here. apply run_prev; [|exact Hp].
  reflexivity.
Qed.

Lemma scan_prev : forall r s p p' skip,
  word_before p = word_before p' -> scan r p s skip = scan r p' s skip.
Proof.
  intros r [|c s] p p' skip Hp; simpl;
    rewrite (match_here_prev r _ p p' Hp); reflexivity.
Qed.

Lemma length_before : forall t v,
  String.length (before t v) = (String.length v + S (String.length t))%nat.
Proof.
  intros t v. unfold before. induction v as [|c v IH]; simpl; [reflexivity|].
  now rewrite IH.
Qed.

(** The number of matches in a text, a blank and a second text is the sum
    of the numbers of matches in the two texts. *)
Lemma scan_before : forall r t,
  rejects_blank r ->
  forall s p skip,
    (skip <= String.length s)%nat ->
    List.length (scan r p (before t s) skip)
    = (List.length (scan r p s skip) + List.length (scan r None t 0))%nat.
Proof.
  intros r t Hr. induction s as [|c s IH]; intros p skip Hs.
  - simpl in Hs. assert (skip = 0)%nat as -> by lia.
    change (before t EmptyString) with (String " " t).
    cbn [scan].
    change (String " " t) with (before t EmptyString).
    rewrite (match_here_local r t EmptyString p Hr).
    destruct (match_here r p EmptyString) as [v|]; cbn [option_map].
    + cbn [List.length].
      match goal with
      | |- context [scan r (Some " "%char) t ?k] =>
          replace k with 0%nat
            by (rewrite !length_before; cbn [String.length]; lia)
      end.
      rewrite (scan_prev r t (Some " "%char) None) by reflexivity.
      reflexivity.
    + rewrite (scan_prev r t (Some " "%char) None) by reflexivity.
      reflexivity.
  - change (before t (String c s)) with (String c (before t s)).
    cbn [scan]. destruct skip as [|n].
    + change (String c (before t s)) with (before t (String c s)).
      rewrite (match_here_local r t (String c s) p Hr).
      destruct (match_here r p (String c s)) as [v|]; cbn [option_map].
      * cbn [List.length].
        match goal with
        | |- context [scan r (Some c) (before t s) ?k] =>
            replace k
              with (String.length (String c s) - String.length v - 1)%nat
              by (rewrite !length_before; lia)
        end.
        rewrite IH; [reflexivity|]. cbn [String.length]. lia.
      * apply IH. lia.
    + apply IH. simpl in Hs. lia.
Qed.

End RegexFacts.

(** ** The order of the rows *)

Module OrderFacts.
Import Py Frame Regex Privacy RegexFacts.
Import Notions.

Lemma join_cons : forall x y l,
  join " " (x :: y :: l) = before (join " " (y :: l)) x.
Proof. reflexivity. Qed.

Lemma count_join : forall r,
  rejects_blank r ->
  forall x l, count r (join " " (x :: l)) = list_sum (map (count r) (x :: l)).
Proof.
  intros r Hr x l. revert x. induction l as [|y l IH]; intros x.
  - simpl. unfold join. simpl. lia.
  - rewrite join_cons. unfold count, findall.
    rewrite scan_before by (exact Hr || lia).
    change (List.length (scan r None (join " " (y :: l)) 0))
      with (count r (join " " (y :: l))).
    rewrite IH. reflexivity.
Qed.

Lemma list_sum_perm : forall l l' : list nat,
  Permutation l l' -> list_sum l = list_sum l'.
Proof.
  intros l l' H. induction H; simpl; lia.
Qed.

Lemma count_perm : forall r,
  rejects_blank r ->
  forall xs ys : list string,
    Permutation xs ys -> count r (join " " xs) = count r (join " " ys).
Proof.
  intros r Hr xs ys H. destruct xs as [|x xs].
  - apply Permutation_nil in H. now subst.
  - destruct ys as [|y ys].
    + apply Permutation_sym, Permutation_nil in H. discriminate.
    + rewrite !count_join by exact Hr.
      apply list_sum_perm, Permutation_map, H.
Qed.

Lemma prefix_before : forall t sub s,
  blank_free sub = true -> prefix sub (before t s) = prefix sub s.
Proof.
  intros t sub s. revert sub. induction s as [|c s IH]; intros [|a sub] H;
    try reflexivity.
  - simpl in *. apply andb_true_iff in H as [H _].
    destruct (ascii_dec a " ") as [->|]; [discriminate|reflexivity].
  - simpl in *. apply andb_true_iff in H as [_ H].
    destruct (ascii_dec a c); [now apply IH|reflexivity].
Qed.

Lemma contains_empty : forall sub, plain sub = true ->
  contains sub EmptyString = false.
Proof.
  intros [|a sub] H; [discriminate|reflexivity].
Qed.

Lemma contains_before : forall t sub s,
  plain sub = true ->
  contains sub (before t s) = (contains sub s || contains sub t)%bool.
Proof.
  intros t sub s H. pose proof H as Hp.
  apply andb_true_iff in H as [Hb Hn].
  induction s as [|c s IH].
  - rewrite (contains_empty sub Hp).
    change (before t EmptyString) with (String " " t).
    cbn [contains].
    change (String " " t) with (before t EmptyString).
    rewrite (prefix_before t sub EmptyString Hb).
    destruct sub; [discriminate|reflexivity].
  - change (before t (String c s)) with (String c (before t s)).
    cbn [contains].
    change (String c (before t s)) with (before t (String c s)).
    rewrite (prefix_before t sub (String c s) Hb), IH.
    now rewrite orb_assoc.
Qed.

Lemma contains_join : forall sub texts,
  plain sub = true ->
  contains sub (join " " texts) = existsb (contains sub) texts.
Proof.
  intros sub texts H. induction texts as [|x [|y l] IH].
  - apply (contains_empty sub H).
  - simpl. unfold join. simpl. now rewrite orb_false_r.
  - rewrite join_cons, contains_before by exact H.
    rewrite IH. reflexivity.
Qed.

Lemma lower_before : forall t s, lower (before t s) = before (lower t) (lower s).
Proof.
  intros t s. induction s as [|c s IH]; [reflexivity|].
  change (before t (String c s)) with (String c (before t s)).
  simpl. now rewrite IH.
Qed.

Lemma lower_join : forall texts,
  lower (join " " texts) = join " " (map lower texts).
Proof.
  induction texts as [|x [|y l] IH]; try reflexivity.
  rewrite join_cons, lower_before, IH. reflexivity.
Qed.

Lemma existsb_perm : forall (A : Type) (f : A -> bool) l l',
  Permutation l l' -> existsb f l = existsb f l'.
Proof.
  intros A f l l' H. induction H; simpl.
  - reflexivity.
  - now rewrite IHPermutation.
  - now rewrite !orb_assoc, (orb_comm (f y)).
  - congruence.
Qed.

Lemma name_count_perm : forall names (xs ys : list string),
  forallb plain names = true ->
  Permutation xs ys ->
  name_count names (lower (join " " xs))
  = name_count names (lower (join " " ys)).
Proof.
  intros names xs ys Hn H. unfold name_count. f_equal.
  apply filter_ext_in. intros name Hin.
  rewrite forallb_forall in Hn. specialize (Hn name Hin).
  rewrite !lower_join, !contains_join by exact Hn.
  apply existsb_perm, Permutation_map, H.
Qed.

Lemma detect_names_perm : forall xs ys : list string,
  Permutation xs ys ->
  _detect_names (join " " xs) = _detect_names (join " " ys).
Proof.
  intros xs ys H. unfold _detect_names.
  rewrite (name_count_perm first_names xs ys) by (reflexivity || exact H).
  rewrite (name_count_perm last_names xs ys) by (reflexivity || exact H).
  reflexivity.
Qed.

Lemma email_rejects_blank : rejects_blank email_re.
Proof. cbv. repeat split. Qed.

Lemma phone_rejects_blank : rejects_blank phone_re.
Proof. cbv. repeat split. Qed.

Lemma ssn_rejects_blank : rejects_blank ssn_re.
Proof. cbv. repeat split. Qed.

Lemma zipcode_rejects_blank : rejects_blank zipcode_re.
Proof. cbv. repeat split. Qed.

End OrderFacts.

(** C9, as the code has it.  When the cells of a text column are put in
    another order, the numbers of matches of the email, phone, SSN and zip
    patterns in the text of the column stay the same, and so do the
    numbers of first and last names found and the name findings. *)
Theorem pii_counts_order_independent :
  forall xs ys : list (option string),
    Permutation xs ys ->
    (forall kind pattern,
       In (kind, pattern) Privacy.pii_patterns ->
       kind <> "credit_card" ->
       Notions.count pattern (Privacy.text_of xs)
       = Notions.count pattern (Privacy.text_of ys))
    /\ Privacy.name_count Privacy.first_names (Py.lower (Privacy.text_of xs))
       = Privacy.name_count Privacy.first_names
           (Py.lower (Privacy.text_of ys))
    /\ Privacy.name_count Privacy.last_names (Py.lower (Privacy.text_of xs))
       = Privacy.name_count Privacy.last_names
           (Py.lower (Privacy.text_of ys))
    /\ Privacy._detect_names (Privacy.text_of xs)
       = Privacy._detect_names (Privacy.text_of ys).
Proof.
  intros xs ys H. unfold Privacy.text_of, Frame.astype_str.
  pose proof (Permutation_map
                (fun x : option string =>
                   match x with Some s => s | None => "nan" end) H) as Hs.
  split; [|split; [|split]].
  - intros kind pattern Hin Hk. simpl in Hin.
    destruct Hin as [E|[E|[E|[E|[E|[]]]]]]; inversion E; subst;
      try (exfalso; now apply Hk);
      apply OrderFacts.count_perm; try exact Hs.
    + apply OrderFacts.email_rejects_blank.
    + apply OrderFacts.phone_rejects_blank.
    + apply OrderFacts.ssn_rejects_blank.
    + apply OrderFacts.zipcode_rejects_blank.
  - apply OrderFacts.name_count_perm; [reflexivity|exact Hs].
  - apply OrderFacts.name_count_perm; [reflexivity|exact Hs].
  - apply OrderFacts.detect_names_perm, Hs.
Qed.

Lemma pii_counts_order_independent_witness :
  (forall kind pattern,
     In (kind, pattern) Privacy.pii_patterns ->
     kind <> "credit_card" ->
     Notions.count pattern (Privacy.text_of Notions.accounts)
     = Notions.count pattern
         (Privacy.text_of Notions.accounts_reordered))
  /\ Privacy.name_count Privacy.first_names
       (Py.lower (Privacy.text_of Notions.accounts))
     = Privacy.name_count Privacy.first_names
         (Py.lower (Privacy.text_of Notions.accounts_reordered))
  /\ Privacy.name_count Privacy.last_names
       (Py.lower (Privacy.text_of Notions.accounts))
     = Privacy.name_count Privacy.last_names
         (Py.lower (Privacy.text_of Notions.accounts_reordered))
  /\ Privacy._detect_names (Privacy.text_of Notions.accounts)
     = Privacy._detect_names (Privacy.text_of Notions.accounts_reordered).
Proof.
  apply (pii_counts_order_independent Notions.accounts
           Notions.accounts_reordered).
  apply perm_skip, perm_swap.
Defined.

(** C9, as stated, fails: the credit card pattern lets a blank stand
    between two groups of digits, and the cells of a column are joined by
    blanks; two account numbers in cells that follow each other count as
    one card number, and count as none with another cell between them. *)
Lemma credit_card_count_depends_on_order :
  Permutation Notions.accounts Notions.accounts_reordered
  /\ Notions.count Privacy.credit_card_re
       (Privacy.text_of Notions.accounts) = 1%nat
  /\ Notions.count Privacy.credit_card_re
       (Privacy.text_of Notions.accounts_reordered) = 0%nat
  /\ Privacy.column_pii
       {| Frame.col_name := "account";
          Frame.col_data := Frame.Object Notions.accounts |}
     = ["credit_card: 1 instances"]
  /\ Privacy.column_pii
       {| Frame.col_name := "account";
          Frame.col_data := Frame.Object Notions.accounts_reordered |}
     = [].
Proof.
  split; [apply perm_skip, perm_swap|].
  repeat split; vm_compute; reflexivity.
Qed.

(** ** Floats *)

Module F64Facts.
Import F64.

Open Scope Q_scope.








Lemma round_comp : forall x y, x == y -> round x = round y.
Proof.
  intros x y H. unfold round. now rewrite (Qred_complete x y H).
Qed.

Lemma round_zero : forall x, x == 0 -> round x = 0.
Proof.
  intros x H. unfold round.
  assert (E : Qeq_bool (Qred x) 0 = true).
  { apply Qeq_bool_iff. now rewrite Qred_correct. }
  now rewrite E.
Qed.



End F64Facts.

(** ** Rates and the disparate impact ratio *)

Module BiasFacts.
Import Py Frame Bias.
Import Notions.

Open Scope Q_scope.















End BiasFacts.

Module VerdictFacts.
Import Py Frame Bias BiasFacts.
Import Notions.

Open Scope Q_scope.


Lemma label_values_length : forall d labels,
  label_values d = Some labels -> List.length labels = size d.
Proof.
  intros [xs|xs|xs|xs] labels H; unfold size; simpl in H.
  - destruct (unique _) as [|u0 [|u1 [|? ?]]]; try discriminate.
    injection H as <-. now rewrite length_map.
  - injection H as <-. cbn [cells]. now rewrite !length_map.
  - injection H as <-. cbn [cells]. now rewrite length_map.
  - injection H as <-. cbn [cells]. now rewrite !length_map.
Qed.


Lemma disparate_impact_verdict : forall table e,
  In e (disparate_impact table) -> is_verdict e = true.
Proof.
  intros table e. unfold disparate_impact.
  destruct (max_of (rates table)) as [M|],
           (min_of (rates table)) as [m|]; try contradiction.
  destruct (Qlt_bool 0 M); [|contradiction].
  intros [<-|[<-|[]]]; [reflexivity|].
  destruct (Qlt_bool (F64.div m M) (F64.round (8 # 10))); reflexivity.
Qed.

(** What one attribute prints when its table is printed: headings, the
    table, and the events of the ratio, computed from that table. *)
Lemma analyse_attr_events : forall to_numeric self attr label labels table,
  getitem (columns (dataset self)) (label_column self) = Ok label ->
  label_values (col_data label) = Some labels ->
  In (GroupStats table) (fst (analyse_attr to_numeric self attr)) ->
  exists col pre,
    getitem (columns (dataset self)) attr = Ok col
    /\ table
       = fst (stats_for to_numeric attr
                (temp_column self label labels attr col) labels)
    /\ existsb is_verdict pre = false
    /\ fst (analyse_attr to_numeric self attr)
       = (pre ++ disparate_impact table)%list.
Proof.
  intros to_numeric self attr label labels table Hl Hv.
  unfold analyse_attr. rewrite Hl, Hv.
  destruct (getitem (columns (dataset self)) attr) as [col|e].
  - destruct (stats_for to_numeric attr
                (temp_column self label labels attr col) labels)
      as [group_stats converted] eqn:E.
    cbn [fst]. intros Hin. exists col.
    assert (Ht : table = group_stats).
    { rewrite !in_app_iff in Hin.
      destruct Hin as [Hin|[Hin|[Hin|Hin]]].
      - destruct Hin as [Hin|[]]. discriminate.
      - destruct converted; [destruct Hin as [Hin|[]]; discriminate|].
        contradiction.
      - destruct Hin as [Hin|[]]. now inversion Hin.
      - apply disparate_impact_verdict in Hin. discriminate. }
    subst group_stats.
    exists ([Heading ("Analysis for " ++ attr)]
              ++ (if converted then [Converted attr] else [])
              ++ [GroupStats table])%list.
    split; [reflexivity|]. split; [now rewrite E|]. split.
    + destruct converted; reflexivity.
    + rewrite <- !app_assoc. reflexivity.
  - cbn [fst]. intros [Hin|[]]. discriminate.
Qed.






(** Rates that are 3/5 and 3/4 have the float quotient
    0.7999999999999999, which is under the float 0.8: the warning is
    printed. *)
Lemma four_fifths_in_floats :
  fst (analyse_attr no_numeric
         (Bias.new nine "approved" ["gender"] None None) "gender")
  = [ Heading "Analysis for gender";
      GroupStats
        [ {| group := CStr "f"; total_cases := 5; approvals := 3;
             approval_rate := Some (F64.round (6 # 10)) |};
          {| group := CStr "m"; total_cases := 4; approvals := 3;
             approval_rate := Some (F64.round (75 # 100)) |} ];
      Ratio (7205759403792793 # 9007199254740992);
      BiasWarning ].
Proof. vm_compute. reflexivity. Qed.

End VerdictFacts.



(** ** What the report holds *)

Module ReportFacts.
Import Py Frame Bias.
Import Notions.

Lemma in_set : forall (V : Type) k (v : V) k' v' d,
  In (k, v) (set k' v' d) -> (k, v) = (k', v') \/ In (k, v) d.
Proof.
  intros V k v k' v' d. induction d as [|[k0 v0] d IH]; simpl.
  - intros [H|[]]. left. congruence.
  - destruct (String.eqb k' k0).
    + intros [H|H]; [left; congruence|right; now right].
    + intros [H|H]; [right; now left|].
      destruct (IH H) as [E|E]; [now left|right; now right].
Qed.

Section Report.

Variable to_numeric : string -> option Q.
Variable FAIRLEARN_AVAILABLE : bool.
Variable predictions : Type.
Variable predict : BiasDetector -> exn predictions.
Variable metrics :
  BiasDetector -> predictions -> string -> exn (object * object).

Lemma fairlearn_loop_entries : forall self y_pred attrs res payload k v,
  fairlearn_loop predictions metrics self y_pred attrs res = Ok payload ->
  In (k, v) payload ->
  In (k, v) res \/ from_metrics predictions metrics self attrs k v.
Proof.
  intros self y_pred attrs. induction attrs as [|attr attrs IH];
    intros res payload k v H Hin; simpl in H.
  - inversion H. subst. now left.
  - destruct (metrics self y_pred attr) as [[by_group diff]|e] eqn:E;
      [|discriminate]. simpl in H.
    destruct (IH _ _ _ _ H Hin) as [Hres|Hm].
    + apply in_set in Hres as [Hres|Hres].
      * right. exists attr, y_pred, by_group, diff.
        split; [now left|]. split; [exact E|]. right.
        inversion Hres. now split.
      * apply in_set in Hres as [Hres|Hres]; [|now left].
        right. exists attr, y_pred, by_group, diff.
        split; [now left|]. split; [exact E|]. left.
        inversion Hres. now split.
    + right. destruct Hm as [a [y [g [d [Ha Hrest]]]]].
      exists a, y, g, d. split; [now right|exact Hrest].
Qed.

Lemma fairlearn_entries : forall self payload k v,
  fairlearn_analysis FAIRLEARN_AVAILABLE predictions predict metrics self
  = Ok payload ->
  In (k, v) payload ->
  In (k, v) (results self) \/ from_metrics predictions metrics self (protected_attributes self) k v.
Proof.
  intros self payload k v H Hin. unfold fairlearn_analysis in H.
  destruct FAIRLEARN_AVAILABLE.
  - destruct (predict self) as [y_pred|e]; [|discriminate]. simpl in H.
    eapply fairlearn_loop_entries; eassumption.
  - inversion H. subst. now left.
Qed.

End Report.

End ReportFacts.

(** C5 (the code departs from it).  The report on a table of loans with
    the attribute "gender" works out the table of the two groups, the
    ratio of their rates and the warning, and prints them; the payload it
    returns is empty, so the audit of the same table has no bias entry to
    search and passes with no issue, the lowest tier and the full score.
    For every detector, what the payload of a report holds is what was in
    the results before and what the fairness library gave: lines 144 and
    145 store, lines 70 to 83 only print. *)
Theorem bias_warning_is_printed_not_stored :
  let report :=
    Bias.generate_report Notions.no_numeric false unit
      Notions.no_predict Notions.no_metrics Notions.loans_detector in
  let audit := Notions.loans_audit "2026-01-01T00:00:00" in
  Bias.protected_attributes Notions.loans_detector = ["gender"]
  /\ fst report
     = [ Bias.Heading "BASIC BIAS ANALYSIS";
         Bias.Heading "Analysis for gender";
         Bias.GroupStats Notions.loans_table;
         Bias.Ratio
           (F64.div (F64.round (3333 # 10000)) (F64.round (5000 # 10000)));
         Bias.BiasWarning ]
  /\ snd report = Py.Ok []
  /\ Pipeline.bias_analysis audit = []
  /\ Pipeline.overall_status (Pipeline.audit_summary audit) = "PASSED"
  /\ Pipeline.issues_found (Pipeline.audit_summary audit) = []
  /\ Pipeline.risk_level (Pipeline.audit_summary audit) = "LOW"
  /\ Pipeline.generate_compliance_score (Some audit) = 100%Z
  /\ (forall (to_numeric : string -> option Q) (FAIRLEARN_AVAILABLE : bool)
             (predictions : Type)
             (predict : Bias.BiasDetector -> Py.exn predictions)
             (metrics : Bias.BiasDetector -> predictions -> string ->
                        Py.exn (Bias.object * Bias.object))
             (self : Bias.BiasDetector) payload k v,
        snd (Bias.generate_report to_numeric FAIRLEARN_AVAILABLE predictions
               predict metrics self) = Py.Ok payload ->
        In (k, v) payload ->
        In (k, v) (Bias.results self)
        \/ Notions.from_metrics predictions metrics self
             (Bias.protected_attributes self) k v).
Proof.
  cbv zeta.
  repeat (split; [vm_compute; reflexivity|]).
  intros to_numeric FAIRLEARN_AVAILABLE predictions predict metrics self
    payload k v Hp Hin.
  unfold Bias.generate_report in Hp.
  destruct (Bias.basic_bias_analysis to_numeric self) as [out [[]|e]];
    cbn [snd] in Hp; [|discriminate].
  eapply ReportFacts.fairlearn_entries; eassumption.
Qed.

(* ================================================================== *)
(** * Further properties of the summary and the score *)

Module SummaryShape.
Import Py Frame Pipeline.
Import Terms.

Lemma summary_fields : forall (S : Type) now (audit : audit_results S),
  _generate_summary now audit
  = {| timestamp := now;
       overall_status :=
         if (bias_flagged audit || rate_high audit)%bool
         then "FAILED" else "PASSED";
       issues_found :=
         when (bias_flagged audit) "Potential bias detected"
           ++ when (pii_found audit) "PII detected in dataset"
           ++ when (rate_high audit) "High hallucination rate detected";
       summary_recommendations :=
         if (bias_flagged audit || pii_found audit || rate_high audit)%bool
         then issue_recommendations else clean_recommendations;
       risk_level :=
         if pii_found audit then "MEDIUM"
         else if bias_flagged audit then "HIGH" else "LOW" |}.
Proof.
  intros S now audit.
  unfold _generate_summary, recommend, check_hallucination, check_privacy,
    check_bias, bias_flagged, pii_found, rate_high, when.
  destruct (negb (has_key "error" (bias_analysis audit)));
    destruct (signals_warning (bias_analysis audit));
    destruct (reports_pii (privacy_analysis audit));
    destruct (Bias.Qlt_bool (2 # 10)
                (reported_rate (hallucination_analysis audit)));
    reflexivity.
Qed.

Lemma score_of_summary : forall (S : Type) now (audit : audit_results S),
  fold_left deduct (issues_found (_generate_summary now audit)) 100
  = 100 - penalty (bias_flagged audit) 40 - penalty (pii_found audit) 20
    - penalty (rate_high audit) 30.
Proof.
  intros S now audit. rewrite summary_fields. cbn [issues_found].
  destruct (bias_flagged audit), (pii_found audit), (rate_high audit);
    reflexivity.
Qed.

Lemma penalties_bounds : forall b p h,
  10 <= 100 - penalty b 40 - penalty p 20 - penalty h 30 <= 100.
Proof. intros [|] [|] [|]; unfold penalty; lia. Qed.

(** The score of an audit result whose summary was made from the entries
    of [a]. *)
Lemma score_from_summary :
  forall (S : Type) now (a : audit_results S) (r : audit_results summary),
    audit_summary r = _generate_summary now a ->
    generate_compliance_score (Some r)
    = 100 - penalty (bias_flagged a) 40 - penalty (pii_found a) 20
      - penalty (rate_high a) 30.
Proof.
  intros S now a r H. unfold generate_compliance_score.
  rewrite H, score_of_summary.
  pose proof (penalties_bounds (bias_flagged a) (pii_found a) (rate_high a)).
  lia.
Qed.

Lemma caught_bias_not_flagged : forall e,
  (negb (has_key "error" (caught_bias (Raise e)))
   && signals_warning (caught_bias (Raise e)))%bool = false.
Proof. intros e. reflexivity. Qed.

End SummaryShape.

(** X1.  The summary fails the audit exactly when the bias payload is
    flagged or the hallucination rate is above 0.2; PII findings add an
    issue without failing it.  The issues come in the order bias, PII,
    hallucination, each at most once, and the recommendations are the list
    for a clean audit exactly when there is no issue. *)
Theorem summary_status_and_issues :
  forall (S : Type) (now : string) (audit : Pipeline.audit_results S),
    let s := Pipeline._generate_summary now audit in
    Pipeline.overall_status s
    = (if (Terms.bias_flagged audit || Terms.rate_high audit)%bool
       then "FAILED" else "PASSED")
    /\ Pipeline.issues_found s
       = (Terms.when (Terms.bias_flagged audit)
            "Potential bias detected"
            ++ Terms.when (Terms.pii_found audit)
                 "PII detected in dataset"
            ++ Terms.when (Terms.rate_high audit)
                 "High hallucination rate detected")%list
    /\ Pipeline.summary_recommendations s
       = (match Pipeline.issues_found s with
          | [] => Pipeline.clean_recommendations
          | _ => Pipeline.issue_recommendations
          end)
    /\ (Pipeline.risk_level s = "LOW"
        <-> Terms.bias_flagged audit = false
            /\ Terms.pii_found audit = false).
Proof.
  intros S now audit s. subst s. rewrite SummaryShape.summary_fields.
  cbn [Pipeline.overall_status Pipeline.issues_found
       Pipeline.summary_recommendations Pipeline.risk_level].
  split; [reflexivity|]. split; [reflexivity|]. split.
  - destruct (Terms.bias_flagged audit),
      (Terms.pii_found audit), (Terms.rate_high audit);
      reflexivity.
  - destruct (Terms.bias_flagged audit),
      (Terms.pii_found audit); split;
      try (intros [? ?]); try discriminate; auto.
Qed.

Section AuditScore.
Import Py Frame Pipeline.

Variable to_numeric : string -> option Q.
Variable FAIRLEARN_AVAILABLE : bool.
Variable predictions : Type.
Variable predict : Bias.BiasDetector -> exn predictions.
Variable metrics :
  Bias.BiasDetector -> predictions -> string -> exn (Bias.object * Bias.object).
Variable model : Type.
Variable explain : model -> DataFrame -> exn explanation.
Variable comprehensive_analysis :
  list string -> option (list (string * string)) -> exn hallucination_results.

(** X2.  After an audit the compliance score is 100 less 40 for a flagged
    bias payload, 20 for PII findings and 30 for a hallucination rate
    above 0.2, as the audit result holds them: each kind of issue is
    counted once, and the score is never under 10. *)
Theorem score_after_audit :
  forall now dataset X_processed y_processed label_column
         protected_attributes m test_prompts reference_facts,
    let r :=
      run_full_audit to_numeric FAIRLEARN_AVAILABLE predictions predict
        metrics model explain comprehensive_analysis now dataset X_processed
        y_processed label_column protected_attributes m test_prompts
        reference_facts in
    generate_compliance_score (Some r)
    = 100 - Terms.penalty (Terms.bias_flagged r) 40
      - Terms.penalty (Terms.pii_found r) 20
      - Terms.penalty (Terms.rate_high r) 30
    /\ 10 <= generate_compliance_score (Some r) <= 100.
Proof.
  intros now dataset X_processed y_processed label_column
    protected_attributes m test_prompts reference_facts r.
  split.
  - exact (SummaryShape.score_from_summary unit now _ r eq_refl).
  - rewrite (SummaryShape.score_from_summary unit now _ r eq_refl).
    apply SummaryShape.penalties_bounds.
Qed.

End AuditScore.

Module StageFacts.
Import Py Frame Pipeline.
Import Terms.

Lemma getitem_missing : forall cols name,
  ~ In name (map col_name cols) -> getitem cols name = Raise (KeyError name).
Proof.
  induction cols as [|c cols IH]; intros name H; simpl.
  - reflexivity.
  - destruct (String.eqb (col_name c) name) eqn:E.
    + apply String.eqb_eq in E. exfalso. apply H. now left.
    + apply IH. intros Hin. apply H. now right.
Qed.

Lemma getitem_present : forall cols name,
  In name (map col_name cols) ->
  exists c, getitem cols name = Ok c /\ col_name c = name /\ In c cols.
Proof.
  induction cols as [|c cols IH]; intros name H; simpl in *.
  - contradiction.
  - destruct (String.eqb (col_name c) name) eqn:E.
    + apply String.eqb_eq in E. exists c. auto.
    + destruct H as [H|H].
      * rewrite H, String.eqb_refl in E. discriminate.
      * destruct (IH name H) as [c' [Hg [Hn Hin]]]. exists c'. auto.
Qed.

Section Library.

Variable to_numeric : string -> option Q.
Variable predictions : Type.
Variable predict : Bias.BiasDetector -> exn predictions.
Variable metrics :
  Bias.BiasDetector -> predictions -> string -> exn (Bias.object * Bias.object).

(** Without the fairness library the report returns the results as they
    were, unless the basic analysis raised. *)
Lemma report_without_library : forall self,
  snd (Bias.generate_report to_numeric false predictions predict metrics self)
  = match snd (Bias.basic_bias_analysis to_numeric self) with
    | Raise e => Raise e
    | Ok _ => Ok (Bias.results self)
    end.
Proof.
  intros self. unfold Bias.generate_report.
  destruct (Bias.basic_bias_analysis to_numeric self) as [out [u|e]];
    reflexivity.
Qed.

End Library.

Lemma unflagged_issues : forall (S : Type) now (audit : audit_results S),
  Terms.bias_flagged audit = false ->
  lists_bias (issues_found (_generate_summary now audit)) = false.
Proof.
  intros S now audit H. rewrite SummaryShape.summary_fields.
  cbn [issues_found]. rewrite H.
  destruct (Terms.pii_found audit), (Terms.rate_high audit);
    reflexivity.
Qed.

End StageFacts.

Section StageEdges.
Import Py Frame Pipeline.

Variable to_numeric : string -> option Q.
Variable FAIRLEARN_AVAILABLE : bool.
Variable predictions : Type.
Variable predict : Bias.BiasDetector -> exn predictions.
Variable metrics :
  Bias.BiasDetector -> predictions -> string -> exn (Bias.object * Bias.object).
Variable model : Type.
Variable explain : model -> DataFrame -> exn explanation.
Variable comprehensive_analysis :
  list string -> option (list (string * string)) -> exn hallucination_results.

(** X3.  Without the fairness library an audit never lists the bias
    issue, whatever the data: the bias entry is the empty payload or an
    error marker, the basic analysis having stored nothing, and the
    compliance score is at least 50. *)
Theorem no_library_no_bias_issue :
  forall now dataset X_processed y_processed label_column
         protected_attributes m test_prompts reference_facts,
    let r :=
      run_full_audit to_numeric false predictions predict metrics model
        explain comprehensive_analysis now dataset X_processed y_processed
        label_column protected_attributes m test_prompts reference_facts in
    (bias_analysis r = []
     \/ exists message,
          bias_analysis r = [("error", {| Bias.str := message |})])
    /\ Terms.lists_bias (issues_found (audit_summary r)) = false
    /\ 50 <= generate_compliance_score (Some r).
Proof.
  intros now dataset X_processed y_processed label_column
    protected_attributes m test_prompts reference_facts r.
  assert (Hb : bias_analysis r = []
               \/ exists message,
                    bias_analysis r = [("error", {| Bias.str := message |})]).
  { subst r. unfold run_full_audit. cbn [bias_analysis].
    rewrite StageFacts.report_without_library.
    destruct (snd (Bias.basic_bias_analysis to_numeric _)) as [u|e].
    - left. reflexivity.
    - right. exists (exc_message e). reflexivity. }
  assert (Hf : Terms.bias_flagged r = false).
  { unfold Terms.bias_flagged.
    destruct Hb as [-> | [message ->]]; reflexivity. }
  split; [exact Hb|]. split.
  - subst r. unfold run_full_audit in *. cbn [audit_summary].
    apply StageFacts.unflagged_issues. exact Hf.
  - rewrite (SummaryShape.score_from_summary unit now _ r eq_refl).
    change (Terms.bias_flagged _) with (Terms.bias_flagged r).
    rewrite Hf. unfold Terms.penalty.
    repeat match goal with
           | |- context [if ?b then _ else _] => destruct b
           end; lia.
Qed.

End StageEdges.

(* ================================================================== *)
(** * Further properties of the basic bias analysis *)

Module BiasEdges.
Import Py Frame Bias.
Import Terms.

Section Edges.

Variable to_numeric : string -> option Q.

Lemma analyse_attr_no_label : forall self attr,
  ~ In (label_column self) (map col_name (columns (dataset self))) ->
  analyse_attr to_numeric self attr
  = ([Heading ("Analysis for " ++ attr)],
     Raise (KeyError (label_column self))).
Proof.
  intros self attr H. unfold analyse_attr.
  now rewrite (StageFacts.getitem_missing _ _ H).
Qed.

Lemma analyse_attr_skipped : forall self attr label,
  getitem (columns (dataset self)) (label_column self) = Ok label ->
  label_values (col_data label) = None ->
  analyse_attr to_numeric self attr
  = (skip_notice (label_column self) attr, Ok tt).
Proof.
  intros self attr label Hl Hv. unfold analyse_attr. now rewrite Hl, Hv.
Qed.

Lemma analyse_attr_no_column : forall self attr label labels,
  getitem (columns (dataset self)) (label_column self) = Ok label ->
  label_values (col_data label) = Some labels ->
  ~ In attr (map col_name (columns (dataset self))) ->
  analyse_attr to_numeric self attr
  = ([Heading ("Analysis for " ++ attr)], Raise (KeyError attr)).
Proof.
  intros self attr label labels Hl Hv H. unfold analyse_attr.
  now rewrite Hl, Hv, (StageFacts.getitem_missing _ _ H).
Qed.

Lemma analyse_all_skipped : forall self label attrs,
  getitem (columns (dataset self)) (label_column self) = Ok label ->
  label_values (col_data label) = None ->
  analyse_all to_numeric self attrs
  = (flat_map (skip_notice (label_column self)) attrs, Ok tt).
Proof.
  intros self label attrs Hl Hv. induction attrs as [|attr attrs IH].
  - reflexivity.
  - cbn [analyse_all]. rewrite (analyse_attr_skipped self attr label Hl Hv).
    rewrite IH. reflexivity.
Qed.

(** The attributes before one that raises are analysed, those after it
    are not. *)
Lemma analyse_all_stops : forall self pre attr post e out,
  snd (analyse_all to_numeric self pre) = Ok tt ->
  analyse_attr to_numeric self attr = (out, Raise e) ->
  analyse_all to_numeric self (pre ++ attr :: post)
  = ((fst (analyse_all to_numeric self pre) ++ out)%list, Raise e).
Proof.
  intros self pre attr post e out. induction pre as [|a pre IH];
    intros Hpre Ha.
  - cbn [app analyse_all fst]. now rewrite Ha.
  - cbn [app analyse_all] in *.
    destruct (analyse_attr to_numeric self a) as [out_a [u|e_a]].
    + destruct (analyse_all to_numeric self pre) as [out_pre r_pre] eqn:E.
      cbn [fst snd] in *. rewrite (IH Hpre Ha). cbn [fst].
      now rewrite app_assoc.
    + discriminate.
Qed.

(** One attribute of a resolved label and a column: one table, no skip
    notice. *)
Lemma analyse_attr_counts : forall self attr label labels,
  getitem (columns (dataset self)) (label_column self) = Ok label ->
  label_values (col_data label) = Some labels ->
  In attr (map col_name (columns (dataset self))) ->
  snd (analyse_attr to_numeric self attr) = Ok tt
  /\ List.length (filter is_table (fst (analyse_attr to_numeric self attr)))
     = 1%nat
  /\ filter is_skip (fst (analyse_attr to_numeric self attr)) = [].
Proof.
  intros self attr label labels Hl Hv Hin.
  destruct (StageFacts.getitem_present _ _ Hin) as [col [Hc _]].
  unfold analyse_attr. rewrite Hl, Hv, Hc.
  destruct (stats_for to_numeric attr
              (temp_column self label labels attr col) labels)
    as [group_stats converted].
  cbn [fst snd]. split; [reflexivity|].
  assert (Hd : filter is_table (disparate_impact group_stats) = []
               /\ filter is_skip (disparate_impact group_stats) = []).
  { unfold disparate_impact.
    destruct (max_of (rates group_stats)) as [M|],
             (min_of (rates group_stats)) as [m|]; try (split; reflexivity).
    destruct (Qlt_bool 0 M); [|split; reflexivity].
    destruct (Qlt_bool (F64.div m M) (F64.round (8 # 10)));
      split; reflexivity. }
  destruct Hd as [Hd1 Hd2].
  rewrite !filter_app, Hd1, Hd2. destruct converted; split; reflexivity.
Qed.

End Edges.

End BiasEdges.

Module BiasCounts.
Import Py Frame Bias BiasEdges.
Import Terms.

Section Counts.

Variable to_numeric : string -> option Q.

Lemma analyse_all_counts : forall self label labels attrs,
  getitem (columns (dataset self)) (label_column self) = Ok label ->
  label_values (col_data label) = Some labels ->
  Forall (fun attr => In attr (map col_name (columns (dataset self)))) attrs ->
  snd (analyse_all to_numeric self attrs) = Ok tt
  /\ List.length (filter is_table (fst (analyse_all to_numeric self attrs)))
     = List.length attrs
  /\ filter is_skip (fst (analyse_all to_numeric self attrs)) = [].
Proof.
  intros self label labels attrs Hl Hv H.
  induction H as [|attr attrs Ha H [IHs [IHt IHk]]].
  - repeat split.
  - destruct (analyse_attr_counts to_numeric self attr label labels Hl Hv Ha)
      as [Hs [Ht Hk]].
    cbn [analyse_all].
    destruct (analyse_attr to_numeric self attr) as [out r].
    cbn [fst snd] in Hs, Ht, Hk. subst r.
    destruct (analyse_all to_numeric self attrs) as [out' r'].
    cbn [fst snd] in *. split; [exact IHs|].
    rewrite !filter_app, length_app, Ht, IHt, Hk, IHk. split; reflexivity.
Qed.

Lemma skip_notices_counts : forall label attrs,
  filter is_table (flat_map (skip_notice label) attrs) = []
  /\ List.length (filter is_skip (flat_map (skip_notice label) attrs))
     = List.length attrs.
Proof.
  intros label attrs. induction attrs as [|attr attrs [IHt IHk]].
  - split; reflexivity.
  - cbn [flat_map]. rewrite !filter_app, length_app, IHt, IHk.
    split; reflexivity.
Qed.

End Counts.

End BiasCounts.

(** X4.  When the label is text that does not have exactly two values,
    the basic analysis prints a skip notice for every protected attribute
    and nothing else, computes no table, and does not raise, also for an
    attribute that is no column of the dataset. *)
Theorem label_skip_for_every_attribute :
  forall (to_numeric : string -> option Q) (self : Bias.BiasDetector)
         (label : Frame.column),
    Frame.getitem (Frame.columns (Bias.dataset self)) (Bias.label_column self)
    = Py.Ok label ->
    Bias.label_values (Frame.col_data label) = None ->
    Bias.basic_bias_analysis to_numeric self
    = (Bias.Heading "BASIC BIAS ANALYSIS"
         :: flat_map (Terms.skip_notice (Bias.label_column self))
              (Bias.protected_attributes self),
       Py.Ok tt).
Proof.
  intros to_numeric self label Hl Hv. unfold Bias.basic_bias_analysis.
  now rewrite (BiasEdges.analyse_all_skipped to_numeric self label _ Hl Hv).
Qed.

Lemma label_skip_for_every_attribute_witness :
  Bias.basic_bias_analysis Notions.no_numeric
    (Bias.new Terms.graded "grade" ["region"; "no_such_column"] None None)
  = ([ Bias.Heading "BASIC BIAS ANALYSIS";
       Bias.Heading "Analysis for region"; Bias.LabelSkipped "grade";
       Bias.Heading "Analysis for no_such_column";
       Bias.LabelSkipped "grade" ],
     Py.Ok tt).
Proof.
  apply (label_skip_for_every_attribute Notions.no_numeric
           (Bias.new Terms.graded "grade" ["region"; "no_such_column"]
              None None)
           {| Frame.col_name := "grade";
              Frame.col_data :=
                Frame.Object [Some "a"; Some "b"; Some "c"] |}).
  - reflexivity.
  - reflexivity.
Defined.

(** X5.  In a dataset whose column names differ from each other, when the
    label and every protected attribute are columns of the dataset, as
    they are when the caller picks them from its columns, the basic
    analysis does not raise, and every attribute gets exactly one of the
    two: its table of group statistics when the label resolves to numbers,
    a skip notice when it does not. *)
Theorem basic_analysis_returns_for_columns :
  forall (to_numeric : string -> option Q) (self : Bias.BiasDetector),
    NoDup (Terms.names (Bias.dataset self)) ->
    In (Bias.label_column self) (Terms.names (Bias.dataset self)) ->
    Forall (fun attr => In attr (Terms.names (Bias.dataset self)))
      (Bias.protected_attributes self) ->
    exists label,
      Frame.getitem (Frame.columns (Bias.dataset self))
        (Bias.label_column self) = Py.Ok label
      /\ snd (Bias.basic_bias_analysis to_numeric self) = Py.Ok tt
      /\ let out := fst (Bias.basic_bias_analysis to_numeric self) in
         let tables := List.length (filter Terms.is_table out) in
         let skips := List.length (filter Terms.is_skip out) in
         let n := List.length (Bias.protected_attributes self) in
         match Bias.label_values (Frame.col_data label) with
         | Some _ => tables = n /\ skips = 0%nat
         | None => tables = 0%nat /\ skips = n
         end.
Proof.
  intros to_numeric self _ Hlabel Hattrs.
  destruct (StageFacts.getitem_present _ _ Hlabel) as [label [Hl _]].
  exists label. split; [exact Hl|].
  unfold Bias.basic_bias_analysis.
  destruct (Bias.label_values (Frame.col_data label)) as [labels|] eqn:Hv.
  - destruct (BiasCounts.analyse_all_counts to_numeric self label labels
                (Bias.protected_attributes self) Hl Hv Hattrs)
      as [Hs [Ht Hk]].
    destruct (Bias.analyse_all to_numeric self
                (Bias.protected_attributes self)) as [out r].
    cbn [fst snd] in *. split; [exact Hs|].
    cbn [filter Terms.is_table Terms.is_skip].
    rewrite Ht, Hk. split; reflexivity.
  - rewrite (BiasEdges.analyse_all_skipped to_numeric self label _ Hl Hv).
    cbn [fst snd]. split; [reflexivity|].
    cbn [filter Terms.is_table Terms.is_skip].
    destruct (BiasCounts.skip_notices_counts (Bias.label_column self)
                (Bias.protected_attributes self)) as [Ht Hk].
    rewrite Ht, Hk. split; reflexivity.
Qed.

Lemma basic_analysis_returns_for_columns_witness :
  exists label,
    Frame.getitem (Frame.columns (Bias.dataset Notions.loans_detector))
      (Bias.label_column Notions.loans_detector) = Py.Ok label
    /\ snd (Bias.basic_bias_analysis Notions.no_numeric
              Notions.loans_detector) = Py.Ok tt
    /\ let out :=
         fst (Bias.basic_bias_analysis Notions.no_numeric
                Notions.loans_detector) in
       let tables := List.length (filter Terms.is_table out) in
       let skips := List.length (filter Terms.is_skip out) in
       let n :=
         List.length (Bias.protected_attributes Notions.loans_detector) in
       match Bias.label_values (Frame.col_data label) with
       | Some _ => tables = n /\ skips = 0%nat
       | None => tables = 0%nat /\ skips = n
       end.
Proof.
  apply (basic_analysis_returns_for_columns Notions.no_numeric
           Notions.loans_detector).
  - repeat constructor; simpl; intuition discriminate.
  - right. left. reflexivity.
  - constructor; [left; reflexivity|constructor].
Defined.

(** X6.  In a dataset whose column names differ from each other, an
    attribute that is no column, its name in ASCII, ends the basic analysis
    with a KeyError whose message is [repr] of its name: the attributes
    before it have been analysed and printed, of the attribute itself only
    the heading is printed, and the attributes after it are not looked
    at. *)
Theorem missing_attribute_stops_analysis :
  forall (to_numeric : string -> option Q) (self : Bias.BiasDetector)
         (label : Frame.column) (labels : list (option Q))
         (before : list string) (missing : string) (after : list string),
    NoDup (Terms.names (Bias.dataset self)) ->
    Frame.getitem (Frame.columns (Bias.dataset self)) (Bias.label_column self)
    = Py.Ok label ->
    Bias.label_values (Frame.col_data label) = Some labels ->
    Bias.protected_attributes self = (before ++ missing :: after)%list ->
    Forall (fun attr => In attr (Terms.names (Bias.dataset self)))
      before ->
    ~ In missing (Terms.names (Bias.dataset self)) ->
    Py.isascii missing = true ->
    Bias.basic_bias_analysis to_numeric self
    = (Bias.Heading "BASIC BIAS ANALYSIS"
         :: (fst (Bias.analyse_all to_numeric self before)
               ++ [Bias.Heading ("Analysis for " ++ missing)])%list,
       Py.Raise (Py.KeyError missing))
    /\ List.length
         (filter Terms.is_table
            (fst (Bias.basic_bias_analysis to_numeric self)))
       = List.length before.
Proof.
  intros to_numeric self label labels before missing after _ Hl Hv Hp Hb Hm
    _.
  destruct (BiasCounts.analyse_all_counts to_numeric self label labels
              before Hl Hv Hb) as [Hs [Ht _]].
  assert (E : Bias.basic_bias_analysis to_numeric self
              = (Bias.Heading "BASIC BIAS ANALYSIS"
                   :: (fst (Bias.analyse_all to_numeric self before)
                         ++ [Bias.Heading ("Analysis for " ++ missing)])%list,
                 Py.Raise (Py.KeyError missing))).
  { unfold Bias.basic_bias_analysis. rewrite Hp.
    rewrite (BiasEdges.analyse_all_stops to_numeric self before missing after
               (Py.KeyError missing)
               [Bias.Heading ("Analysis for " ++ missing)] Hs
               (BiasEdges.analyse_attr_no_column to_numeric self missing
                  label labels Hl Hv Hm)).
    reflexivity. }
  split; [exact E|]. rewrite E. cbn [fst filter Terms.is_table].
  rewrite filter_app, length_app, Ht. cbn. lia.
Qed.

Lemma missing_attribute_stops_analysis_witness :
  let self :=
    Bias.new Notions.loans "approved" ["gender"; "age"; "gender"] None None in
  Bias.basic_bias_analysis Notions.no_numeric self
  = (Bias.Heading "BASIC BIAS ANALYSIS"
       :: (fst (Bias.analyse_all Notions.no_numeric self ["gender"])
             ++ [Bias.Heading ("Analysis for " ++ "age")])%list,
     Py.Raise (Py.KeyError "age"))
  /\ List.length
       (filter Terms.is_table
          (fst (Bias.basic_bias_analysis Notions.no_numeric self)))
     = List.length ["gender"].
Proof.
  apply (missing_attribute_stops_analysis Notions.no_numeric
           (Bias.new Notions.loans "approved" ["gender"; "age"; "gender"]
              None None)
           {| Frame.col_name := "approved";
              Frame.col_data :=
                Frame.Object [Some "no"; Some "yes"; Some "no"; Some "no";
                              Some "yes"] |}
           [Some 0%Q; Some 1%Q; Some 0%Q; Some 0%Q; Some 1%Q]
           ["gender"] "age" ["gender"]).
  - repeat constructor; simpl; intuition discriminate.
  - reflexivity.
  - reflexivity.
  - reflexivity.
  - constructor; [left; reflexivity|constructor].
  - simpl. intros [H|[H|[]]]; discriminate.
  - reflexivity.
Defined.

Section StageMarkers.
Import Py Frame Pipeline.

Variable to_numeric : string -> option Q.
Variable FAIRLEARN_AVAILABLE : bool.
Variable predictions : Type.
Variable predict : Bias.BiasDetector -> exn predictions.
Variable metrics :
  Bias.BiasDetector -> predictions -> string -> exn (Bias.object * Bias.object).
Variable model : Type.
Variable explain : model -> DataFrame -> exn explanation.
Variable comprehensive_analysis :
  list string -> option (list (string * string)) -> exn hallucination_results.

(** X7.  When the label, its name in ASCII, is no column of the dataset
    and there is a protected attribute, the basic analysis raises a
    KeyError at the first attribute; the audit holds it as the error marker
    of the bias stage, with [repr] of the label's name as message, and
    lists no bias issue.
    Without a protected attribute the basic analysis does not look for the
    label and returns. *)
Theorem missing_label_is_error_marker :
  forall now dataset X_processed y_processed label_column attr attrs m
         test_prompts reference_facts,
    ~ In label_column (Terms.names dataset) ->
    isascii label_column = true ->
    let r :=
      run_full_audit to_numeric FAIRLEARN_AVAILABLE predictions predict
        metrics model explain comprehensive_analysis now dataset X_processed
        y_processed label_column (attr :: attrs) m test_prompts
        reference_facts in
    Bias.basic_bias_analysis to_numeric
      (Bias.new dataset label_column (attr :: attrs) (Some X_processed)
         (Some y_processed))
    = ([ Bias.Heading "BASIC BIAS ANALYSIS";
         Bias.Heading ("Analysis for " ++ attr) ],
       Raise (KeyError label_column))
    /\ bias_analysis r = [("error", {| Bias.str := repr label_column |})]
    /\ Terms.lists_bias (issues_found (audit_summary r)) = false
    /\ Bias.basic_bias_analysis to_numeric
         (Bias.new dataset label_column [] (Some X_processed)
            (Some y_processed))
       = ([Bias.Heading "BASIC BIAS ANALYSIS"], Ok tt).
Proof.
  intros now dataset X_processed y_processed label_column attr attrs m
    test_prompts reference_facts Hl _ r.
  assert (E : Bias.basic_bias_analysis to_numeric
                (Bias.new dataset label_column (attr :: attrs)
                   (Some X_processed) (Some y_processed))
              = ([ Bias.Heading "BASIC BIAS ANALYSIS";
                   Bias.Heading ("Analysis for " ++ attr) ],
                 Raise (KeyError label_column))).
  { unfold Bias.basic_bias_analysis.
    cbn [Bias.protected_attributes Bias.new Bias.analyse_all].
    rewrite (BiasEdges.analyse_attr_no_label to_numeric
               (Bias.new dataset label_column (attr :: attrs)
                  (Some X_processed) (Some y_processed)) attr Hl).
    reflexivity. }
  assert (B : bias_analysis r
              = [("error", {| Bias.str := repr label_column |})]).
  { subst r. unfold run_full_audit. cbn [bias_analysis].
    unfold Bias.generate_report. rewrite E. reflexivity. }
  split; [exact E|]. split; [exact B|]. split; [|reflexivity].
  subst r. unfold run_full_audit in *. cbn [audit_summary bias_analysis] in *.
  apply StageFacts.unflagged_issues.
  unfold Terms.bias_flagged. cbn [bias_analysis]. rewrite B.
  reflexivity.
Qed.

End StageMarkers.

Lemma missing_label_is_error_marker_witness :
  let r :=
    Pipeline.run_full_audit Notions.no_numeric false unit Notions.no_predict
      Notions.no_metrics unit Notions.no_explain Notions.no_analysis
      "2026-01-01T09:00:00" Notions.applicants Notions.features
      (Frame.Int64 [0; 1; 1; 1]) "outcome" ["gender"] tt None None in
  Pipeline.bias_analysis r = [("error", {| Bias.str := "'outcome'" |})]
  /\ Terms.lists_bias
       (Pipeline.issues_found (Pipeline.audit_summary r)) = false.
Proof.
  refine
    (let H :=
       missing_label_is_error_marker Notions.no_numeric false unit
         Notions.no_predict Notions.no_metrics unit Notions.no_explain
         Notions.no_analysis "2026-01-01T09:00:00" Notions.applicants
         Notions.features (Frame.Int64 [0; 1; 1; 1]) "outcome" "gender" []
         tt None None _ _ in
     conj (proj1 (proj2 H)) (proj1 (proj2 (proj2 H)))).
  - simpl. intros [H|[H|[H|[]]]]; discriminate.
  - reflexivity.
Defined.

Module GroupFacts.
Import Py Frame Bias.
Import Terms.

Lemma Qeq_bool_trans : forall x y z,
  Qeq_bool x y = true -> Qeq_bool y z = true -> Qeq_bool x z = true.
Proof.
  intros x y z H1 H2. apply Qeq_bool_iff in H1, H2. apply Qeq_bool_iff.
  now rewrite H1.
Qed.

Lemma cell_eqb_trans : forall a b c,
  cell_eqb a b = true -> cell_eqb b c = true -> cell_eqb a c = true.
Proof.
  intros [s|n|x|p|] [s'|n'|x'|p'|] [s''|n''|x''|p''|] H1 H2; simpl in *;
    try discriminate; try reflexivity.
  - apply String.eqb_eq in H1, H2. subst. apply String.eqb_refl.
  - apply Z.eqb_eq in H1, H2. subst. apply Z.eqb_refl.
  - eapply Qeq_bool_trans; eassumption.
  - destruct p, p', p''; try discriminate; reflexivity.
Qed.

Lemma filter_none : forall (A : Type) (f : A -> bool) l,
  (forall x, In x l -> f x = false) -> filter f l = [].
Proof.
  intros A f l H. induction l as [|a l IH]; simpl; [reflexivity|].
  rewrite (H a (or_introl eq_refl)). apply IH.
  intros x Hx. apply H. now right.
Qed.

(** Of keys that differ from each other at most one is the value of a
    given row. *)
Lemma one_key : forall keys c,
  ForallOrdPairs (fun a b => cell_eqb a b = false) keys ->
  (List.length (filter (fun k => cell_eqb c k) keys) <= 1)%nat.
Proof.
  intros keys c H. induction H as [|k keys Hk H IH]; simpl; [lia|].
  destruct (cell_eqb c k) eqn:E; [|exact IH].
  replace (filter (fun k0 => cell_eqb c k0) keys) with (@nil cell);
    [simpl; lia|].
  symmetry. apply filter_none.
  intros k' Hin. rewrite Forall_forall in Hk. specialize (Hk k' Hin).
  destruct (cell_eqb c k') eqn:E'; [|congruence].
  rewrite UniquenessFacts.cell_eqb_sym in E.
  rewrite (cell_eqb_trans k c k' E E') in Hk. discriminate.
Qed.

Lemma members_cons : forall keys r rows,
  list_sum (map (members (r :: rows)) keys)
  = (List.length (filter (fun k => cell_eqb (fst r) k) keys)
     + list_sum (map (members rows) keys))%nat.
Proof.
  induction keys as [|k keys IH]; intros r rows; simpl; [reflexivity|].
  rewrite IH. unfold members. simpl.
  destruct (cell_eqb (fst r) k); simpl; lia.
Qed.

(** No row is a member of two groups. *)
Lemma members_sum : forall keys rows,
  ForallOrdPairs (fun a b => cell_eqb a b = false) keys ->
  (list_sum (map (members rows) keys) <= List.length rows)%nat.
Proof.
  intros keys rows H. induction rows as [|r rows IH].
  - induction keys as [|k keys IHk]; simpl; [lia|].
    inversion H; subst. unfold members in *. simpl. now apply IHk.
  - rewrite members_cons. pose proof (one_key keys (fst r) H). simpl. lia.
Qed.

Lemma insert_key_perm : forall k ks, Permutation (insert_key k ks) (k :: ks).
Proof.
  intros k ks. induction ks as [|k' ks IH]; simpl; [reflexivity|].
  destruct (cell_leb k k'); [reflexivity|].
  rewrite IH. apply perm_swap.
Qed.

Lemma group_keys_perm : forall keys,
  Permutation (group_keys keys)
    (unique (filter (fun c => negb (isna c)) keys)).
Proof.
  intros keys. unfold group_keys.
  induction (unique (filter (fun c => negb (isna c)) keys)) as [|k ks IH];
    simpl; [reflexivity|].
  rewrite insert_key_perm. now constructor.
Qed.

Lemma present_length : forall xs : list (option Q),
  (List.length (present xs) <= List.length xs)%nat.
Proof.
  induction xs as [|[x|] xs IH]; simpl; lia.
Qed.

Lemma total_cases_members : forall rows key,
  (total_cases (agg rows key) <= members rows key)%nat.
Proof.
  intros rows key. unfold agg, members. cbn [total_cases].
  etransitivity; [apply present_length|]. now rewrite length_map.
Qed.

Lemma list_sum_le : forall (A : Type) (f g : A -> nat) l,
  (forall a, f a <= g a)%nat ->
  (list_sum (map f l) <= list_sum (map g l))%nat.
Proof.
  intros A f g l H. induction l as [|a l IH]; simpl; [lia|].
  specialize (H a). lia.
Qed.

(** The cases of the groups add up to at most the number of rows. *)
Lemma group_total : forall rows,
  (total (group_stats_of rows) <= List.length rows)%nat.
Proof.
  intros rows. unfold total, group_stats_of. rewrite map_map.
  etransitivity; [apply list_sum_le, total_cases_members|].
  rewrite (OrderFacts.list_sum_perm _ _
             (Permutation_map (members rows) (group_keys_perm (map fst rows)))).
  apply members_sum.
  apply (DistinctFacts.distinct_pairwise cell cell_eqb
           UniquenessFacts.cell_eqb_sym).
Qed.

Lemma attr_keys_length : forall to_numeric attr d,
  List.length (fst (attr_keys to_numeric attr d)) = size d.
Proof.
  intros to_numeric attr d. unfold attr_keys, size.
  destruct d as [xs|xs|xs|xs]; try reflexivity.
  destruct (numeric_like attr); cbn [fst cells]; now rewrite !length_map.
Qed.

Lemma stats_for_total : forall to_numeric attr d labels,
  (total (fst (stats_for to_numeric attr d labels)) <= size d)%nat.
Proof.
  intros to_numeric attr d labels. unfold stats_for.
  pose proof (attr_keys_length to_numeric attr d) as Hk.
  destruct (attr_keys to_numeric attr d) as [keys converted].
  cbn [fst] in *. etransitivity; [apply group_total|].
  etransitivity; [apply filter_length_le|].
  rewrite length_combine. lia.
Qed.

Lemma getitem_in : forall cols name c,
  getitem cols name = Ok c -> In c cols.
Proof.
  induction cols as [|c' cols IH]; intros name c H; simpl in H.
  - discriminate.
  - destruct (String.eqb (col_name c') name).
    + inversion H. now left.
    + right. eapply IH, H.
Qed.

Lemma mapped_size : forall labels, size (mapped labels) = List.length labels.
Proof.
  intros labels. unfold mapped, size.
  destruct (forallb _ labels); cbn [cells]; now rewrite !length_map.
Qed.

(** The column grouped by has as many values as the one of the dataset. *)
Lemma temp_column_size : forall self attr label labels col,
  getitem (columns (dataset self)) (label_column self) = Ok label ->
  label_values (col_data label) = Some labels ->
  getitem (columns (dataset self)) attr = Ok col ->
  size (temp_column self label labels attr col) = size (col_data col).
Proof.
  intros self attr label labels col Hl Hv Hc. unfold temp_column.
  destruct (col_data label) eqn:Ed; try reflexivity.
  destruct (String.eqb attr (label_column self)) eqn:E; [|reflexivity].
  apply String.eqb_eq in E. subst attr. rewrite Hl in Hc.
  injection Hc as Hc. subst col.
  rewrite mapped_size, (VerdictFacts.label_values_length _ _ Hv).
  now rewrite Ed.
Qed.

End GroupFacts.

(** X8.  The case counts of a printed table of group statistics add up to
    at most the number of rows of the dataset: a row is counted in one
    group at most, and rows without a group value or without a label are
    not counted. *)
Theorem group_counts_within_rows :
  forall (to_numeric : string -> option Q) (self : Bias.BiasDetector)
         (attr : string) (table : list Bias.group_row),
    Frame.well_formed (Bias.dataset self) ->
    In (Bias.GroupStats table) (fst (Bias.analyse_attr to_numeric self attr)) ->
    (Terms.total table <= Frame.nrows (Bias.dataset self))%nat.
Proof.
  intros to_numeric self attr table Hwf Hin.
  destruct (Frame.getitem (Frame.columns (Bias.dataset self))
              (Bias.label_column self)) as [label|e] eqn:Hl.
  2:{ unfold Bias.analyse_attr in Hin. rewrite Hl in Hin.
      destruct Hin as [H|[]]. discriminate. }
  destruct (Bias.label_values (Frame.col_data label)) as [labels|] eqn:Hv.
  2:{ unfold Bias.analyse_attr in Hin. rewrite Hl, Hv in Hin.
      destruct Hin as [H|[H|[]]]; discriminate. }
  destruct (VerdictFacts.analyse_attr_events to_numeric self attr label labels
              table Hl Hv Hin) as [col [pre [Hc [Ht _]]]].
  subst table. etransitivity; [apply GroupFacts.stats_for_total|].
  rewrite (GroupFacts.temp_column_size self attr label labels col Hl Hv Hc).
  apply GroupFacts.getitem_in in Hc.
  unfold Frame.well_formed in Hwf. rewrite Forall_forall in Hwf.
  rewrite (Hwf col Hc). lia.
Qed.

Lemma group_counts_within_rows_witness :
  (Terms.total Notions.loans_table <= Frame.nrows Notions.loans)%nat.
Proof.
  apply (group_counts_within_rows Notions.no_numeric Notions.loans_detector
           "gender" Notions.loans_table).
  - repeat constructor.
  - right. left. reflexivity.
Defined.

Module LabelFacts.
Import Py Frame Bias.
Import Terms.



End LabelFacts.



(* ================================================================== *)
(** * Further properties of the privacy engine *)

Module PiiFacts.
Import Py Frame Regex Privacy.
Import Terms.

Lemma list_sum_in : forall (l : list nat) a,
  In a l -> (a <= list_sum l)%nat.
Proof.
  induction l as [|b l IH]; intros a H; simpl in *; [contradiction|].
  destruct H as [H|H].
  - subst. lia.
  - specialize (IH a H). lia.
Qed.

Lemma has_key_set : forall (V : Type) k (v : V) d,
  has_key k (set k v d) = true.
Proof.
  intros V k v d. unfold has_key.
  now rewrite UniquenessFacts.get_set_same.
Qed.

Lemma get_set_other : forall (V : Type) k k' (v : V) d,
  String.eqb k k' = false -> get k (set k' v d) = get k d.
Proof.
  intros V k k' v d H. induction d as [|[k0 v0] d IH]; simpl.
  - now rewrite H.
  - destruct (String.eqb k' k0) eqn:E; simpl.
    + apply String.eqb_eq in E. subst k0. now rewrite H.
    + destruct (String.eqb k k0); [reflexivity|exact IH].
Qed.

Lemma has_key_kept : forall (V : Type) k k' (v : V) d,
  has_key k d = true -> has_key k (set k' v d) = true.
Proof.
  intros V k k' v d H. destruct (String.eqb k k') eqn:E.
  - apply String.eqb_eq in E. subst. apply has_key_set.
  - unfold has_key in *. now rewrite get_set_other.
Qed.

Lemma keys_set : forall (V : Type) k (v : V) d,
  has_key k d = true -> map fst (set k v d) = map fst d.
Proof.
  intros V k v d. unfold has_key. induction d as [|[k0 v0] d IH]; simpl.
  - discriminate.
  - destruct (String.eqb k k0) eqn:E; simpl.
    + apply String.eqb_eq in E. now subst.
    + intros H. now rewrite IH.
Qed.

Lemma keys_set_new : forall (V : Type) k (v : V) d,
  has_key k d = false -> map fst (set k v d) = (map fst d ++ [k])%list.
Proof.
  intros V k v d. unfold has_key. induction d as [|[k0 v0] d IH]; simpl.
  - reflexivity.
  - destruct (String.eqb k k0) eqn:E; simpl.
    + discriminate.
    + intros H. now rewrite IH.
Qed.

Lemma has_key_in : forall (V : Type) k (d : list (string * V)),
  has_key k d = true <-> In k (map fst d).
Proof.
  intros V k d. unfold has_key. induction d as [|[k0 v0] d IH]; simpl.
  - split; [discriminate|contradiction].
  - destruct (String.eqb k k0) eqn:E.
    + apply String.eqb_eq in E. subst. split; auto.
    + rewrite IH. split; [auto|]. intros [H|H]; [|exact H].
      subst. rewrite String.eqb_refl in E. discriminate.
Qed.

(** Assignment keeps the keys of a dict different from each other. *)
Lemma nodup_set : forall (V : Type) k (v : V) d,
  NoDup (map fst d) -> NoDup (map fst (set k v d)).
Proof.
  intros V k v d H. destruct (has_key k d) eqn:E.
  - now rewrite keys_set.
  - rewrite keys_set_new by exact E.
    apply NoDup_app; [exact H|repeat constructor; intros []|].
    intros x Hx [Hk|[]]. subst x. apply has_key_in in Hx. congruence.
Qed.

Lemma column_pii_text : forall c, column_pii c <> [] -> is_text c.
Proof.
  intros [name d] H. unfold column_pii in H. simpl in *.
  destruct d as [xs| | |]; try contradiction. now exists xs.
Qed.

Lemma keep_entries : forall cols acc k v,
  In (k, v) (fold_left keep cols acc) ->
  In (k, v) acc
  \/ exists c, In c cols /\ col_name c = k /\ v = column_pii c /\ v <> [].
Proof.
  induction cols as [|c cols IH]; intros acc k v H; simpl in H.
  - now left.
  - destruct (IH _ _ _ H) as [Hacc|[c' [Hin Hrest]]].
    + unfold keep in Hacc. destruct (column_pii c) as [|f fs] eqn:E.
      * now left.
      * apply ReportFacts.in_set in Hacc as [Heq|Hacc]; [|now left].
        right. exists c. inversion Heq. subst. rewrite E.
        repeat split; [now left|discriminate].
    + right. exists c'. split; [now right|exact Hrest].
Qed.

Lemma keep_nodup : forall cols acc,
  NoDup (map fst acc) -> NoDup (map fst (fold_left keep cols acc)).
Proof.
  induction cols as [|c cols IH]; intros acc H; simpl; [exact H|].
  apply IH. unfold keep. destruct (column_pii c); [exact H|].
  now apply nodup_set.
Qed.

Lemma keep_has_key : forall cols acc k,
  has_key k acc = true -> has_key k (fold_left keep cols acc) = true.
Proof.
  induction cols as [|c cols IH]; intros acc k H; simpl; [exact H|].
  apply IH. unfold keep. destruct (column_pii c); [exact H|].
  now apply has_key_kept.
Qed.

Lemma keep_finds : forall cols acc c,
  In c cols -> column_pii c <> [] ->
  has_key (col_name c) (fold_left keep cols acc) = true.
Proof.
  induction cols as [|c' cols IH]; intros acc c H Hc; simpl in *;
    [contradiction|].
  destruct H as [H|H].
  - subst c'. apply keep_has_key. unfold keep.
    destruct (column_pii c); [contradiction|apply has_key_set].
  - now apply IH.
Qed.

End PiiFacts.

(** X10.  In a dataset whose column names differ from each other, the PII
    findings have one entry for every column with a finding and no other:
    the keys differ from each other, every entry belongs to a text column
    of the dataset and holds the non-empty findings of such a column, and
    every column with findings has its name among the keys. *)
Theorem pii_findings_are_of_text_columns :
  forall df : Frame.DataFrame,
    NoDup (Terms.names df) ->
    NoDup (map fst (Privacy._detect_pii df))
    /\ (forall k v,
          In (k, v) (Privacy._detect_pii df) ->
          v <> []
          /\ exists c,
               In c (Frame.columns df) /\ Frame.col_name c = k
               /\ Terms.is_text c /\ v = Privacy.column_pii c)
    /\ (forall c,
          In c (Frame.columns df) -> Privacy.column_pii c <> [] ->
          Py.has_key (Frame.col_name c) (Privacy._detect_pii df) = true).
Proof.
  intros df _. change (Privacy._detect_pii df)
    with (fold_left Terms.keep (Frame.columns df) []).
  split; [|split].
  - apply PiiFacts.keep_nodup. constructor.
  - intros k v H.
    destruct (PiiFacts.keep_entries _ _ _ _ H) as [[]|[c [Hin [Hn [Hv Hne]]]]].
    split; [exact Hne|]. exists c. repeat split; try assumption.
    apply PiiFacts.column_pii_text. now rewrite <- Hv.
  - intros c Hin Hc. now apply PiiFacts.keep_finds.
Qed.

Lemma pii_findings_are_of_text_columns_witness :
  NoDup (map fst (Privacy._detect_pii Terms.contacts))
  /\ (forall k v,
        In (k, v) (Privacy._detect_pii Terms.contacts) ->
        v <> []
        /\ exists c,
             In c (Frame.columns Terms.contacts) /\ Frame.col_name c = k
             /\ Terms.is_text c /\ v = Privacy.column_pii c)
  /\ (forall c,
        In c (Frame.columns Terms.contacts) -> Privacy.column_pii c <> [] ->
        Py.has_key (Frame.col_name c) (Privacy._detect_pii Terms.contacts)
        = true).
Proof.
  apply (pii_findings_are_of_text_columns Terms.contacts).
  repeat constructor; simpl; intuition discriminate.
Defined.

(** X11.  For the email, phone, SSN and zip patterns the number of matches
    in the text of a column is the sum of the numbers of matches in its
    cells, each taken alone. *)
Theorem pattern_counts_add_over_cells :
  forall (x : option string) (xs : list (option string)),
    let text := Privacy.text_of (x :: xs) in
    let cells := Frame.astype_str (x :: xs) in
    Notions.count Privacy.email_re text
    = list_sum (map (Notions.count Privacy.email_re) cells)
    /\ Notions.count Privacy.phone_re text
       = list_sum (map (Notions.count Privacy.phone_re) cells)
    /\ Notions.count Privacy.ssn_re text
       = list_sum (map (Notions.count Privacy.ssn_re) cells)
    /\ Notions.count Privacy.zipcode_re text
       = list_sum (map (Notions.count Privacy.zipcode_re) cells).
Proof.
  intros x xs text cells. subst text cells.
  unfold Privacy.text_of. cbn [Frame.astype_str map].
  repeat split; apply OrderFacts.count_join.
  - apply OrderFacts.email_rejects_blank.
  - apply OrderFacts.phone_rejects_blank.
  - apply OrderFacts.ssn_rejects_blank.
  - apply OrderFacts.zipcode_rejects_blank.
Qed.

(** X12.  In a dataset whose column names differ from each other, a text
    column with the cell "john.doe@example.com" has an email finding with
    a count of at least one, whatever its other cells are, and its name is
    a key of the PII findings of the dataset. *)
Theorem email_cell_is_found :
  forall (df : Frame.DataFrame) (c : Frame.column)
         (xs : list (option string)),
    NoDup (Terms.names df) ->
    In c (Frame.columns df) ->
    Frame.col_data c = Frame.Object xs ->
    In (Some "john.doe@example.com") xs ->
    (exists n,
       (1 <= n)%nat
       /\ n = Notions.count Privacy.email_re (Privacy.text_of xs)
       /\ In ("email: " ++ Py.str_of_nat n ++ " instances")
            (Privacy.column_pii c))
    /\ Py.has_key (Frame.col_name c) (Privacy._detect_pii df) = true.
Proof.
  intros df c xs _ Hc Hd Hx.
  assert (Hn : (1 <= Notions.count Privacy.email_re (Privacy.text_of xs))%nat).
  { destruct xs as [|x xs]; [contradiction|].
    unfold Privacy.text_of.
    change (Frame.astype_str (x :: xs))
      with ((match x with Some s => s | None => "nan" end)
              :: Frame.astype_str xs).
    rewrite OrderFacts.count_join by apply OrderFacts.email_rejects_blank.
    change 1%nat
      with (Notions.count Privacy.email_re "john.doe@example.com").
    apply PiiFacts.list_sum_in.
    change ((match x with Some s => s | None => "nan" end)
              :: Frame.astype_str xs)
      with (Frame.astype_str (x :: xs)).
    apply in_map_iff. exists "john.doe@example.com". split; [reflexivity|].
    unfold Frame.astype_str. apply in_map_iff.
    exists (Some "john.doe@example.com"). split; [reflexivity|exact Hx]. }
  assert (Hf : In ("email: "
                     ++ Py.str_of_nat
                          (Notions.count Privacy.email_re
                             (Privacy.text_of xs))
                     ++ " instances") (Privacy.column_pii c)).
  { unfold Privacy.column_pii. rewrite Hd. apply in_or_app. left.
    unfold Privacy.pattern_findings, Privacy.pii_patterns.
    cbn [flat_map]. apply in_or_app. left.
    unfold Notions.count in *.
    destruct (Regex.findall Privacy.email_re (Privacy.text_of xs));
      [simpl in Hn; lia|now left]. }
  split.
  - eexists. split; [exact Hn|]. split; [reflexivity|exact Hf].
  - apply (PiiFacts.keep_finds (Frame.columns df) [] c Hc).
    intros E. rewrite E in Hf. contradiction.
Qed.

Lemma email_cell_is_found_witness :
  (exists n,
     (1 <= n)%nat
     /\ n = Notions.count Privacy.email_re
              (Privacy.text_of
                 [Some "call 555-123-4567"; Some "john.doe@example.com";
                  None])
     /\ In ("email: " ++ Py.str_of_nat n ++ " instances")
          (Privacy.column_pii
             {| Frame.col_name := "contact";
                Frame.col_data :=
                  Frame.Object
                    [Some "call 555-123-4567"; Some "john.doe@example.com";
                     None] |}))
  /\ Py.has_key "contact" (Privacy._detect_pii Terms.contacts) = true.
Proof.
  apply (email_cell_is_found Terms.contacts
           {| Frame.col_name := "contact";
              Frame.col_data :=
                Frame.Object
                  [Some "call 555-123-4567"; Some "john.doe@example.com";
                   None] |}
           [Some "call 555-123-4567"; Some "john.doe@example.com"; None]).
  - repeat constructor; simpl; intuition discriminate.
  - right. left. reflexivity.
  - reflexivity.
  - right. left. reflexivity.
Defined.

Module RatioFacts.
Import Py Frame Privacy.
Import Terms.

Lemma share_unit : forall a n,
  (a <= n)%nat -> (0 < n)%nat ->
  unit_ratio (Z.of_nat a # Pos.of_nat n).
Proof.
  intros a n Ha Hn. unfold unit_ratio, Qle. cbn [Qnum Qden]. lia.
Qed.

Lemma distinct_length : forall (A : Type) (eqb : A -> A -> bool) xs seen,
  (List.length (distinct eqb seen xs) <= List.length xs)%nat.
Proof.
  intros A eqb. induction xs as [|x xs IH]; intros seen; simpl; [lia|].
  destruct (existsb (eqb x) seen); simpl.
  - specialize (IH seen). lia.
  - specialize (IH (x :: seen)). lia.
Qed.

Lemma nunique_le_size : forall d, (nunique d <= size d)%nat.
Proof.
  intros d. unfold nunique, unique, size.
  etransitivity; [apply distinct_length|apply filter_length_le].
Qed.

Lemma rows_length : forall df cols, List.length (rows df cols) = nrows df.
Proof.
  intros df cols. unfold rows. now rewrite length_map, length_seq.
Qed.

(** The first loop keeps every value between 0 and 1. *)
Lemma column_ratios_unit : forall n cols acc risk,
  Forall (fun c => size (col_data c) = n) cols ->
  (forall k v, In (k, v) acc -> unit_ratio v) ->
  column_ratios n cols acc = Ok risk ->
  forall k v, In (k, v) risk -> unit_ratio v.
Proof.
  intros n cols. induction cols as [|c cols IH];
    intros acc risk Hwf Hacc H k v Hin; simpl in H.
  - inversion H. subst. eapply Hacc, Hin.
  - inversion Hwf as [|? ? Hc Hwf']. subst.
    destruct (eligible c).
    + destruct (size (col_data c)) as [|n] eqn:En; [discriminate|].
      cbn [truediv bind] in H.
      refine (IH _ risk Hwf' _ H k v Hin).
      intros k' v' Hin'.
      apply ReportFacts.in_set in Hin' as [Heq|Hin'];
        [|eapply Hacc, Hin'].
      pose proof (nunique_le_size (col_data c)) as Hu.
      replace v' with (Z.of_nat (nunique (col_data c)) # Pos.of_nat (S n))
        by congruence.
      apply (share_unit (nunique (col_data c)) (S n)); lia.
    + exact (IH _ risk Hwf' Hacc H k v Hin).
Qed.

Lemma distinct_all : forall (A : Type) (eqb : A -> A -> bool),
  (forall x y, eqb x y = eqb y x) ->
  forall xs seen,
    ForallOrdPairs (fun a b => eqb a b = false) xs ->
    Forall (fun x => existsb (eqb x) seen = false) xs ->
    distinct eqb seen xs = xs.
Proof.
  intros A eqb Hsym. induction xs as [|x xs IH]; intros seen Hp Hs; simpl.
  - reflexivity.
  - inversion Hp as [|? ? Hx Hp']. inversion Hs as [|? ? Hxs Hs']. subst.
    rewrite Hxs. f_equal. apply IH; [exact Hp'|].
    apply Forall_forall. intros y Hy. simpl.
    rewrite Forall_forall in Hx, Hs'.
    now rewrite Hsym, (Hx y Hy), (Hs' y Hy).
Qed.

Lemma distinct_seen : forall (A : Type) (eqb : A -> A -> bool) xs seen,
  Forall (fun x => existsb (eqb x) seen = true) xs ->
  distinct eqb seen xs = [].
Proof.
  intros A eqb xs seen H. induction H as [|x xs Hx H IH]; simpl.
  - reflexivity.
  - now rewrite Hx.
Qed.

Lemma filter_all : forall (A : Type) (f : A -> bool) l,
  Forall (fun x => f x = true) l -> filter f l = l.
Proof.
  intros A f l H. induction H as [|x l Hx H IH]; simpl; [reflexivity|].
  now rewrite Hx, IH.
Qed.

Lemma nunique_all_different : forall d,
  all_different d -> nunique d = size d.
Proof.
  intros d [Hp Hn]. unfold nunique, unique, size.
  rewrite filter_all.
  - rewrite (distinct_all cell cell_eqb UniquenessFacts.cell_eqb_sym);
      [reflexivity|exact Hp|].
    apply Forall_forall. reflexivity.
  - apply Forall_forall. intros c Hc. rewrite Forall_forall in Hn.
    now rewrite (Hn c Hc).
Qed.

Lemma nunique_constant : forall d v,
  constant v d -> isna v = false -> (0 < size d)%nat -> nunique d = 1%nat.
Proof.
  intros d v Hc Hv Hs. unfold nunique, unique, size, constant in *.
  assert (Hna : Forall (fun c => negb (isna c) = true) (cells d)).
  { apply Forall_forall. intros c Hin. rewrite Forall_forall in Hc.
    specialize (Hc c Hin).
    destruct c, v; simpl in *; try discriminate; reflexivity. }
  rewrite (filter_all _ _ _ Hna).
  destruct (cells d) as [|x xs]; [simpl in Hs; lia|].
  cbn [distinct existsb]. rewrite distinct_seen; [reflexivity|].
  inversion Hc as [|? ? Hx Hxs]. subst.
  apply Forall_forall. intros y Hy. rewrite Forall_forall in Hxs.
  simpl. rewrite orb_false_r.
  rewrite UniquenessFacts.cell_eqb_sym in Hx.
  apply (GroupFacts.cell_eqb_trans y v x (Hxs y Hy) Hx).
Qed.

(** A key that names none of the columns is left as it was. *)
Lemma column_ratios_other : forall n cols acc risk name,
  ~ In name (map col_name cols) ->
  column_ratios n cols acc = Ok risk ->
  get name risk = get name acc.
Proof.
  intros n cols. induction cols as [|c cols IH];
    intros acc risk name Hn H; simpl in H.
  - now inversion H.
  - assert (Hc : String.eqb name (col_name c) = false).
    { destruct (String.eqb name (col_name c)) eqn:E; [|reflexivity].
      apply String.eqb_eq in E. exfalso. apply Hn. now left. }
    assert (Hn' : ~ In name (map col_name cols))
      by (intros Hin; apply Hn; now right).
    destruct (eligible c).
    + destruct (truediv (nunique (col_data c)) n) as [q|e]; [|discriminate].
      cbn [bind] in H. rewrite (IH _ _ _ Hn' H).
      now apply PiiFacts.get_set_other.
    + now apply (IH _ _ _ Hn' H).
Qed.

(** The entry of a column, in a table whose column names differ. *)
Lemma column_ratios_entry : forall n cols acc risk c,
  (0 < n)%nat ->
  NoDup (map col_name cols) ->
  In c cols -> eligible c = true ->
  column_ratios n cols acc = Ok risk ->
  get (col_name c) risk
  = Some (Z.of_nat (nunique (col_data c)) # Pos.of_nat n).
Proof.
  intros n cols. induction cols as [|c' cols IH];
    intros acc risk c Hn Hd Hin He H; simpl in *; [contradiction|].
  inversion Hd as [|? ? Hnot Hd']. subst.
  destruct Hin as [->|Hin].
  - rewrite He, (UniquenessFacts.truediv_pos _ _ Hn) in H. cbn [bind] in H.
    rewrite (column_ratios_other _ _ _ _ _ Hnot H).
    apply UniquenessFacts.get_set_same.
  - destruct (eligible c').
    + rewrite (UniquenessFacts.truediv_pos _ _ Hn) in H. cbn [bind] in H.
      now apply (IH _ _ _ Hn Hd' Hin He H).
    + now apply (IH _ _ _ Hn Hd' Hin He H).
Qed.

Lemma uniqueness_entry : forall df c,
  (0 < nrows df)%nat ->
  NoDup (map col_name (columns df)) ->
  In c (columns df) -> eligible c = true ->
  col_name c <> combo_key ->
  exists risk,
    _analyze_uniqueness df = Ok risk
    /\ get (col_name c) risk
       = Some (Z.of_nat (nunique (col_data c)) # Pos.of_nat (nrows df)).
Proof.
  intros df c Hn Hd Hin He Hk. unfold _analyze_uniqueness.
  destruct (UniquenessFacts.column_ratios_ok (nrows df) (columns df) [] Hn)
    as [risk0 E].
  rewrite E. cbn [bind].
  pose proof (column_ratios_entry _ _ _ _ _ Hn Hd Hin He E) as Hg.
  assert (Hne : String.eqb (col_name c) combo_key = false).
  { destruct (String.eqb (col_name c) combo_key) eqn:F; [|reflexivity].
    apply String.eqb_eq in F. contradiction. }
  destruct (0 <? nrows df)%nat; [|eauto].
  destruct (2 <=? List.length (important_cols df))%nat; [|eauto].
  rewrite (UniquenessFacts.truediv_pos _ _ Hn). cbn [bind].
  eexists. split; [reflexivity|].
  now rewrite PiiFacts.get_set_other.
Qed.

End RatioFacts.

(** X13.  In a table whose columns all have as many values as the table
    has rows, every value of the uniqueness analysis, those of the columns
    and the combined one, lies between 0 and 1. *)
Theorem uniqueness_values_are_ratios :
  forall (df : Frame.DataFrame) (risk : list (string * Q)),
    Frame.well_formed df ->
    Privacy._analyze_uniqueness df = Py.Ok risk ->
    forall k v, In (k, v) risk -> (0 <= v <= 1)%Q.
Proof.
  intros df risk Hwf H k v Hin. unfold Privacy._analyze_uniqueness in H.
  destruct (Privacy.column_ratios (Frame.nrows df) (Frame.columns df) [])
    as [risk0|e] eqn:E; [|discriminate].
  cbn [Py.bind] in H.
  assert (H0 : forall k v, In (k, v) risk0 -> Terms.unit_ratio v).
  { apply (RatioFacts.column_ratios_unit _ _ [] risk0 Hwf); [|exact E].
    intros k' v' []. }
  destruct (0 <? Frame.nrows df)%nat eqn:Hn.
  2:{ inversion H. subst. eapply H0, Hin. }
  apply Nat.ltb_lt in Hn.
  destruct (2 <=? List.length (Privacy.important_cols df))%nat.
  2:{ inversion H. subst. eapply H0, Hin. }
  rewrite (UniquenessFacts.truediv_pos _ _ Hn) in H. cbn [Py.bind] in H.
  inversion H. subst risk.
  apply ReportFacts.in_set in Hin as [Heq|Hin]; [|eapply H0, Hin].
  replace v
    with (Z.of_nat
            (List.length
               (Frame.drop_duplicates
                  (Frame.rows df (Privacy.important_cols df))))
          # Pos.of_nat (Frame.nrows df)) by congruence.
  apply RatioFacts.share_unit; [|exact Hn].
  unfold Frame.drop_duplicates.
  etransitivity; [apply RatioFacts.distinct_length|].
  now rewrite RatioFacts.rows_length.
Qed.

Lemma uniqueness_values_are_ratios_witness :
  (0 <= 2 # 3 <= 1)%Q.
Proof.
  apply (uniqueness_values_are_ratios Notions.pairs
           [ ("city", 2 # 3); ("visits", 2 # 3);
             (Privacy.combo_key, 2 # 3) ]
           ltac:(repeat constructor) eq_refl "city" (2 # 3)).
  left. reflexivity.
Defined.

(** X14.  In a table with a row whose column names differ from each
    other, the uniqueness entry of a column of kind object, int64 or
    float64 (not named like the combined entry) is the number of its
    different values, missing ones left out, over the number of rows: it
    is 1 when no two values are equal and none is missing, and one over
    the number of rows when every row holds the same value. *)
Theorem column_uniqueness_entry :
  forall (df : Frame.DataFrame) (c : Frame.column),
    (0 < Frame.nrows df)%nat ->
    Frame.well_formed df ->
    NoDup (map Frame.col_name (Frame.columns df)) ->
    In c (Frame.columns df) ->
    Privacy.eligible c = true ->
    Frame.col_name c <> Privacy.combo_key ->
    exists risk,
      Privacy._analyze_uniqueness df = Py.Ok risk
      /\ Py.get (Frame.col_name c) risk
         = Some (Z.of_nat (Frame.nunique (Frame.col_data c))
                 # Pos.of_nat (Frame.nrows df))
      /\ (Terms.all_different (Frame.col_data c) ->
          exists q, Py.get (Frame.col_name c) risk = Some q /\ (q == 1)%Q)
      /\ (forall v,
            Terms.constant v (Frame.col_data c) ->
            Frame.isna v = false ->
            Py.get (Frame.col_name c) risk
            = Some (1 # Pos.of_nat (Frame.nrows df))).
Proof.
  intros df c Hn Hwf Hd Hin He Hk.
  destruct (RatioFacts.uniqueness_entry df c Hn Hd Hin He Hk)
    as [risk [Hr Hg]].
  assert (Hs : Frame.size (Frame.col_data c) = Frame.nrows df).
  { unfold Frame.well_formed in Hwf. rewrite Forall_forall in Hwf.
    now apply Hwf. }
  exists risk. split; [exact Hr|]. split; [exact Hg|]. split.
  - intros Ha. eexists. split; [exact Hg|].
    rewrite (RatioFacts.nunique_all_different _ Ha), Hs.
    unfold Qeq. cbn [Qnum Qden]. lia.
  - intros v Hc Hv. rewrite Hg.
    rewrite (RatioFacts.nunique_constant _ v Hc Hv) by lia. reflexivity.
Qed.

Lemma column_uniqueness_entry_witness :
  exists risk,
    Privacy._analyze_uniqueness Terms.club = Py.Ok risk
    /\ Py.get "member_id" risk = Some (4 # 4).
Proof.
  destruct (column_uniqueness_entry Terms.club
              {| Frame.col_name := "member_id";
                 Frame.col_data := Frame.Int64 [11; 12; 13; 14] |})
    as [risk [Hr [Hg _]]].
  - simpl. lia.
  - repeat constructor.
  - repeat constructor; simpl; intros H;
      repeat (destruct H as [H|H]; try discriminate); exact H.
  - left. reflexivity.
  - reflexivity.
  - discriminate.
  - exists risk. split; [exact Hr|exact Hg].
Defined.

Module OutputFacts.
Import Py Frame Regex Privacy PrivacyOutputs.
Import Terms.

Lemma note_entries : forall text ps acc k n,
  In (k, n) (fold_left (note text) ps acc) ->
  In (k, n) acc
  \/ exists r, In (k, r) ps /\ n = Notions.count r text /\ (1 <= n)%nat.
Proof.
  intros text. induction ps as [|[kind r] ps IH]; intros acc k n H;
    simpl in H.
  - now left.
  - destruct (IH _ _ _ H) as [Hacc|[r' [Hin Hrest]]].
    + unfold note in Hacc.
      destruct (findall r text) as [|m ms] eqn:E.
      * now left.
      * apply ReportFacts.in_set in Hacc as [Heq|Hacc]; [|now left].
        right. exists r. inversion Heq. subst.
        unfold Notions.count. rewrite E. simpl.
        repeat split; [now left|lia].
    + right. exists r'. split; [now right|exact Hrest].
Qed.

Lemma note_nodup : forall text ps acc,
  NoDup (map fst acc) -> NoDup (map fst (fold_left (note text) ps acc)).
Proof.
  intros text. induction ps as [|[kind r] ps IH]; intros acc H; simpl;
    [exact H|].
  apply IH. unfold note. destruct (findall r text); [exact H|].
  now apply PiiFacts.nodup_set.
Qed.

Lemma outputs_pii : forall outputs training_data o,
  analyze_model_outputs outputs training_data = Ok o ->
  pii_in_outputs o
  = fold_left (note (join " " outputs)) pii_patterns [].
Proof.
  intros outputs training_data o H. unfold analyze_model_outputs in H.
  destruct (match training_data with
            | Some td => _check_data_leakage outputs td
            | None => Ok 0%Q
            end) as [score|e]; [|discriminate].
  cbn [bind] in H. inversion H. reflexivity.
Qed.

End OutputFacts.

(** X15.  The leakage score of a list of outputs against training data
    whose column names differ from each other is returned and lies between
    0 and 1: it is 0 when the outputs have no token, and 0 in value when
    the training data has no text value. *)
Theorem leakage_score_is_a_share :
  forall (outputs : list string) (training_data : Frame.DataFrame),
    NoDup (Terms.names training_data) ->
    exists score,
      PrivacyOutputs._check_data_leakage outputs training_data = Py.Ok score
      /\ (0 <= score <= 1)%Q
      /\ (flat_map PrivacyOutputs.split outputs = [] -> score = 0%Q)
      /\ (PrivacyOutputs.training_text training_data = [] ->
          (score == 0)%Q).
Proof.
  intros outputs training_data _.
  unfold PrivacyOutputs._check_data_leakage.
  set (tokens := flat_map PrivacyOutputs.split outputs).
  set (hits := filter _ tokens).
  destruct (0 <? List.length tokens)%nat eqn:E.
  - apply Nat.ltb_lt in E. rewrite (UniquenessFacts.truediv_pos _ _ E).
    eexists. split; [reflexivity|]. split; [|split].
    + apply RatioFacts.share_unit; [apply filter_length_le|exact E].
    + intros Ht. rewrite Ht in E. simpl in E. lia.
    + intros Ht. subst hits. rewrite Ht.
      rewrite (GroupFacts.filter_none _ _ tokens) by reflexivity.
      reflexivity.
  - exists 0%Q. split; [reflexivity|]. split; [split; discriminate|].
    split; reflexivity.
Qed.

Lemma leakage_score_is_a_share_witness :
  exists score,
    PrivacyOutputs._check_data_leakage
      ["please call 555-123-4567"; "john.doe@example.com"] Terms.contacts
    = Py.Ok score
    /\ (0 <= score <= 1)%Q
    /\ (flat_map PrivacyOutputs.split
          ["please call 555-123-4567"; "john.doe@example.com"] = [] ->
        score = 0%Q)
    /\ (PrivacyOutputs.training_text Terms.contacts = [] -> (score == 0)%Q).
Proof.
  apply (leakage_score_is_a_share
           ["please call 555-123-4567"; "john.doe@example.com"]
           Terms.contacts).
  repeat constructor; simpl; intuition discriminate.
Defined.

(** X16.  The analysis of model outputs returns, with or without training
    data, when the column names of the training data differ from each
    other; its PII findings do not depend on the training data, have keys
    that differ from each other, and hold for a pattern kind the number of
    matches of that pattern in the outputs joined by blanks, which is then
    at least one. *)
Theorem output_findings_are_match_counts :
  forall (outputs : list string) (training_data : option Frame.DataFrame),
    (forall td, training_data = Some td -> NoDup (Terms.names td)) ->
    exists o,
      PrivacyOutputs.analyze_model_outputs outputs training_data = Py.Ok o
      /\ (exists o',
            PrivacyOutputs.analyze_model_outputs outputs None = Py.Ok o'
            /\ PrivacyOutputs.pii_in_outputs o
               = PrivacyOutputs.pii_in_outputs o')
      /\ NoDup (map fst (PrivacyOutputs.pii_in_outputs o))
      /\ forall kind n,
           In (kind, n) (PrivacyOutputs.pii_in_outputs o) ->
           (1 <= n)%nat
           /\ exists pattern,
                In (kind, pattern) Privacy.pii_patterns
                /\ n = Notions.count pattern (Py.join " " outputs).
Proof.
  intros outputs training_data _.
  destruct (TotalityFacts.analyze_model_outputs_ok outputs training_data)
    as [o Ho].
  destruct (TotalityFacts.analyze_model_outputs_ok outputs None)
    as [o' Ho'].
  exists o. split; [exact Ho|].
  pose proof (OutputFacts.outputs_pii _ _ _ Ho) as E.
  pose proof (OutputFacts.outputs_pii _ _ _ Ho') as E'.
  split; [exists o'; split; [exact Ho'|congruence]|].
  rewrite E. split.
  - apply OutputFacts.note_nodup. constructor.
  - intros kind n Hin.
    destruct (OutputFacts.note_entries _ _ _ _ _ Hin)
      as [[]|[r [Hr [Hn H1]]]].
    split; [exact H1|]. exists r. split; assumption.
Qed.

Lemma output_findings_are_match_counts_witness :
  exists o,
    PrivacyOutputs.analyze_model_outputs ["write to jane@example.org"]
      (Some Terms.contacts) = Py.Ok o
    /\ (exists o',
          PrivacyOutputs.analyze_model_outputs ["write to jane@example.org"]
            None = Py.Ok o'
          /\ PrivacyOutputs.pii_in_outputs o
             = PrivacyOutputs.pii_in_outputs o')
    /\ NoDup (map fst (PrivacyOutputs.pii_in_outputs o))
    /\ forall kind n,
         In (kind, n) (PrivacyOutputs.pii_in_outputs o) ->
         (1 <= n)%nat
         /\ exists pattern,
              In (kind, pattern) Privacy.pii_patterns
              /\ n = Notions.count pattern
                       (Py.join " " ["write to jane@example.org"]).
Proof.
  apply (output_findings_are_match_counts ["write to jane@example.org"]
           (Some Terms.contacts)).
  intros td H. injection H as <-.
  repeat constructor; simpl; intuition discriminate.
Defined.

(* ================================================================== *)
(** * The privacy report and the caller *)

Module ReportText.
Import Py Frame Privacy PrivacyOutputs PrivacyReport.
Import Terms.

Lemma append_assoc : forall a b c : string, (a ++ b) ++ c = a ++ (b ++ c).
Proof.
  induction a as [|x a IH]; intros b c; simpl; [reflexivity|].
  now rewrite IH.
Qed.

Lemma append_nil : forall a : string, a ++ EmptyString = a.
Proof.
  induction a as [|x a IH]; simpl; [reflexivity|]. now rewrite IH.
Qed.

Lemma add_lines_glue : forall (A : Type) (line : A -> string) xs report,
  add_lines line xs report = report ++ glue (map line xs).
Proof.
  intros A line. induction xs as [|x xs IH]; intros report; simpl.
  - now rewrite append_nil.
  - unfold add_lines in *. simpl. rewrite IH. apply append_assoc.
Qed.

Lemma prefix_append : forall p s t,
  prefix p s = true -> prefix p (s ++ t) = true.
Proof.
  induction p as [|a p IH]; intros s t H;
    [destruct (s ++ t); reflexivity|].
  destruct s as [|b s]; simpl in *; [discriminate|].
  destruct (ascii_dec a b); [now apply IH|discriminate].
Qed.

Lemma prefix_refl : forall p t, prefix p (p ++ t) = true.
Proof.
  induction p as [|a p IH]; intros t; simpl; [now destruct t|].
  destruct (ascii_dec a a); [apply IH|contradiction].
Qed.

Lemma contains_append_left : forall sub s t,
  contains sub s = true -> contains sub (s ++ t) = true.
Proof.
  intros sub. induction s as [|c s IH]; intros t H.
  - simpl in H. rewrite orb_false_r in H.
    destruct sub; [|discriminate]. now destruct t.
  - cbn [contains] in H. apply orb_true_iff in H as [H|H].
    + change (String c s ++ t) with (String c (s ++ t)).
      cbn [contains]. change (String c (s ++ t)) with (String c s ++ t).
      now rewrite (prefix_append _ _ t H).
    + change (String c s ++ t) with (String c (s ++ t)).
      cbn [contains]. rewrite (IH t H). apply orb_true_r.
Qed.

Lemma contains_append_right : forall sub s t,
  contains sub t = true -> contains sub (s ++ t) = true.
Proof.
  intros sub s t H. induction s as [|c s IH]; [exact H|].
  change (String c s ++ t) with (String c (s ++ t)).
  cbn [contains]. rewrite IH. apply orb_true_r.
Qed.

Lemma contains_start : forall sub t, contains sub (sub ++ t) = true.
Proof.
  intros sub t. destruct (sub ++ t) as [|c s] eqn:E; cbn [contains];
    rewrite <- E, prefix_refl; reflexivity.
Qed.

Lemma contains_glue : forall texts sub,
  In sub texts -> contains sub (glue texts) = true.
Proof.
  induction texts as [|x texts IH]; intros sub H; simpl in *;
    [contradiction|].
  destruct H as [->|H].
  - apply contains_start.
  - apply contains_append_right. now apply IH.
Qed.

Lemma lasting_prefix : forall p, lasting (fun r => prefix p r = true).
Proof. intros p report more. apply prefix_append. Qed.

Lemma lasting_contains : forall sub,
  lasting (fun r => contains sub r = true).
Proof. intros sub report more. apply contains_append_left. Qed.

Lemma add_lines_keeps : forall (A : Type) (line : A -> string) xs P report,
  lasting P -> P report -> P (add_lines line xs report).
Proof.
  intros A line xs P report HP H. rewrite add_lines_glue. now apply HP.
Qed.

Lemma add_lines_has : forall (A : Type) (line : A -> string) xs x report,
  In x xs -> contains (line x) (add_lines line xs report) = true.
Proof.
  intros A line xs x report H. rewrite add_lines_glue.
  apply contains_append_right, contains_glue. now apply in_map.
Qed.

Lemma dataset_part_keeps : forall P res report,
  lasting P -> P report -> P (dataset_part res report).
Proof.
  intros P res report HP H. unfold dataset_part.
  apply add_lines_keeps; [exact HP|]. apply HP.
  destruct (quasi_identifiers res) as [|q qs].
  - destruct (pii_detected res) as [|i items].
    + now apply HP, HP.
    + apply add_lines_keeps; [exact HP|]. now apply HP, HP.
  - apply add_lines_keeps; [exact HP|]. apply HP.
    destruct (pii_detected res) as [|i items].
    + now apply HP, HP.
    + apply add_lines_keeps; [exact HP|]. now apply HP, HP.
Qed.

Lemma outputs_part_keeps : forall P res report,
  lasting P -> P report -> P (outputs_part res report).
Proof.
  intros P res report HP H. unfold outputs_part.
  destruct (pii_in_outputs res) as [|i items].
  - now apply HP, HP.
  - apply add_lines_keeps; [exact HP|]. now apply HP, HP.
Qed.

Lemma dataset_part_pii : forall res report item,
  In item (pii_detected res) ->
  contains (pii_line item) (dataset_part res report) = true.
Proof.
  intros res report item H. unfold dataset_part.
  apply (add_lines_keeps _ _ _ (fun r => contains (pii_line item) r = true));
    [apply lasting_contains|].
  apply contains_append_left.
  assert (Hp : contains (pii_line item)
                 (match pii_detected res with
                  | [] =>
                      (report ++ "## Dataset Privacy Analysis" ++ nl ++ nl)
                        ++ "### ✅ No PII Detected" ++ nl
                  | _ :: _ =>
                      add_lines pii_line (pii_detected res)
                        ((report ++ "## Dataset Privacy Analysis" ++ nl ++ nl)
                           ++ "### ⚠️ PII Detected:" ++ nl)
                  end) = true).
  { destruct (pii_detected res) as [|i items] eqn:E; [contradiction|].
    now apply add_lines_has. }
  destruct (quasi_identifiers res) as [|q qs].
  - destruct (pii_detected res); exact Hp.
  - apply (add_lines_keeps _ _ _
             (fun r => contains (pii_line item) r = true));
      [apply lasting_contains|].
    apply contains_append_left. destruct (pii_detected res); exact Hp.
Qed.

Lemma dataset_part_qi : forall res report qi,
  In qi (quasi_identifiers res) ->
  contains (bullet qi) (dataset_part res report) = true.
Proof.
  intros res report qi H. unfold dataset_part.
  apply (add_lines_keeps _ _ _ (fun r => contains (bullet qi) r = true));
    [apply lasting_contains|].
  apply contains_append_left.
  destruct (quasi_identifiers res) as [|q qs] eqn:E; [contradiction|].
  now apply add_lines_has.
Qed.

Lemma dataset_part_rec : forall res report rec,
  In rec (recommendations res) ->
  contains (bullet rec) (dataset_part res report) = true.
Proof.
  intros res report rec H. unfold dataset_part. now apply add_lines_has.
Qed.

Lemma outputs_part_has : forall res report item,
  In item (pii_in_outputs res) ->
  contains (count_line item) (outputs_part res report) = true.
Proof.
  intros res report item H. unfold outputs_part.
  destruct (pii_in_outputs res) as [|i items] eqn:E; [contradiction|].
  now apply add_lines_has.
Qed.

Lemma title_kept : forall res, prefix title (dataset_part res title) = true.
Proof.
  intros res.
  apply (dataset_part_keeps (fun r => prefix title r = true));
    [apply lasting_prefix|].
  pose proof (prefix_refl title EmptyString) as H.
  now rewrite append_nil in H.
Qed.

Lemma analyze_dataset_ok : forall df,
  (0 < nrows df)%nat -> exists r, analyze_dataset df = Ok r.
Proof.
  intros df Hn. unfold analyze_dataset.
  destruct (UniquenessFacts.uniqueness_ok df Hn) as [risk ->].
  cbn [bind]. eexists. reflexivity.
Qed.

End ReportText.

(** X17.  For a dataset with at least one row, whose column names differ
    from each other, the privacy report is produced: it starts with its
    title and has a line for every column with PII findings, for every
    quasi-identifier and for every recommendation of the dataset analysis.
    With model outputs given it has a line for every PII count of the
    outputs as well; with none, or with an empty list, it ends after the
    recommendations. *)
Theorem privacy_report_lists_findings :
  forall (df : Frame.DataFrame) (model_outputs : option (list string)),
    NoDup (Terms.names df) ->
    (0 < Frame.nrows df)%nat ->
    exists r report,
      Privacy.analyze_dataset df = Py.Ok r
      /\ PrivacyReport.generate_privacy_report df model_outputs = Py.Ok report
      /\ prefix PrivacyReport.title report = true
      /\ (forall item, In item (Privacy.pii_detected r) ->
          Py.contains (PrivacyReport.pii_line item) report = true)
      /\ (forall qi, In qi (Privacy.quasi_identifiers r) ->
          Py.contains (PrivacyReport.bullet qi) report = true)
      /\ (forall rec, In rec (Privacy.recommendations r) ->
          Py.contains (PrivacyReport.bullet rec) report = true)
      /\ match model_outputs with
         | Some (output :: outputs) =>
             exists o,
               PrivacyOutputs.analyze_model_outputs (output :: outputs)
                 (Some df) = Py.Ok o
               /\ forall item, In item (PrivacyOutputs.pii_in_outputs o) ->
                    Py.contains (PrivacyReport.count_line item) report = true
         | _ => report = PrivacyReport.dataset_part r PrivacyReport.title
         end.
Proof.
  intros df model_outputs _ Hn.
  destruct (ReportText.analyze_dataset_ok df Hn) as [r Hr].
  exists r. unfold PrivacyReport.generate_privacy_report. rewrite Hr.
  cbn [Py.bind].
  pose proof (ReportText.title_kept r) as Ht.
  pose proof (ReportText.dataset_part_pii r PrivacyReport.title) as Hp.
  pose proof (ReportText.dataset_part_qi r PrivacyReport.title) as Hq.
  pose proof (ReportText.dataset_part_rec r PrivacyReport.title) as Hc.
  destruct model_outputs as [[|output outputs]|].
  - eexists. repeat (split; [first [reflexivity | eassumption]|]).
    reflexivity.
  - destruct (TotalityFacts.analyze_model_outputs_ok (output :: outputs)
                (Some df)) as [o Ho].
    rewrite Ho. cbn [Py.bind]. eexists.
    split; [reflexivity|]. split; [reflexivity|].
    split; [now apply (ReportText.outputs_part_keeps
                         (fun t => prefix PrivacyReport.title t = true));
                  [apply ReportText.lasting_prefix|]|].
    split; [intros item Hi;
            apply (ReportText.outputs_part_keeps
                     (fun t => Py.contains (PrivacyReport.pii_line item) t
                               = true));
            [apply ReportText.lasting_contains|now apply Hp]|].
    split; [intros qi Hi;
            apply (ReportText.outputs_part_keeps
                     (fun t => Py.contains (PrivacyReport.bullet qi) t
                               = true));
            [apply ReportText.lasting_contains|now apply Hq]|].
    split; [intros rec Hi;
            apply (ReportText.outputs_part_keeps
                     (fun t => Py.contains (PrivacyReport.bullet rec) t
                               = true));
            [apply ReportText.lasting_contains|now apply Hc]|].
    exists o. split; [reflexivity|].
    intros item Hi. now apply ReportText.outputs_part_has.
  - eexists. repeat (split; [first [reflexivity | eassumption]|]).
    reflexivity.
Qed.

Lemma privacy_report_lists_findings_witness :
  exists r report,
    Privacy.analyze_dataset Terms.contacts = Py.Ok r
    /\ PrivacyReport.generate_privacy_report Terms.contacts
         (Some ["write to jane@example.org"]) = Py.Ok report
    /\ prefix PrivacyReport.title report = true
    /\ (forall item, In item (Privacy.pii_detected r) ->
        Py.contains (PrivacyReport.pii_line item) report = true)
    /\ (forall qi, In qi (Privacy.quasi_identifiers r) ->
        Py.contains (PrivacyReport.bullet qi) report = true)
    /\ (forall rec, In rec (Privacy.recommendations r) ->
        Py.contains (PrivacyReport.bullet rec) report = true)
    /\ exists o,
         PrivacyOutputs.analyze_model_outputs ["write to jane@example.org"]
           (Some Terms.contacts) = Py.Ok o
         /\ forall item, In item (PrivacyOutputs.pii_in_outputs o) ->
              Py.contains (PrivacyReport.count_line item) report = true.
Proof.
  apply (privacy_report_lists_findings Terms.contacts
           (Some ["write to jane@example.org"])).
  - repeat constructor; simpl; intuition discriminate.
  - simpl. lia.
Defined.

(* ================================================================== *)
(** * The caller and the basic bias analysis *)

Module CallerFacts.
Import Py Frame App.

Lemma feature_cols_in : forall data label_col protected_cols c,
  In c (feature_cols data label_col protected_cols)
  <-> In c (Terms.names data)
      /\ c <> label_col /\ ~ In c protected_cols.
Proof.
  intros data label_col protected_cols c. unfold feature_cols.
  rewrite filter_In. unfold Terms.names.
  split; intros [H1 H2]; (split; [exact H1|]).
  - apply negb_true_iff in H2. split.
    + intros ->. cbn [existsb] in H2. rewrite String.eqb_refl in H2.
      discriminate.
    + intros Hp.
      assert (E : existsb (String.eqb c) (label_col :: protected_cols)
                  = true).
      { apply existsb_exists. exists c.
        split; [now right|apply String.eqb_refl]. }
      congruence.
  - apply negb_true_iff.
    destruct (existsb (String.eqb c) (label_col :: protected_cols)) eqn:E;
      [|reflexivity].
    apply existsb_exists in E as [x [Hx E]]. apply String.eqb_eq in E.
    subst x. destruct H2 as [Hl Hp]. destruct Hx as [Hx|Hx].
    + now symmetry in Hx.
    + contradiction.
Qed.

Lemma selectable_in : forall data label_col c,
  In c (selectable data label_col)
  <-> In c (Terms.names data) /\ c <> label_col.
Proof.
  intros data label_col c. unfold selectable. rewrite filter_In.
  unfold Terms.names. rewrite negb_true_iff.
  split; intros [H1 H2]; (split; [exact H1|]).
  - intros ->. rewrite String.eqb_refl in H2. discriminate.
  - now apply String.eqb_neq.
Qed.

Lemma prepare_ready : forall data label_col protected_cols cols y,
  prepare data label_col protected_cols = Ok (Ready cols y) ->
  cols = feature_cols data label_col protected_cols
  /\ cols <> []
  /\ exists label,
       getitem (columns data) label_col = Ok label
       /\ Bias.label_values (col_data label) = Some y.
Proof.
  intros data label_col protected_cols cols y H. unfold prepare in H.
  destruct (feature_cols data label_col protected_cols) as [|c cs];
    [discriminate|].
  destruct (getitem (columns data) label_col) as [label|e];
    [|discriminate].
  cbn [bind] in H.
  destruct (Bias.label_values (col_data label)) as [labels|] eqn:Hv;
    [|discriminate].
  injection H as <- <-. split; [reflexivity|]. split; [discriminate|].
  exists label. now split.
Qed.

Lemma prepare_returns : forall data label_col protected_cols,
  In label_col (Terms.names data) ->
  exists o, prepare data label_col protected_cols = Ok o.
Proof.
  intros data label_col protected_cols H. unfold prepare.
  destruct (feature_cols data label_col protected_cols) as [|c cs];
    [eexists; reflexivity|].
  destruct (StageFacts.getitem_present _ _ H) as [label [-> _]].
  cbn [bind].
  destruct (Bias.label_values (col_data label)); eexists; reflexivity.
Qed.

End CallerFacts.

(** X18.  With the label picked from the columns of the data and the
    protected attributes from the other columns, as the side bar has it,
    the preparation of an audit does not raise.  When it gets past its two
    checks, the feature columns are the columns of the data other than the
    label and the protected attributes, at least one, and the basic bias
    analysis of the same data neither raises nor skips an attribute: it
    prints one table of group statistics for each. *)
Theorem prepared_audit_is_analysed :
  forall (to_numeric : string -> option Q) (data : Frame.DataFrame)
         (label_col : string) (protected_cols : list string)
         (X_processed : option Frame.DataFrame)
         (y_processed : option Frame.data),
    In label_col (Terms.names data) ->
    incl protected_cols (App.selectable data label_col) ->
    (exists o, App.prepare data label_col protected_cols = Py.Ok o)
    /\ forall cols y,
         App.prepare data label_col protected_cols
         = Py.Ok (App.Ready cols y) ->
         cols <> []
         /\ (forall c, In c cols <->
                       In c (Terms.names data)
                       /\ c <> label_col /\ ~ In c protected_cols)
         /\ let self :=
              Bias.new data label_col protected_cols X_processed
                y_processed in
            let out := fst (Bias.basic_bias_analysis to_numeric self) in
            snd (Bias.basic_bias_analysis to_numeric self) = Py.Ok tt
            /\ List.length (filter Terms.is_table out)
               = List.length protected_cols
            /\ filter Terms.is_skip out = [].
Proof.
  intros to_numeric data label_col protected_cols X_processed y_processed
    Hl Hp.
  split; [now apply CallerFacts.prepare_returns|].
  intros cols y H.
  destruct (CallerFacts.prepare_ready _ _ _ _ _ H)
    as [-> [Hne [label [Hg Hv]]]].
  split; [exact Hne|]. split; [intros c; apply CallerFacts.feature_cols_in|].
  intros self out.
  assert (Ha : Forall (fun attr =>
                         In attr (map Frame.col_name
                                    (Frame.columns (Bias.dataset self))))
                 (Bias.protected_attributes self)).
  { apply Forall_forall. intros attr Hin.
    apply Hp, CallerFacts.selectable_in in Hin. exact (proj1 Hin). }
  destruct (BiasCounts.analyse_all_counts to_numeric self label y
              (Bias.protected_attributes self) Hg Hv Ha) as [Hs [Ht Hk]].
  subst out. unfold Bias.basic_bias_analysis.
  destruct (Bias.analyse_all to_numeric self (Bias.protected_attributes self))
    as [out r].
  cbn [fst snd] in *. split; [exact Hs|].
  cbn [filter Terms.is_table Terms.is_skip].
  split; [exact Ht|exact Hk].
Qed.

Lemma prepared_audit_is_analysed_witness :
  App.prepare Notions.applicants "approved" ["gender"]
  = Py.Ok (App.Ready ["score"]
             [Some (inject_Z 0); Some (inject_Z 1); Some (inject_Z 1);
              Some (inject_Z 1)])
  /\ let self :=
       Bias.new Notions.applicants "approved" ["gender"] None None in
     let out := fst (Bias.basic_bias_analysis Notions.no_numeric self) in
     snd (Bias.basic_bias_analysis Notions.no_numeric self) = Py.Ok tt
     /\ List.length (filter Terms.is_table out) = List.length ["gender"]
     /\ filter Terms.is_skip out = [].
Proof.
  split; [reflexivity|].
  refine
    (proj2 (proj2
       (proj2
          (prepared_audit_is_analysed Notions.no_numeric Notions.applicants
             "approved" ["gender"] None None _ _)
          ["score"]
          [Some (inject_Z 0); Some (inject_Z 1); Some (inject_Z 1);
           Some (inject_Z 1)]
          eq_refl))).
  - right. right. left. reflexivity.
  - intros c [<-|[]]. left. reflexivity.
Defined.

(* ================================================================== *)
(** * The extended bias analysis and the recommendations *)

Module FairlearnFacts.
Import Py Frame Bias.
Import Terms.

Lemma length_append : forall a s,
  String.length (a ++ s) = (String.length a + String.length s)%nat.
Proof.
  induction a as [|x a IH]; intros s; simpl; [reflexivity|].
  now rewrite IH.
Qed.

Lemma append_inj : forall a b s, a ++ s = b ++ s -> a = b.
Proof.
  induction a as [|x a IH]; intros [|y b] s H.
  - reflexivity.
  - apply (f_equal String.length) in H. simpl in H.
    rewrite length_append in H. lia.
  - apply (f_equal String.length) in H. simpl in H.
    rewrite length_append in H. lia.
  - simpl in H. injection H as -> H. f_equal. now apply (IH b s).
Qed.

Lemma last_char_append : forall a c s,
  last_char (a ++ String c s) = last_char (String c s).
Proof.
  induction a as [|x a IH]; intros c s; [reflexivity|].
  change (String x a ++ String c s) with (String x (a ++ String c s)).
  specialize (IH c s).
  destruct (a ++ String c s) as [|y t] eqn:E.
  - destruct a; discriminate.
  - exact IH.
Qed.

Lemma keys_differ : forall a b,
  a ++ "_fairlearn_metrics" <> b ++ "_demographic_parity_diff".
Proof.
  intros a b H. apply (f_equal last_char) in H.
  rewrite !last_char_append in H. discriminate.
Qed.

Section Loop.

Variable predictions : Type.
Variable metrics :
  BiasDetector -> predictions -> string -> exn (object * object).
Variable self : BiasDetector.
Variable y_pred : predictions.

Lemma loop_results : forall attrs res res',
  fairlearn_loop predictions metrics self y_pred attrs res = Ok res' ->
  (forall attr, In attr attrs ->
     exists by_group dem_parity_diff,
       metrics self y_pred attr = Ok (by_group, dem_parity_diff)
       /\ get (attr ++ "_fairlearn_metrics") res' = Some by_group
       /\ get (attr ++ "_demographic_parity_diff") res'
          = Some dem_parity_diff)
  /\ (forall k,
        (forall attr, In attr attrs ->
           k <> attr ++ "_fairlearn_metrics"
           /\ k <> attr ++ "_demographic_parity_diff") ->
        get k res' = get k res)
  /\ (forall k, has_key k res = true -> has_key k res' = true).
Proof.
  induction attrs as [|a attrs IH]; intros res res' H;
    cbn [fairlearn_loop] in H.
  - injection H as <-. repeat split; auto. intros attr [].
  - destruct (metrics self y_pred a) as [[m d]|e] eqn:Em; cbn [bind] in H;
      [|discriminate].
    destruct (IH _ _ H) as [I1 [I2 I3]]. split; [|split].
    + intros attr [<-|Hin]; [|exact (I1 attr Hin)].
      exists m, d. split; [exact Em|].
      destruct (in_dec string_dec a attrs) as [Hin|Hn].
      * destruct (I1 a Hin) as [m' [d' [E [G1 G2]]]].
        rewrite Em in E. injection E as <- <-. now split.
      * rewrite !I2.
        -- split.
           ++ rewrite PiiFacts.get_set_other, UniquenessFacts.get_set_same;
                [reflexivity|].
              apply String.eqb_neq, keys_differ.
           ++ apply UniquenessFacts.get_set_same.
        -- intros attr Hin. split.
           ++ intros E. symmetry in E. exact (keys_differ _ _ E).
           ++ intros E. apply append_inj in E. now subst.
        -- intros attr Hin. split.
           ++ intros E. apply append_inj in E. now subst.
           ++ apply keys_differ.
    + intros k Hk. rewrite I2 by (intros attr Hin; apply Hk; now right).
      destruct (Hk a (or_introl eq_refl)) as [H1 H2].
      rewrite !PiiFacts.get_set_other; [reflexivity| |];
        now apply String.eqb_neq.
    + intros k Hk. apply I3. now apply PiiFacts.has_key_kept,
        PiiFacts.has_key_kept.
Qed.

Lemma loop_returns : forall attrs res,
  (forall attr, In attr attrs ->
     exists r, metrics self y_pred attr = Ok r) ->
  exists res', fairlearn_loop predictions metrics self y_pred attrs res
               = Ok res'.
Proof.
  induction attrs as [|a attrs IH]; intros res H; cbn [fairlearn_loop].
  - eexists. reflexivity.
  - destruct (H a (or_introl eq_refl)) as [[m d] ->]. cbn [bind].
    apply IH. intros attr Hin. apply H. now right.
Qed.

Lemma loop_stops : forall before failing after e res,
  (forall attr, In attr before ->
     exists r, metrics self y_pred attr = Ok r) ->
  metrics self y_pred failing = Raise e ->
  fairlearn_loop predictions metrics self y_pred
    (before ++ failing :: after) res = Raise e.
Proof.
  induction before as [|a before IH]; intros failing after e res H He;
    cbn [app fairlearn_loop].
  - now rewrite He.
  - destruct (H a (or_introl eq_refl)) as [[m d] ->]. cbn [bind].
    apply IH; [|exact He]. intros attr Hin. apply H. now right.
Qed.

End Loop.

End FairlearnFacts.

Module AdviceFacts.
Import Py Frame Privacy.
Import Terms.

Lemma recommendations_of : forall df r,
  analyze_dataset df = Ok r ->
  recommendations r
  = ((match pii_detected r with
      | [] => []
      | _ => [ pii_advice; "🔒 Consider data anonymization techniques" ]
      end) ++
     (match quasi_identifiers r with
      | [] => []
      | _ => [ qi_advice;
               "🔒 Consider generalization/suppression of sensitive attributes" ]
      end) ++
     (match high_unique_cols (uniqueness_risk r) with
      | [] => []
      | _ => [ unique_advice; "🔒 Consider data aggregation or binning" ]
      end) ++ general_advice)%list.
Proof.
  intros df r H. unfold analyze_dataset in H.
  destruct (_analyze_uniqueness df) as [uniq|e]; cbn [bind] in H;
    [|discriminate].
  injection H as <-. reflexivity.
Qed.

End AdviceFacts.

(** X19.  With the fairness library at hand, a model that predicts and
    metrics that are computed for every protected attribute, the extended
    analysis returns, and its results hold for every protected attribute,
    also one listed twice, the by-group table under
    [<attr>_fairlearn_metrics] and the demographic parity difference under
    [<attr>_demographic_parity_diff]: no entry of one attribute is
    overwritten by that of another.  Every other key keeps the value it
    had, and no key is lost. *)
Theorem fairlearn_results_for_every_attribute :
  forall (predictions : Type)
         (predict : Bias.BiasDetector -> Py.exn predictions)
         (metrics : Bias.BiasDetector -> predictions -> string ->
                    Py.exn (Bias.object * Bias.object))
         (self : Bias.BiasDetector) (y_pred : predictions),
    predict self = Py.Ok y_pred ->
    (forall attr, In attr (Bias.protected_attributes self) ->
       exists r, metrics self y_pred attr = Py.Ok r) ->
    exists res,
      Bias.fairlearn_analysis true predictions predict metrics self
      = Py.Ok res
      /\ (forall attr, In attr (Bias.protected_attributes self) ->
            exists by_group dem_parity_diff,
              metrics self y_pred attr = Py.Ok (by_group, dem_parity_diff)
              /\ Py.get (attr ++ "_fairlearn_metrics") res = Some by_group
              /\ Py.get (attr ++ "_demographic_parity_diff") res
                 = Some dem_parity_diff)
      /\ (forall k,
            (forall attr, In attr (Bias.protected_attributes self) ->
               k <> attr ++ "_fairlearn_metrics"
               /\ k <> attr ++ "_demographic_parity_diff") ->
            Py.get k res = Py.get k (Bias.results self))
      /\ (forall k, Py.has_key k (Bias.results self) = true ->
                    Py.has_key k res = true).
Proof.
  intros predictions predict metrics self y_pred Hp Hm.
  unfold Bias.fairlearn_analysis. rewrite Hp. cbn [Py.bind].
  destruct (FairlearnFacts.loop_returns predictions metrics self y_pred
              (Bias.protected_attributes self) (Bias.results self) Hm)
    as [res Hres].
  exists res. split; [exact Hres|].
  exact (FairlearnFacts.loop_results predictions metrics self y_pred
           _ _ _ Hres).
Qed.

Lemma fairlearn_results_for_every_attribute_witness :
  let self :=
    Bias.new Notions.applicants "approved" ["gender"; "score"; "gender"]
      None None in
  exists res,
    Bias.fairlearn_analysis true unit Terms.unit_predict
      (Terms.metrics_but "age") self = Py.Ok res
    /\ (forall attr, In attr (Bias.protected_attributes self) ->
          exists by_group dem_parity_diff,
            Terms.metrics_but "age" self tt attr
            = Py.Ok (by_group, dem_parity_diff)
            /\ Py.get (attr ++ "_fairlearn_metrics") res = Some by_group
            /\ Py.get (attr ++ "_demographic_parity_diff") res
               = Some dem_parity_diff)
    /\ (forall k,
          (forall attr, In attr (Bias.protected_attributes self) ->
             k <> attr ++ "_fairlearn_metrics"
             /\ k <> attr ++ "_demographic_parity_diff") ->
          Py.get k res = Py.get k (Bias.results self))
    /\ (forall k, Py.has_key k (Bias.results self) = true ->
                  Py.has_key k res = true).
Proof.
  apply (fairlearn_results_for_every_attribute unit Terms.unit_predict
           (Terms.metrics_but "age")
           (Bias.new Notions.applicants "approved"
              ["gender"; "score"; "gender"] None None) tt).
  - reflexivity.
  - intros attr [<-|[<-|[<-|[]]]]; eexists; reflexivity.
Defined.

Section FairnessStage.
Import Py Frame Pipeline.

Variable to_numeric : string -> option Q.
Variable predictions : Type.
Variable predict : Bias.BiasDetector -> exn predictions.
Variable metrics :
  Bias.BiasDetector -> predictions -> string -> exn (Bias.object * Bias.object).
Variable model : Type.
Variable explain : model -> DataFrame -> exn explanation.
Variable comprehensive_analysis :
  list string -> option (list (string * string)) -> exn hallucination_results.

(** X20.  When the basic analysis returns and the metrics of one protected
    attribute raise, those of the attributes before it having been
    computed, the extended analysis raises that exception and the audit
    holds only the error marker with its message as bias entry: the
    metrics computed before are not in the audit, and the summary lists no
    bias issue. *)
Theorem failing_attribute_discards_metrics :
  forall now dataset X_processed y_processed label_column before failing
         after m test_prompts reference_facts y_pred e,
    let self :=
      Bias.new dataset label_column (before ++ failing :: after)%list
        (Some X_processed) (Some y_processed) in
    snd (Bias.basic_bias_analysis to_numeric self) = Ok tt ->
    predict self = Ok y_pred ->
    (forall attr, In attr before ->
       exists r, metrics self y_pred attr = Ok r) ->
    metrics self y_pred failing = Raise e ->
    let r :=
      run_full_audit to_numeric true predictions predict metrics model
        explain comprehensive_analysis now dataset X_processed y_processed
        label_column (before ++ failing :: after)%list m test_prompts
        reference_facts in
    Bias.fairlearn_analysis true predictions predict metrics self = Raise e
    /\ bias_analysis r = [("error", {| Bias.str := exc_message e |})]
    /\ Terms.lists_bias (issues_found (audit_summary r)) = false.
Proof.
  intros now dataset X_processed y_processed label_column before failing
    after m test_prompts reference_facts y_pred e self Hb Hp Hm He r.
  assert (F : Bias.fairlearn_analysis true predictions predict metrics self
              = Raise e).
  { unfold Bias.fairlearn_analysis. rewrite Hp. cbn [bind].
    subst self. cbn [Bias.protected_attributes Bias.new].
    now apply FairlearnFacts.loop_stops. }
  assert (B : bias_analysis r
              = [("error", {| Bias.str := exc_message e |})]).
  { subst r. unfold run_full_audit. cbn [bias_analysis].
    unfold Bias.generate_report. fold self.
    destruct (Bias.basic_bias_analysis to_numeric self) as [out [u|e']];
      cbn [snd] in *; [|discriminate].
    rewrite F. reflexivity. }
  split; [exact F|]. split; [exact B|].
  subst r. unfold run_full_audit in *. cbn [audit_summary bias_analysis] in *.
  apply StageFacts.unflagged_issues.
  unfold Terms.bias_flagged. cbn [bias_analysis]. rewrite B.
  reflexivity.
Qed.

End FairnessStage.

Lemma failing_attribute_discards_metrics_witness :
  let r :=
    Pipeline.run_full_audit Notions.no_numeric true unit Terms.unit_predict
      (Terms.metrics_but "score") unit Notions.no_explain
      Notions.no_analysis "2026-01-01T09:00:00" Notions.applicants
      Notions.features (Frame.Int64 [0; 1; 1; 1]) "approved"
      ["gender"; "score"; "gender"] tt None None in
  Pipeline.bias_analysis r
  = [("error", {| Bias.str := "Input contains NaN" |})]
  /\ Terms.lists_bias (Pipeline.issues_found (Pipeline.audit_summary r))
     = false.
Proof.
  refine
    (let H :=
       failing_attribute_discards_metrics Notions.no_numeric unit
         Terms.unit_predict (Terms.metrics_but "score") unit
         Notions.no_explain Notions.no_analysis "2026-01-01T09:00:00"
         Notions.applicants Notions.features (Frame.Int64 [0; 1; 1; 1])
         "approved" ["gender"] "score" ["gender"] tt None None tt
         {| Py.exc_class := "ValueError";
            Py.exc_message := "Input contains NaN" |} _ _ _ _ in
     proj2 H).
  - reflexivity.
  - reflexivity.
  - intros attr [<-|[]]. eexists. reflexivity.
  - reflexivity.
Defined.

(** X21.  The recommendations of a dataset analysis tell what was found:
    the advice to remove or encrypt PII is among them exactly when PII was
    detected, the advice on k-anonymity exactly when a quasi-identifier
    was found, the advice on granularity exactly when some uniqueness
    ratio is above 0.9; the three general recommendations always come
    last, after at most six specific ones. *)
Theorem advice_follows_findings :
  forall (df : Frame.DataFrame) (r : Privacy.results),
    Privacy.analyze_dataset df = Py.Ok r ->
    (In Terms.pii_advice (Privacy.recommendations r)
     <-> Privacy.pii_detected r <> [])
    /\ (In Terms.qi_advice (Privacy.recommendations r)
        <-> Privacy.quasi_identifiers r <> [])
    /\ (In Terms.unique_advice (Privacy.recommendations r)
        <-> Terms.high_unique_cols (Privacy.uniqueness_risk r) <> [])
    /\ exists specific,
         Privacy.recommendations r = (specific ++ Terms.general_advice)%list
         /\ (List.length specific <= 6)%nat.
Proof.
  intros df r H. rewrite (AdviceFacts.recommendations_of df r H).
  destruct (Privacy.pii_detected r) as [|p ps];
    destruct (Privacy.quasi_identifiers r) as [|q qs];
    destruct (Terms.high_unique_cols (Privacy.uniqueness_risk r))
      as [|h hs];
    cbn [app];
    (split; [|split; [|split]]);
    try (split;
         [ intros Hin;
           first [ discriminate
                 | exfalso; simpl in Hin;
                   repeat (destruct Hin as [Hin|Hin]; [discriminate Hin|]);
                   exact Hin ]
         | intros Hne; first [ congruence | simpl; tauto ] ]).
  all: match goal with
       | |- exists _, ?l = _ /\ _ =>
           first
             [ exists []; split; [reflexivity|simpl; lia]
             | exists (firstn 2 l); split; [reflexivity|simpl; lia]
             | exists (firstn 4 l); split; [reflexivity|simpl; lia]
             | exists (firstn 6 l); split; [reflexivity|simpl; lia] ]
       end.
Qed.

Lemma advice_follows_findings_witness :
  exists r,
    Privacy.analyze_dataset Terms.contacts = Py.Ok r
    /\ (In Terms.pii_advice (Privacy.recommendations r)
        <-> Privacy.pii_detected r <> []).
Proof.
  eexists. split; [reflexivity|].
  exact (proj1 (advice_follows_findings Terms.contacts _ eq_refl)).
Defined.
